(** * Deformer-stack reconciliation of the facial autorig

    A shallow embedding of the deformer-stack code of [utils.py] and
    [build.py].  The scripts are sequences of host commands
    ([maya.cmds], [autorig.deformers], the logger); they are embedded as
    terms of a free monad over those commands, so that one definition
    can be read against its Python source line by line, run against any
    host, and inspected for the commands it issues. *)

From Stdlib Require Import String Ascii List ZArith Bool Lia.
From stdpp Require Import base option list strings gmap.
Import ListNotations.

Local Open Scope string_scope.
Local Open Scope list_scope.

(** ** Python values and exceptions *)

(** Exceptions a script can end with.  [HostError] is an exception
    raised inside a host command; the others are raised by the Python
    code itself.  [NotModelled] marks a use of a Python feature outside
    the fragment embedded here (see [format]). *)
Inductive exn : Type :=
| ValueError (msg : string)
| KeyError (key : string)
| IndexError
| TypeError (msg : string)
| UnboundLocalError (var : string)
| RuntimeError (msg : string)
| HostError (msg : string)
| NotModelled (what : string).

Inductive outcome (A : Type) : Type :=
| Returned (a : A)
| Raised (e : exn).
Arguments Returned {A} a.
Arguments Raised {A} e.

Definition outcome_bind {A B} (o : outcome A) (f : A -> outcome B) : outcome B :=
  match o with
  | Returned a => f a
  | Raised e => Raised e
  end.

(** Numbers handed to [setAttr]: Python ints, and floats kept as a
    decimal mantissa and exponent. *)
Inductive pynum : Type :=
| PInt (z : Z)
| PFloat (mantissa exponent : Z).

(** ** Strings *)

Definition startswith (s pre : string) : bool := String.prefix pre s.

Fixpoint contains (sub s : string) : bool :=
  String.prefix sub s ||
  match s with
  | EmptyString => false
  | String _ r => contains sub r
  end.

Fixpoint endswith (s suf : string) : bool :=
  String.eqb s suf ||
  match s with
  | EmptyString => false
  | String _ r => endswith r suf
  end.

(** [s.split(sep)] for a one-character separator: never empty. *)
Fixpoint split (sep : ascii) (s : string) : list string :=
  match s with
  | EmptyString => [EmptyString]
  | String c r =>
    if Ascii.eqb c sep then EmptyString :: split sep r
    else match split sep r with
         | h :: t => String c h :: t
         | [] => [String c EmptyString]
         end
  end.

(** [s.split("_")[0]] and [s.split("_")[-1]]. *)
Definition first_token (s : string) : string := List.hd "" (split "_" s).
Definition last_token (s : string) : string := List.last (split "_" s) "".

(** *** [str.format]

    The fragment of the format mini-language the name templates use:
    literal text, the escapes [{{] and [}}], the auto-numbered field
    [{}] and named fields [{name}].  The template is read from left to
    right and a field is filled in when its closing brace is met, so
    the exception raised is that of the first defect met.  Conversions,
    format specs, attribute or index access and explicit positional
    indices end in [NotModelled]. *)
Inductive pstate : Type :=
| Outside
| AfterOpen
| AfterClose
| InField (acc : string).

Definition field_char_modelled (c : ascii) : bool :=
  negb (existsb (Ascii.eqb c) ["!"; ":"; "."; "["; "]"]%char).

Definition is_digit (c : ascii) : bool :=
  (48 <=? nat_of_ascii c)%nat && (nat_of_ascii c <=? 57)%nat.

Fixpoint all_digits (s : string) : bool :=
  match s with
  | EmptyString => true
  | String c r => is_digit c && all_digits r
  end.

Fixpoint lookup_str {V} (k : string) (kv : list (string * V)) : option V :=
  match kv with
  | [] => None
  | (k', v) :: r => if String.eqb k' k then Some v else lookup_str k r
  end.

(** The text [v] put in front of what the rest of the template gives. *)
Definition prepend (v : string) (o : outcome string) : outcome string :=
  outcome_bind o (fun t => Returned (v +:+ t)).

Fixpoint format_from (s : string) (st : pstate) (args : list string)
    (kwargs : list (string * string)) (next : nat) : outcome string :=
  match s, st with
  | EmptyString, Outside => Returned ""
  | EmptyString, AfterClose => Raised (ValueError "Single '}' encountered in format string")
  | EmptyString, AfterOpen => Raised (ValueError "Single '{' encountered in format string")
  | EmptyString, InField _ => Raised (ValueError "expected '}' before end of string")
  | String c r, Outside =>
    if Ascii.eqb c "{" then format_from r AfterOpen args kwargs next
    else if Ascii.eqb c "}" then format_from r AfterClose args kwargs next
    else prepend (String c EmptyString) (format_from r Outside args kwargs next)
  | String c r, AfterOpen =>
    if Ascii.eqb c "{" then prepend "{" (format_from r Outside args kwargs next)
    else if Ascii.eqb c "}" then
      match nth_error args next with
      | None => Raised IndexError
      | Some v => prepend v (format_from r Outside args kwargs (S next))
      end
    else if field_char_modelled c
    then format_from r (InField (String c EmptyString)) args kwargs next
    else Raised (NotModelled "format field")
  | String c r, AfterClose =>
    if Ascii.eqb c "}" then prepend "}" (format_from r Outside args kwargs next)
    else Raised (ValueError "Single '}' encountered in format string")
  | String c r, InField acc =>
    if Ascii.eqb c "}" then
      if all_digits acc then Raised (NotModelled "positional format index")
      else match lookup_str acc kwargs with
           | None => Raised (KeyError acc)
           | Some v => prepend v (format_from r Outside args kwargs next)
           end
    else if Ascii.eqb c "{" then Raised (ValueError "unexpected '{' in field name")
    else if field_char_modelled c
    then format_from r (InField (acc +:+ String c EmptyString)) args kwargs next
    else Raised (NotModelled "format field")
  end.

(** [template.format( *args, **kwargs)]. *)
Definition format (template : string) (args : list string)
    (kwargs : list (string * string)) : outcome string :=
  format_from template Outside args kwargs 0.


(** ** Host commands

    One constructor per host call the scripts make, with the arguments
    the source passes.  The index is the Python type of the result;
    calls that return a list or [None] have an [option (list string)]. *)
Inductive relatives : Type :=
| Children
| Shapes (fullPath : bool).

Inductive cmd : Type -> Type :=
(* cmds.objExists(name) *)
| ObjExists (name : string) : cmd bool
(* cmds.listRelatives(node, children=True) / (node, shapes=True[, fullPath=True]) *)
| ListRelatives (node : string) (which : relatives) : cmd (option (list string))
(* cmds.listHistory(node, pruneDagObjects=True) *)
| ListHistory (node : string) : cmd (option (list string))
(* cmds.ls(name, type=typ) *)
| Ls (pattern typ : string) : cmd (option (list string))
(* cmds.deformer(deformer, edit=True, geometry=target) *)
| DeformerAddGeometry (deformer target : string) : cmd unit
(* cmds.cluster(meshes, name=name) *)
| Cluster (meshes : list string) (name : string) : cmd (list string)
(* cmds.lattice(meshes, name=name, objectCentered=True) *)
| Lattice (meshes : list string) (name : string) : cmd (list string)
(* cmds.blendShape(meshes, name=name) *)
| BlendShape (meshes : list string) (name : string) : cmd (list string)
(* cmds.wire(mesh, wire=wires, name=name) *)
| Wire (mesh : string) (wires : list string) (name : string) : cmd (list string)
(* autorig.deformers.create_wrap(driver, driven, name) *)
| CreateWrap (driver driven name : string) : cmd unit
(* autorig.deformers.create_proximity_wrap(drivers, drivens, name) *)
| CreateProximityWrap (drivers drivens : list string) (name : string) : cmd unit
(* cmds.nonLinear(mesh, name=name, type=typ) *)
| NonLinear (mesh name typ : string) : cmd (list string)
(* cmds.deformer([mesh,] type=typ, name=name); without a mesh the host
   uses the current selection *)
| Deformer (mesh : option string) (typ name : string) : cmd (list string)
(* cmds.skinCluster(name, edit=True, addInfluence=joints, lockWeights=lock) *)
| SkinClusterAddInfluence (name : string) (joints : list string) (lockWeights : bool) : cmd unit
(* cmds.skinCluster(joints, mesh, bindMethod=.., toSelectedBones=..,
   maximumInfluences=.., normalizeWeights=.., removeUnusedInfluence=..,
   obeyMaxInfluences=.., name=name) *)
| SkinCluster (joints : list string) (mesh : string) (bindMethod : Z)
    (toSelectedBones : bool) (maximumInfluences normalizeWeights : Z)
    (removeUnusedInfluence obeyMaxInfluences : bool) (name : string) : cmd (list string)
(* cmds.setAttr(node + "." + attribute, value); the plug is kept as
   its two parts *)
| SetAttr (node attribute : string) (value : pynum) : cmd unit
(* cmds.connectAttr(src_node + "." + src_attribute, dst_node + "." + dst_attribute) *)
| ConnectAttr (src dst : string * string) : cmd unit
(* cmds.parent(child, parent) *)
| Parent (child parent : string) : cmd unit
(* cmds.rename(objects, new_name) *)
| Rename (objects : list string) (new_name : string) : cmd string
(* cmds.delete(nodes) *)
| Delete (nodes : list string) : cmd unit
(* LOG.info(message) *)
| LogInfo (message : string) : cmd unit.

(** ** Scripts *)

Inductive script (A : Type) : Type :=
| Return (a : A)
| Raise (e : exn)
| Call {X : Type} (c : cmd X) (k : X -> script A).
Arguments Return {A} a.
Arguments Raise {A} e.
Arguments Call {A X} c k.

Fixpoint bind {A B} (p : script A) (f : A -> script B) : script B :=
  match p with
  | Return a => f a
  | Raise e => Raise e
  | Call c k => Call c (fun x => bind (k x) f)
  end.

Notation "'let*' x ':=' p 'in' q" := (bind p (fun x => q))
  (at level 10, x pattern, p at level 100, q at level 200).

Definition call {X} (c : cmd X) : script X := Call c Return.

Definition lift {A} (o : outcome A) : script A :=
  match o with
  | Returned a => Return a
  | Raised e => Raise e
  end.

(** [for x in xs: body(x)] *)
Fixpoint for_each {A} (xs : list A) (body : A -> script unit) : script unit :=
  match xs with
  | [] => Return tt
  | x :: r => let* _ := body x in for_each r body
  end.

(** A [for] loop whose body updates local variables [V]. *)
Fixpoint for_fold {A V} (xs : list A) (v : V) (body : V -> A -> script V) : script V :=
  match xs with
  | [] => Return v
  | x :: r => let* v' := body v x in for_fold r v' body
  end.

(** Truthiness of what the scripts test with [if x:] / [x or y]. *)
Definition truthy_str (s : string) : bool := negb (String.eqb s "").
Definition truthy_opt_str (o : option string) : bool :=
  match o with
  | Some s => truthy_str s
  | None => false
  end.
Definition or_empty (o : option (list string)) : list string := default [] o.

(** [xs[i]] and [xs[-1]] *)
Definition getitem {A} (xs : list A) (i : nat) : outcome A :=
  match nth_error xs i with
  | Some x => Returned x
  | None => Raised IndexError
  end.
Definition getlast {A} (xs : list A) : outcome A :=
  match List.rev xs with
  | x :: _ => Returned x
  | [] => Raised IndexError
  end.

(** [d[key]] on a dict kept as its list of items *)
Definition dict_get {V} (d : list (string * V)) (key : string) : outcome V :=
  match lookup_str key d with
  | Some v => Returned v
  | None => Raised (KeyError key)
  end.

(** ** Running a script against a host

    A host answers every command from its state, or raises. *)
Definition host (S : Type) : Type := forall X, cmd X -> S -> outcome (X * S).

Fixpoint run {S A} (h : host S) (p : script A) (s : S) : outcome (A * S) :=
  match p with
  | Return a => Returned (a, s)
  | Raise e => Raised e
  | Call c k =>
    match h _ c s with
    | Returned (x, s') => run h (k x) s'
    | Raised e => Raised e
    end
  end.

(** The commands a run issues, in order, up to and including one that
    raises. *)
Inductive issued : Type :=
| Issued {X : Type} (c : cmd X).

Fixpoint trace {S A} (h : host S) (p : script A) (s : S) : list issued :=
  match p with
  | Return _ => []
  | Raise _ => []
  | Call c k =>
    Issued c ::
    match h _ c s with
    | Returned (x, s') => trace h (k x) s'
    | Raised _ => []
    end
  end.

(** ** Configuration ([lfdn_td.facial.config])

    The configuration module is not part of the sources; the tables the
    scripts read from it are the fields of [config]. *)

(** One entry of [DEFORMER_SUFFIX_ASSOCIATIONS]: a dict with the keys
    ['suffix'] and ['type']. *)
Record association : Type := {
  suffix : string;
  type : string
}.

(** The value stored under a deformer key of [DEFORMERS_STACK]: [None]
    or a dict.  A field is [None] when the dict has no such key. *)
Record parameters : Type := {
  joints : option (list string);
  use_hierarchy : option bool;
  envelope : option pynum;
  source : option string
}.

(** [DEFORMERS_STACK[node]]: deformer key to parameters, in insertion
    order; and the whole table. *)
Definition stack : Type := list (string * option parameters).
Definition stacks : Type := list (string * stack).

Record config : Type := {
  DEFORMER_SUFFIX_ASSOCIATIONS : list association;
  DEFORMERS_STACK : stacks;
  GROUPS_HIERARCHY : list (string * string)
}.

(** [d[field]] on a parameters dict *)
Definition param {V} (field : string) (v : option V) : outcome V :=
  match v with
  | Some x => Returned x
  | None => Raised (KeyError field)
  end.

(** [value[...]] where [value] may be [None] *)
Definition subscriptable (p : option parameters) : outcome parameters :=
  match p with
  | Some d => Returned d
  | None => Raised (TypeError "'NoneType' object is not subscriptable")
  end.

(** ** utils.py *)

(** [list_deformers(mesh, types)] *)
Definition list_deformers (mesh : string) (types : list string)
    : script (list string * list string) :=
  let* relatives := call (ListRelatives mesh (Shapes true)) in
  match or_empty relatives with
  | [] => Return ([], [])
  | shape_node :: _ =>
    if truthy_str shape_node then
      let* history := call (ListHistory shape_node) in
      for_fold (or_empty history) ([], []) (fun acc deformer =>
        for_fold types acc (fun '(deformers, deformers_types) typ =>
          let* deformer_filtered := call (Ls deformer typ) in
          match or_empty deformer_filtered with
          | [] => Return (deformers, deformers_types)
          | d :: _ => Return (deformers ++ [d], deformers_types ++ [typ])
          end))
    else Return ([], [])
  end.

(** [get_children(node)] *)
Definition get_children (node : string) : script (list string) :=
  let* childrens := call (ListRelatives node Children) in
  Return (List.filter (fun child => negb (contains "Shape" child)) (or_empty childrens)).

(** The names one entry of the stack stands for on [target]: the first
    half of the loop body of [copy_deformers]. *)
Definition expand_deformer (target deformer : string) : outcome (list string) :=
  if startswith deformer "{}" then
    outcome_bind (format deformer ["L"] []) (fun l =>
    outcome_bind (format deformer ["R"] []) (fun r =>
    Returned [l; r]))
  else if startswith deformer "{name}" then
    outcome_bind (format deformer [] [("name", target)]) (fun d => Returned [d])
  else if startswith deformer "{side}" then
    let side_prefix := first_token target in
    outcome_bind (format deformer [] [("side", side_prefix)]) (fun d => Returned [d])
  else Returned [deformer].

(** The body of [for defo in deformers]: an existing deformer is put
    on the target, a missing one is noted with the stack entry it
    comes from. *)
Definition copy_deformer (target deformer : string) (acc : list string * list string)
    (defo : string) : script (list string * list string) :=
  let (missing, raw_missing) := acc in
  let* found := call (ObjExists defo) in
  if (found : bool) then
    let* _ := call (DeformerAddGeometry defo target) in
    Return (missing, raw_missing)
  else Return (missing ++ [defo], raw_missing ++ [deformer]).

(** The body of [for deformer in reversed(deformer_stack)]. *)
Definition copy_entry (target : string) (acc : list string * list string)
    (deformer : string) : script (list string * list string) :=
  let* deformers := lift (expand_deformer target deformer) in
  for_fold deformers acc (copy_deformer target deformer).

(** [copy_deformers(target, source, types, deformer_stack)] *)
Definition copy_deformers (target source : string) (types deformer_stack : list string)
    : script (list string * list string) :=
  let* deformer_stack :=
    match deformer_stack with
    | [] => let* found := list_deformers source types in Return (fst found)
    | _ => Return deformer_stack
    end in
  for_fold (List.rev deformer_stack) ([], []) (copy_entry target).

(** The fixed tables of [create_shrinkwrap]. *)
Definition shrinkwrap_parameters : list (string * pynum) :=
  [ ("projection", PInt 2); ("closestIfNoIntersection", PInt 1); ("reverse", PInt 0);
    ("bidirectional", PInt 1); ("boundingBoxCenter", PInt 1); ("axisReference", PInt 1);
    ("alongX", PInt 0); ("alongY", PInt 0); ("alongZ", PInt 1); ("offset", PInt 0);
    ("targetInflation", PInt 0); ("targetSmoothLevel", PInt 0); ("falloff", PInt 0);
    ("falloffIterations", PInt 1); ("shapePreservationEnable", PInt 0);
    ("shapePreservationSteps", PInt 1) ].

Definition shrinkwrap_connections : list (string * string) :=
  [ ("worldMesh", "targetGeom"); ("continuity", "continuity"); ("smoothUVs", "smoothUVs");
    ("keepBorder", "keepBorder"); ("boundaryRule", "boundaryRule");
    ("keepHardEdge", "keepHardEdge"); ("propagateEdgeHardness", "propagateEdgeHardness");
    ("keepMapBorders", "keepMapBorders") ].

(** [create_shrinkwrap(mesh, target, name, **kwargs)] *)
Definition create_shrinkwrap (mesh target name : string) (kwargs : list (string * pynum))
    : script (list string) :=
  let* relatives := call (ListRelatives target (Shapes false)) in
  let* target_shape :=
    match relatives with
    | None => Raise (TypeError "'NoneType' object is not subscriptable")
    | Some l => lift (getitem l 0)
    end in
  let* created := call (Deformer (Some mesh) "shrinkWrap" name) in
  let* shrink_wrap := lift (getitem created 0) in
  let* _ := for_each shrinkwrap_parameters (fun '(parameter, default_value) =>
              call (SetAttr shrink_wrap parameter
                            (default default_value (lookup_str parameter kwargs)))) in
  let* _ := for_each shrinkwrap_connections (fun '(out_plug, in_plug) =>
              call (ConnectAttr (target_shape, out_plug) (shrink_wrap, in_plug))) in
  Return [shrink_wrap].

(** The suffix lookup of [create_deformer] and [create_all_deformers]:
    the type of the first association with that suffix, if any. *)
Definition find_association (association_map : list association) (sfx : string)
    : option string :=
  option_map type (List.find (fun a => String.eqb (suffix a) sfx) association_map).

(** [create_deformer(name, meshes, deformer_type, association_map)];
    [groups] is [GROUPS_HIERARCHY]. *)
Definition create_deformer (groups : list (string * string)) (name : string)
    (meshes : list string) (deformer_type : option string)
    (association_map : list association) : script (option (list string)) :=
  let deformer_type :=
    if truthy_opt_str deformer_type then deformer_type
    else match find_association association_map (last_token name) with
         | Some t => Some t
         | None => deformer_type
         end in
  match deformer_type with
  | None => Return None
  | Some deformer_type =>
    if negb (truthy_str deformer_type) then Return None
    else if String.eqb deformer_type "cluster" then
      let* deformer := call (Cluster meshes name) in Return (Some deformer)
    else if String.eqb deformer_type "ffd" then
      let* deformer := call (Lattice meshes name) in Return (Some deformer)
    else if String.eqb deformer_type "blendShape" then
      let* deformer := call (BlendShape meshes name) in Return (Some deformer)
    else if String.eqb deformer_type "wire" then
      let* m0 := lift (getitem meshes 0) in
      let* deformer := call (Wire m0 (List.tl meshes) name) in Return (Some deformer)
    else if String.eqb deformer_type "wrap" then
      let* m0 := lift (getitem meshes 0) in
      let* m1 := lift (getitem meshes 1) in
      let* _ := call (CreateWrap m0 m1 name) in
      let* _ := call (SetAttr name "maxDistance" (PInt 1)) in
      let* _ := call (SetAttr name "autoWeightThreshold" (PInt 1)) in
      let* m0' := lift (getitem meshes 0) in
      let* bases := call (Ls (m0' +:+ "Base*") "transform") in
      let* bases := match bases with
                    | Some l => Return l
                    | None => Raise (TypeError "'NoneType' object is not subscriptable")
                    end in
      let* base := lift (getlast bases) in
      let* tool := lift (dict_get groups "tool") in
      let* _ := call (Parent base tool) in
      Return (Some [name])
    else if String.eqb deformer_type "proximityWrap" then
      let* m0 := lift (getitem meshes 0) in
      let* m1 := lift (getitem meshes 1) in
      let* _ := call (CreateProximityWrap [m0] [m1] name) in
      Return (Some [name])
    else if String.eqb deformer_type "shrinkWrap" then
      let* m1 := lift (getitem meshes 1) in
      let* m0 := lift (getitem meshes 0) in
      let* deformer := create_shrinkwrap m1 m0 name [] in Return (Some deformer)
    else if String.eqb deformer_type "bend" then
      let* m0 := lift (getitem meshes 0) in
      let* deformer := call (NonLinear m0 name "bend") in Return (Some deformer)
    else
      let* deformer := call (Deformer None deformer_type name) in Return (Some deformer)
  end.

(** [bind_skincluster(name, mesh, joints, use_hierarchy, method, envelope)] *)
Definition bind_skincluster (name mesh : string) (joints : list string)
    (use_hierarchy : bool) (method : Z) (envelope : pynum) : script unit :=
  let* found := call (ObjExists name) in
  let* _ :=
    if (found : bool) then
      call (SkinClusterAddInfluence name joints true)
    else
      let* _ := call (SkinCluster joints mesh method (negb use_hierarchy) 10 1 false true name) in
      Return tt in
  call (SetAttr name "envelope" envelope).

(** [get_meshes(deformer_stack_keys)] *)
Definition get_meshes (cfg : config) (deformer_stack_keys : list nat) : script (list string) :=
  let* objects :=
    lift (List.fold_right (fun i acc =>
            outcome_bind (getitem (List.map fst (DEFORMERS_STACK cfg)) i) (fun o =>
            outcome_bind acc (fun r => Returned (o :: r))))
          (Returned []) deformer_stack_keys) in
  for_fold objects [] (fun meshes obj =>
    let* side_obj :=
      if startswith obj "{}" then
        lift (outcome_bind (format obj ["L"] []) (fun l =>
              outcome_bind (format obj ["R"] []) (fun r => Returned [l; r])))
      else Return [obj] in
    for_fold side_obj meshes (fun meshes node =>
      let* found := call (ObjExists node) in
      let* node' :=
        if (found : bool) then Return (Some node)
        else if negb (String.eqb node "M_eyelash_rig_mesh") then
          let* _ := call (LogInfo (node +:+ " does not exist and he is skipped")) in
          Return None
        else Return (Some "M_eyelash_rig05_mesh") in
      match node' with
      | None => Return meshes
      | Some node =>
        let* childs := get_children node in
        let children := match childs with [] => [node] | _ => childs end in
        for_fold children meshes (fun meshes child =>
          if startswith child "{}" then
            let* l := lift (format child ["L"] []) in
            let* r := lift (format child ["R"] []) in
            Return (meshes ++ [l; r])
          else Return (meshes ++ [child]))
      end)).

(** ** build.py *)

(** The local variable [deformer_type] of [create_all_deformers]:
    [None] while it is unbound.  It is assigned in the suffix loop only
    and is never reset, so it lives across iterations, meshes and
    nodes. *)
Abbreviation local := (option string).

(** The names a node or a child stands for: both sides for a name
    starting with the side placeholder, else the name itself. *)
Definition expand_node (node : string) : outcome (list string) :=
  if startswith node "{}" then
    outcome_bind (format node ["L"] []) (fun l =>
    outcome_bind (format node ["R"] []) (fun r =>
    Returned [l; r]))
  else Returned [node].

(** The body of [for key, deformer in zip(raw_missing, missing)]. *)
Definition create_missing (cfg : config) (deformers : stack) (mesh : string)
    (deformer_type : local) (item : string * string) : script local :=
  let '(key, deformer) := item in
  let sfx := last_token deformer in
  let deformer_type :=
    match find_association (DEFORMER_SUFFIX_ASSOCIATIONS cfg) sfx with
    | Some t => Some t
    | None => deformer_type
    end in
  match deformer_type with
  | None => Raise (UnboundLocalError "deformer_type")
  | Some t =>
    if truthy_str t then
      if String.eqb t "skinCluster" then
        let* d := lift (outcome_bind (dict_get deformers key) subscriptable) in
        let* joints := lift (param "joints" (joints d)) in
        let* d := lift (outcome_bind (dict_get deformers key) subscriptable) in
        let* use_hierarchy := lift (param "use_hierarchy" (use_hierarchy d)) in
        let* d := lift (outcome_bind (dict_get deformers key) subscriptable) in
        let* envelope := lift (param "envelope" (envelope d)) in
        let* _ := bind_skincluster deformer mesh joints use_hierarchy 1 envelope in
        Return deformer_type
      else
        let* d := lift (dict_get deformers key) in
        let* meshes :=
          match d with
          | None => Return [mesh]
          | Some _ =>
            let* d := lift (outcome_bind (dict_get deformers key) subscriptable) in
            let* source := lift (param "source" (source d)) in
            Return [source; mesh]
          end in
        let* _ := create_deformer (GROUPS_HIERARCHY cfg) deformer meshes None
                    (DEFORMER_SUFFIX_ASSOCIATIONS cfg) in
        Return deformer_type
    else Return deformer_type
  end.

(** The body of [for mesh in meshes]. *)
Definition create_mesh_deformers (cfg : config) (deformers : stack)
    (deformer_type : local) (mesh : string) : script local :=
  let* (missing, raw_missing) :=
    copy_deformers mesh "" ["cluster"; "ffd"] (List.map fst deformers) in
  for_fold (List.combine raw_missing missing) deformer_type
    (create_missing cfg deformers mesh).

(** The body of [for obj in objects]. *)
Definition create_object_deformers (cfg : config) (deformers : stack)
    (deformer_type : local) (obj : string) : script local :=
  let* childs := get_children obj in
  let meshes := match childs with [] => [obj] | _ => childs end in
  for_fold meshes deformer_type (create_mesh_deformers cfg deformers).

(** The body of [for node, deformers in deformers_data.items()]. *)
Definition create_node_deformers (cfg : config) (deformer_type : local)
    (item : string * stack) : script local :=
  let '(node, deformers) := item in
  let* objects := lift (expand_node node) in
  for_fold objects deformer_type (create_object_deformers cfg deformers).

(** [create_all_deformers(deformers_data)] *)
Definition create_all_deformers (cfg : config) (deformers_data : stacks) : script unit :=
  let* _ := for_fold deformers_data None (create_node_deformers cfg) in
  Return tt.

(** [rename_scene], the block "Rename skinClusters": the two [if]s that
    fill in a [{name}] or [{side}] skinCluster name for [mesh]. *)
Definition skincluster_name_on (mesh skincluster_name : string) : outcome string :=
  outcome_bind
    (if startswith skincluster_name "{name}"
     then format skincluster_name [] [("name", mesh)]
     else Returned skincluster_name) (fun skincluster_name =>
  if startswith skincluster_name "{side}"
  then format skincluster_name [] [("side", first_token mesh)]
  else Returned skincluster_name).

(** [rename_scene], the block "Rename skinClusters": the body of
    [for mesh in meshes].  [cmds.error] raises [RuntimeError] in the
    calling script. *)
Definition rename_skincluster (deformers : stack) (mesh : string) : script unit :=
  let skincluster_name :=
    List.find (fun deformer => endswith deformer "_skinCluster") (List.map fst deformers) in
  let* (skincluster, def_typ) := list_deformers mesh ["skinCluster"] in
  match skincluster with
  | [] => Return tt
  | _ =>
    match skincluster_name with
    | None => Return tt
    | Some skincluster_name =>
      if negb (truthy_str skincluster_name) then Return tt
      else
        let* skincluster_name := lift (skincluster_name_on mesh skincluster_name) in
        (* [skincluster == skincluster_name] compares a list with a
           string and is never true *)
        let* _ :=
          if (1 <? List.length skincluster)%nat
          then Raise (RuntimeError ("One skinCluster is expected on " +:+ mesh))
          else Return tt in
        let* _ := call (Rename skincluster skincluster_name) in
        Return tt
    end
  end.

(** [rename_scene], the block "Rename skinClusters". *)
Definition rename_skinclusters (cfg : config) (deformers_data : stacks) : script unit :=
  for_each (List.combine (List.seq 0 (List.length deformers_data)) deformers_data)
    (fun item =>
      let i := fst item in
      let node := fst (snd item) in
      let* meshes := get_meshes cfg [i] in
      for_each meshes (fun mesh =>
        let* deformers := lift (dict_get deformers_data node) in
        rename_skincluster deformers mesh)).

(** ** An in-memory host

    A host that keeps the part of the scene graph the reconciler reads
    and writes: which nodes exist, the deformer chain of every
    geometry, the selection, attribute values, skinCluster influences
    and connections.  It follows the host contract the reconciler is
    written against: a node is known by its name; a command naming a
    node that does not exist raises; a new deformer consumes the output
    of the chain its geometry already has, so the history of a geometry
    lists the deformer added last first.  Handles, lattices and other
    companions of a deformer are left out, except the base transform a
    wrap leaves at the top level.  A creation whose name is taken is
    refused. *)
Record node : Type := {
  node_type : string;
  children : list string;
  shapes : list string
}.

Record scene : Type := {
  nodes : gmap string node;
  chains : gmap string (list string);
  selection : list string;
  attributes : gmap (string * string) pynum;
  influences : gmap string (list string);
  connections : list ((string * string) * (string * string))
}.

Definition mem (x : string) (l : list string) : bool := existsb (String.eqb x) l.

Definition exists_node (s : scene) (n : string) : bool :=
  match nodes s !! n with
  | Some _ => true
  | None => false
  end.

(** The deformers of geometry [g], the one added last first. *)
Definition chain (s : scene) (g : string) : list string := default [] (chains s !! g).

Definition no_object {A} (n : string) : outcome A :=
  Raised (HostError ("No object matches name: " +:+ n)).

Definition set_nodes (f : gmap string node -> gmap string node) (s : scene) : scene :=
  {| nodes := f (nodes s); chains := chains s; selection := selection s;
     attributes := attributes s; influences := influences s;
     connections := connections s |}.

Definition set_chains (f : gmap string (list string) -> gmap string (list string))
    (s : scene) : scene :=
  {| nodes := nodes s; chains := f (chains s); selection := selection s;
     attributes := attributes s; influences := influences s;
     connections := connections s |}.

Definition set_attributes
    (f : gmap (string * string) pynum -> gmap (string * string) pynum) (s : scene) : scene :=
  {| nodes := nodes s; chains := chains s; selection := selection s;
     attributes := f (attributes s); influences := influences s;
     connections := connections s |}.

Definition set_influences (f : gmap string (list string) -> gmap string (list string))
    (s : scene) : scene :=
  {| nodes := nodes s; chains := chains s; selection := selection s;
     attributes := attributes s; influences := f (influences s);
     connections := connections s |}.

Definition set_connections
    (f : list ((string * string) * (string * string))
         -> list ((string * string) * (string * string)))
    (s : scene) : scene :=
  {| nodes := nodes s; chains := chains s; selection := selection s;
     attributes := attributes s; influences := influences s;
     connections := f (connections s) |}.

(** Put deformer [d] on geometry [g]; nothing changes when it is
    already there. *)
Definition attach (d g : string) (s : scene) : scene :=
  if mem d (chain s g) then s
  else set_chains (insert g (d :: chain s g)) s.

Definition attach_all (d : string) (gs : list string) (s : scene) : scene :=
  List.fold_left (fun s g => attach d g s) gs s.

Definition add_node (n typ : string) (s : scene) : scene :=
  set_nodes (insert n {| node_type := typ; children := []; shapes := [] |}) s.

(** Create deformer [name] of type [typ] on the geometries [gs]. *)
Definition new_deformer (name typ : string) (gs : list string) (s : scene) : outcome scene :=
  if exists_node s name then Raised (HostError ("Name is taken: " +:+ name))
  else match List.find (fun g => negb (exists_node s g)) gs with
       | Some g => no_object g
       | None => Returned (attach_all name gs (add_node name typ s))
       end.

Definition created {A} (result : A) (o : outcome scene) : outcome (A * scene) :=
  outcome_bind o (fun s => Returned (result, s)).

Definition none_if_empty (l : list string) : option (list string) :=
  match l with
  | [] => None
  | _ => Some l
  end.

(** The geometry a node name or shape path stands for. *)
Definition geometry_of (s : scene) (n : string) : option string :=
  let short := List.last (split "|" n) "" in
  if exists_node s short then Some short
  else option_map fst
         (List.find (fun kv => mem short (shapes (snd kv))) (map_to_list (nodes s))).

Definition replace_name (old new : string) (l : list string) : list string :=
  List.map (fun x => if String.eqb x old then new else x) l.

Definition remove_names (gone : list string) (l : list string) : list string :=
  List.filter (fun x => negb (mem x gone)) l.

Definition rename_key {V} (old new : string) (m : gmap string V) : gmap string V :=
  match m !! old with
  | Some v => <[new := v]> (delete old m)
  | None => m
  end.

Definition on_children (f : list string -> list string) (nd : node) : node :=
  {| node_type := node_type nd; children := f (children nd); shapes := shapes nd |}.

Definition maya : host scene := fun X c =>
  match c in cmd X return scene -> outcome (X * scene) with
  | ObjExists name => fun s => Returned (exists_node s name, s)
  | ListRelatives n which => fun s =>
    match nodes s !! n with
    | None => no_object n
    | Some nd =>
      match which with
      | Children => Returned (none_if_empty (children nd), s)
      | Shapes false => Returned (none_if_empty (shapes nd), s)
      | Shapes true =>
        Returned (none_if_empty (List.map (fun sh => "|" +:+ n +:+ "|" +:+ sh) (shapes nd)), s)
      end
    end
  | ListHistory n => fun s =>
    match geometry_of s n with
    | None => no_object n
    | Some g => Returned (none_if_empty (chain s g), s)
    end
  | Ls pattern typ => fun s =>
    let has_type (kv : string * node) := String.eqb (node_type (snd kv)) typ in
    match List.rev (list_ascii_of_string pattern) with
    | "*"%char :: rpre =>
      let pre := string_of_list_ascii (List.rev rpre) in
      Returned (Some (List.map fst
        (List.filter (fun kv => String.prefix pre (fst kv) && has_type kv)
                     (map_to_list (nodes s)))), s)
    | _ =>
      match nodes s !! pattern with
      | Some nd => Returned (Some (if String.eqb (node_type nd) typ then [pattern] else []), s)
      | None => Returned (Some [], s)
      end
    end
  | DeformerAddGeometry d g => fun s =>
    if negb (exists_node s d) then no_object d
    else if negb (exists_node s g) then no_object g
    else Returned (tt, attach d g s)
  | Cluster meshes name => fun s => created [name] (new_deformer name "cluster" meshes s)
  | Lattice meshes name => fun s => created [name] (new_deformer name "ffd" meshes s)
  | BlendShape meshes name => fun s =>
    created [name] (new_deformer name "blendShape" (List.skipn (List.length meshes - 1) meshes) s)
  | Wire mesh wires name => fun s => created [name] (new_deformer name "wire" [mesh] s)
  | CreateWrap driver driven name => fun s =>
    if negb (exists_node s driver) then no_object driver
    else created tt
      (outcome_bind (new_deformer name "wrap" [driven] s) (fun s' =>
       Returned (if exists_node s' (driver +:+ "Base") then s'
                 else add_node (driver +:+ "Base") "transform" s')))
  | CreateProximityWrap drivers drivens name => fun s =>
    match List.find (fun g => negb (exists_node s g)) drivers with
    | Some g => no_object g
    | None => created tt (new_deformer name "proximityWrap" drivens s)
    end
  | NonLinear mesh name typ => fun s => created [name] (new_deformer name "nonLinear" [mesh] s)
  | Deformer mesh typ name => fun s =>
    created [name]
      (new_deformer name typ (match mesh with Some m => [m] | None => selection s end) s)
  | SkinClusterAddInfluence name js lock => fun s =>
    if negb (exists_node s name) then no_object name
    else match List.find (fun j => negb (exists_node s j)) js with
         | Some j => no_object j
         | None =>
           Returned (tt, set_influences
                           (insert name (default [] (influences s !! name) ++ js)) s)
         end
  | SkinCluster js mesh _ _ _ _ _ _ name => fun s =>
    match List.find (fun j => negb (exists_node s j)) js with
    | Some j => no_object j
    | None =>
      created [name]
        (outcome_bind (new_deformer name "skinCluster" [mesh] s) (fun s' =>
         Returned (set_influences (insert name js) s')))
    end
  | SetAttr n attribute value => fun s =>
    if negb (exists_node s n) then no_object n
    else Returned (tt, set_attributes (insert (n, attribute) value) s)
  | ConnectAttr src dst => fun s =>
    if negb (exists_node s (fst dst)) then no_object (fst dst)
    else Returned (tt, set_connections (cons (src, dst)) s)
  | Parent child parent => fun s =>
    if negb (exists_node s child) then no_object child
    else match nodes s !! parent with
         | None => no_object parent
         | Some _ =>
           Returned (tt, set_nodes (fun m =>
             alter (on_children (fun l => l ++ [child])) parent
                   (on_children (remove_names [child]) <$> m)) s)
         end
  | Rename objects new_name => fun s =>
    match objects with
    | [old] =>
      if negb (exists_node s old) then no_object old
      else if exists_node s new_name then Raised (HostError ("Name is taken: " +:+ new_name))
      else Returned (new_name,
        {| nodes := on_children (replace_name old new_name) <$> rename_key old new_name (nodes s);
           chains := replace_name old new_name <$> rename_key old new_name (chains s);
           selection := replace_name old new_name (selection s);
           attributes := attributes s;
           influences := rename_key old new_name (influences s);
           connections := connections s |})
    | _ => Raised (HostError "rename expects one object")
    end
  | Delete gone => fun s =>
    match List.find (fun n => negb (exists_node s n)) gone with
    | Some n => no_object n
    | None =>
      Returned (tt,
        {| nodes := on_children (remove_names gone) <$>
                      List.fold_right delete (nodes s) gone;
           chains := remove_names gone <$> List.fold_right delete (chains s) gone;
           selection := remove_names gone (selection s);
           attributes := attributes s;
           influences := List.fold_right delete (influences s) gone;
           connections := connections s |})
    end
  | LogInfo _ => fun s => Returned (tt, s)
  end.

(** A scene holding the given transforms, each with one shape, and the
    given joints, and nothing else. *)
Definition mesh_node (n : string) : node :=
  {| node_type := "transform"; children := []; shapes := [n +:+ "Shape"] |}.

Definition joint_node : node :=
  {| node_type := "joint"; children := []; shapes := [] |}.

Definition scene_of (meshes joints : list string) : scene :=
  {| nodes := list_to_map (List.map (fun m => (m, mesh_node m)) meshes ++
                           List.map (fun j => (j, joint_node)) joints);
     chains := ∅; selection := []; attributes := ∅; influences := ∅;
     connections := [] |}.

Definition cfg0 : config :=
  {| DEFORMER_SUFFIX_ASSOCIATIONS :=
       [ {| suffix := "cluster"; type := "cluster" |};
         {| suffix := "ffd"; type := "ffd" |};
         {| suffix := "skinCluster"; type := "skinCluster" |} ];
     DEFORMERS_STACK := [];
     GROUPS_HIERARCHY := [("tool", "tool_grp")] |}.

Definition skin0 : option parameters :=
  Some {| joints := Some ["M_jaw_jnt"]; use_hierarchy := Some false;
          envelope := Some (PInt 1); source := None |}.

Definition data0 : stacks :=
  [("M_body_compil_mesh",
    [("M_jaw_cluster", None); ("M_face_ffd", None); ("{name}_skinCluster", skin0)])].

Definition s0 := scene_of ["M_body_compil_mesh"] ["M_jaw_jnt"].


(** ** Vocabulary of the properties *)

(** [defo] is one of the names the stack entry [raw] stands for on
    [target]. *)
Definition resolution_of (target raw defo : string) : Prop :=
  exists names, expand_deformer target raw = Returned names /\ In defo names.

(** What the reconciler is to do for a skinCluster spec once the host
    has said whether the name exists: add the joints to the existing
    skinCluster, or bind a new one; then set the envelope. *)
Definition skincluster_add_influence (name : string) (joints : list string)
    (envelope : pynum) : script local :=
  let* _ := call (SkinClusterAddInfluence name joints true) in
  let* _ := call (SetAttr name "envelope" envelope) in
  Return (Some "skinCluster").

Definition skincluster_bind_new (name mesh : string) (joints : list string)
    (use_hierarchy : bool) (envelope : pynum) : script local :=
  let* _ := call (SkinCluster joints mesh 1 (negb use_hierarchy) 10 1 false true name) in
  let* _ := call (SetAttr name "envelope" envelope) in
  Return (Some "skinCluster").

(** Commands that take a node away or give it another name. *)
Definition destructive (e : issued) : bool :=
  match e with
  | Issued (Rename _ _) => true
  | Issued (Delete _) => true
  | _ => false
  end.

(** Commands that make a deformer. *)
Definition creates (e : issued) : bool :=
  match e with
  | Issued (Cluster _ _) | Issued (Lattice _ _) | Issued (BlendShape _ _)
  | Issued (Wire _ _ _) | Issued (CreateWrap _ _ _) | Issued (CreateProximityWrap _ _ _)
  | Issued (NonLinear _ _ _) | Issued (Deformer _ _ _)
  | Issued (SkinCluster _ _ _ _ _ _ _ _ _) => true
  | _ => false
  end.

(** Commands that only read the scene. *)
Definition queries (e : issued) : bool :=
  match e with
  | Issued (ObjExists _) | Issued (ListRelatives _ _) | Issued (ListHistory _)
  | Issued (Ls _ _) => true
  | _ => false
  end.

(** Every command the script can issue, whatever the host answers,
    satisfies [ok]. *)
Inductive issues_only (ok : issued -> Prop) {A : Type} : script A -> Prop :=
| only_return (a : A) : issues_only ok (Return a)
| only_raise (e : exn) : issues_only ok (Raise e)
| only_call {X : Type} (c : cmd X) (k : X -> script A) :
    ok (Issued c) -> (forall x, issues_only ok (k x)) -> issues_only ok (Call c k).

(** ** Scenes and tables used as examples *)

(** The scene a script leaves on the in-memory host. *)
Definition after {A} (p : script A) (s : scene) : scene :=
  match run maya p s with
  | Returned (_, s') => s'
  | Raised _ => s
  end.

(** The body mesh bound to two skinClusters. *)
Definition two_skins : scene :=
  after (let* _ := call (SkinCluster ["M_jaw_jnt"] "M_body_compil_mesh" 1 true 10 1 false true
                           "skinCluster1") in
         call (SkinCluster ["M_jaw_jnt"] "M_body_compil_mesh" 1 true 10 1 false true
                 "skinCluster2")) s0.

(** Commands that report to the user. *)
Definition reports (e : issued) : bool :=
  match e with
  | Issued (LogInfo _) => true
  | _ => false
  end.

(** A table whose first target is not in the scene [s0]. *)
Definition data_missing_target : stacks :=
  [("M_missing_mesh", [("M_jaw_cluster", None)]);
   ("M_body_compil_mesh", [("M_jaw_cluster", None)])].

Definition cfg_missing_target : config :=
  {| DEFORMER_SUFFIX_ASSOCIATIONS := DEFORMER_SUFFIX_ASSOCIATIONS cfg0;
     DEFORMERS_STACK := data_missing_target;
     GROUPS_HIERARCHY := GROUPS_HIERARCHY cfg0 |}.

(** Stacks with a name whose suffix [unknown] has no association: last
    in the stack, hence handled first; and handled after a
    skinCluster. *)
Definition data_unknown_first : stacks :=
  [("M_body_compil_mesh", [("M_face_ffd", None); ("M_jaw_unknown", None)])].

Definition data_unknown_after_skin : stacks :=
  [("M_body_compil_mesh", [("M_jaw_unknown", skin0); ("M_body_skinCluster", skin0)])].

(** What the reconciler is allowed to issue: nothing that deletes or
    renames, and, as it turns out, nothing that reports. *)
Definition reconciling (e : issued) : Prop := destructive e = false /\ reports e = false.

(** [s'] keeps what [s] has: every node, with its type, and every
    chain, whose deformers stay in their order nearest the shape; what
    [s'] adds to a chain is stacked after them. *)
Definition extends (s s' : scene) : Prop :=
  (forall n nd, nodes s !! n = Some nd ->
     exists nd', nodes s' !! n = Some nd' /\ node_type nd' = node_type nd)
  /\ (forall g, exists added, chain s' g = added ++ chain s g).

(** The command that puts an existing deformer on a geometry. *)
Definition attaches (e : issued) : bool :=
  match e with
  | Issued (DeformerAddGeometry _ _) => true
  | _ => false
  end.

(** The meshes [create_all_deformers] handles for an object whose node
    is [nd]: its children that are not shapes, or the object itself. *)
Definition meshes_of (nd : node) (obj : string) : list string :=
  let childs := List.filter (fun child => negb (contains "Shape" child)) (children nd) in
  match childs with
  | [] => [obj]
  | _ => childs
  end.

(** Deformer [name] exists and is on the chain of [mesh]. *)
Definition on_mesh (s : scene) (mesh name : string) : Prop :=
  exists_node s name = true /\ mem name (chain s mesh) = true.

(** Every name the stack stands for on [mesh] is a deformer on [mesh]. *)
Definition stack_applied (s : scene) (mesh : string) (deformers : stack) : Prop :=
  deformers <> []
  /\ exists_node s mesh = true
  /\ Forall (fun key => exists names, expand_deformer mesh key = Returned names
                                      /\ Forall (on_mesh s mesh) names)
            (List.map fst deformers).

(** The scene has every deformer of the table on every mesh the table
    stands for: what a run that applied every spec leaves. *)
Definition conformant (s : scene) (deformers_data : stacks) : Prop :=
  Forall (fun item : string * stack =>
            exists objects, expand_node (fst item) = Returned objects
              /\ Forall (fun obj => exists nd, nodes s !! obj = Some nd
                           /\ Forall (fun mesh => stack_applied s mesh (snd item))
                                     (meshes_of nd obj))
                        objects)
         deformers_data.


(** The scene of the scenario after one run of the reconciler. *)
Definition reconciled : scene := after (create_all_deformers cfg0 data0) s0.

(** The name of the deformer a creation command makes. *)
Definition created_name (e : issued) : option string :=
  match e with
  | Issued (Cluster _ n) | Issued (Lattice _ n) | Issued (BlendShape _ n)
  | Issued (Wire _ _ n) | Issued (CreateWrap _ _ n) | Issued (CreateProximityWrap _ _ n)
  | Issued (NonLinear _ n _) | Issued (Deformer _ _ n)
  | Issued (SkinCluster _ _ _ _ _ _ _ _ n) => Some n
  | _ => None
  end.

(** The deformers a run creates, in the order it creates them. *)
Definition created_names (tr : list issued) : list string :=
  List.flat_map (fun e => match created_name e with Some n => [n] | None => [] end) tr.

(** Deformer types that [create_deformer] builds on the list of meshes
    it is given, here the target alone. *)
Definition plain_types : list string := ["cluster"; "ffd"; "blendShape"; "bend"].

(** A missing deformer the reconciler can create on the target from
    scene [s]: its suffix has an association, and either the type is a
    plain one and the stack gives no parameters, or the type is
    skinCluster and the stack gives joints that exist, a hierarchy flag
    and an envelope. *)
Definition creatable (cfg : config) (deformers : stack) (s : scene)
    (key name : string) : Prop :=
  exists t,
    find_association (DEFORMER_SUFFIX_ASSOCIATIONS cfg) (last_token name) = Some t
    /\ ((In t plain_types /\ dict_get deformers key = Returned None)
        \/ (t = "skinCluster"
            /\ exists p js uh env,
                 dict_get deformers key = Returned (Some p)
                 /\ joints p = Some js /\ use_hierarchy p = Some uh
                 /\ envelope p = Some env
                 /\ Forall (fun j => exists_node s j = true) js)).

(** [s'] is [s] with the new deformer [name] stacked on [mesh]. *)
Definition stacked (name mesh : string) (s s' : scene) : Prop :=
  chain s' mesh = name :: chain s mesh
  /\ exists_node s' name = true
  /\ forall n, n <> name -> exists_node s' n = exists_node s n.

(** Two targets that share the middle deformer of the second stack. *)
Definition data_shared_name : stacks :=
  [("M_head_mesh", [("M_b_cluster", None)]);
   ("M_body_compil_mesh",
    [("M_a_cluster", None); ("M_b_cluster", None); ("M_c_cluster", None)])].

Definition two_meshes : scene := scene_of ["M_head_mesh"; "M_body_compil_mesh"] [].

(** Two meshes; the head is bound to a skinCluster that carries the
    name the body's stack gives its own skinCluster. *)
Definition skinned_head : scene :=
  after (call (SkinCluster ["M_jaw_jnt"] "M_head_mesh" 1 true 10 1 false true
                 "M_body_skinCluster"))
        (scene_of ["M_head_mesh"; "M_body_compil_mesh"] ["M_jaw_jnt"; "M_chin_jnt"]).

Definition data_existing_skin : stacks :=
  [("M_body_compil_mesh",
    [("M_body_skinCluster",
      Some {| joints := Some ["M_chin_jnt"]; use_hierarchy := Some false;
              envelope := Some (PInt 1); source := None |})])].

(** * More of [utils.py] and [build.py] *)

(** ** More strings *)

(** [sep.join(tokens)] *)
Fixpoint join (sep : string) (tokens : list string) : string :=
  match tokens with
  | [] => ""
  | [t] => t
  | t :: r => t +:+ sep +:+ join sep r
  end.

(** [tokens.insert(-1, x)]: before the last element; an empty list
    takes the element as its only one. *)
Fixpoint insert_before_last {A} (x : A) (tokens : list A) : list A :=
  match tokens with
  | [] => [x]
  | [t] => [x; t]
  | t :: r => t :: insert_before_last x r
  end.

(** [s.replace(old, new)]: every occurrence met from the left, none
    overlapping; an empty [old] matches before every character and at
    the end. *)
Fixpoint replace_scan (old new s : string) (skip : nat) : string :=
  match s with
  | EmptyString => EmptyString
  | String c r =>
    match skip with
    | S k => replace_scan old new r k
    | O =>
      if String.prefix old s
      then new +:+ replace_scan old new r (String.length old - 1)
      else String c (replace_scan old new r 0)
    end
  end.

Fixpoint replace_empty (new s : string) : string :=
  match s with
  | EmptyString => new
  | String c r => new +:+ String c (replace_empty new r)
  end.

Definition replace (s old new : string) : string :=
  match old with
  | EmptyString => replace_empty new s
  | _ => replace_scan old new s 0
  end.

(** [s[:-1]] *)
Fixpoint drop_last_char (s : string) : string :=
  match s with
  | EmptyString => EmptyString
  | String c EmptyString => EmptyString
  | String c r => String c (drop_last_char r)
  end.

(** ** utils.py, continued *)

(** [duplicate_node], the name given to one duplicated node: the body
    of [for new in new_nodes] up to the [cmds.rename].  [replace_items]
    is the optional two-item list; an empty list stands for [None]. *)
Definition duplicate_name (new complement_name : string) (replace_items : list string)
    : outcome string :=
  let tokens := split "_" new in
  let tokens := if truthy_str complement_name
                then insert_before_last complement_name tokens else tokens in
  let new_name := join "_" tokens in
  let new_name := if endswith new_name "1" then drop_last_char new_name else new_name in
  match replace_items with
  | [] => Returned new_name
  | _ =>
    outcome_bind (getitem replace_items 0) (fun old =>
    outcome_bind (getitem replace_items 1) (fun new' =>
    Returned (replace new_name old new')))
  end.

(** [transfer_bcs_node], the name of the new BCS node (the lines before
    the mesh is looked at). *)
Definition bcs_node_name (bcs_node : string) (sfx : option string) : string :=
  if truthy_opt_str sfx
  then bcs_node +:+ "_" +:+ default "" sfx
  else if endswith bcs_node "transfer"
       then join "_" (List.removelast (split "_" bcs_node))
       else bcs_node.

(** ** build.py, continued *)

(** [update_teeth_tongue_follow_jaw], the plug the rivet reads the mesh
    from: the output of the stack entry of ["M_body_compil_mesh"] that
    comes after the last entry whose key contains the lattice suffix.
    The suffix is that of the first association of type ["ffd"]; the
    variable stays unbound without one. *)
Definition last_pattern_index (pattern : string) (keys : list string) : Z :=
  List.fold_left (fun last ik => if contains pattern (snd ik) then Z.of_nat (fst ik) else last)
                 (List.combine (List.seq 0 (List.length keys)) keys) (-1)%Z.

Definition rivet_input_mesh_plug (cfg : config) : outcome string :=
  let pattern :=
    option_map suffix
      (List.find (fun a => String.eqb (type a) "ffd") (DEFORMER_SUFFIX_ASSOCIATIONS cfg)) in
  outcome_bind (dict_get (DEFORMERS_STACK cfg) "M_body_compil_mesh") (fun deformers =>
  let keys := List.map fst deformers in
  outcome_bind
    (match keys, pattern with
     | [], _ => Returned (-1)%Z
     | _, None => Raised (UnboundLocalError "pattern")
     | _, Some p => Returned (last_pattern_index p keys)
     end) (fun last =>
  outcome_bind (getitem keys (Z.to_nat (last + 1))) (fun key =>
  Returned (key +:+ ".outputGeometry[0]")))).

(** ** Vocabulary of the further properties *)

(** No brace in the string: nothing for [format] to fill in. *)
Fixpoint brace_free (s : string) : bool :=
  match s with
  | EmptyString => true
  | String c r => negb (Ascii.eqb c "{") && negb (Ascii.eqb c "}") && brace_free r
  end.

(** The number of meshes a deformer type takes out of the list by
    position. *)
Definition meshes_needed (deformer_type : string) : nat :=
  if mem deformer_type ["wrap"; "proximityWrap"; "shrinkWrap"] then 2
  else if mem deformer_type ["wire"; "bend"] then 1
  else 0.

(** The types [create_deformer] has a branch for. *)
Definition known_types : list string :=
  ["cluster"; "ffd"; "blendShape"; "wire"; "wrap"; "proximityWrap"; "shrinkWrap"; "bend"].

(** The first of the three skinCluster keys a parameters dict lacks. *)
Definition first_missing_skin_key (p : parameters) : option string :=
  match joints p, use_hierarchy p, envelope p with
  | None, _, _ => Some "joints"
  | _, None, _ => Some "use_hierarchy"
  | _, _, None => Some "envelope"
  | _, _, _ => None
  end.

(** A host's answer put after an accumulator. *)
Definition after_acc {S} (acc : list string) (o : outcome (list string * S))
    : outcome (list string * S) :=
  match o with
  | Returned (l, s) => Returned (acc ++ l, s)
  | Raised e => Raised e
  end.

(** The names of a list that are not nodes of the scene. *)
Definition absent (s : scene) (names : list string) : list string :=
  List.filter (fun n => negb (exists_node s n)) names.

(** [s'] differs from [s] at most in the chain of [target], which has
    kept its deformers. *)
Definition only_target_grows (target : string) (s s' : scene) : Prop :=
  nodes s' = nodes s
  /\ (forall g, g <> target -> chain s' g = chain s g)
  /\ (forall n, mem n (chain s target) = true -> mem n (chain s' target) = true).

(** Two meshes, the head carrying the cluster [M_b_cluster]. *)
Definition shared_b : scene :=
  after (create_all_deformers cfg0 [("M_head_mesh", [("M_b_cluster", None)])]) two_meshes.

(** The type [create_deformer] works with: the explicit one when it is
    given, else the one associated with the last token of the name. *)
Definition resolves_to (deformer_type : option string) (association_map : list association)
    (name t : string) : Prop :=
  truthy_str t = true
  /\ (deformer_type = Some t
      \/ (truthy_opt_str deformer_type = false
          /\ find_association association_map (last_token name) = Some t)).

(** What the skinCluster dispatch of [create_all_deformers] raises on
    the value it finds in the stack, if anything. *)
Definition skin_parameters_error (d : option parameters) : option exn :=
  match d with
  | None => Some (TypeError "'NoneType' object is not subscriptable")
  | Some p => option_map KeyError (first_missing_skin_key p)
  end.

(** A table whose body stack has the lattice in the middle, and one
    where the lattice comes last. *)
Definition cfg_rivet : config :=
  {| DEFORMER_SUFFIX_ASSOCIATIONS := DEFORMER_SUFFIX_ASSOCIATIONS cfg0;
     DEFORMERS_STACK :=
       [("M_body_compil_mesh",
         [("M_jaw_cluster", None); ("M_face_ffd", None); ("M_body_skinCluster", skin0)])];
     GROUPS_HIERARCHY := GROUPS_HIERARCHY cfg0 |}.

Definition cfg_rivet_last : config :=
  {| DEFORMER_SUFFIX_ASSOCIATIONS := DEFORMER_SUFFIX_ASSOCIATIONS cfg0;
     DEFORMERS_STACK :=
       [("M_body_compil_mesh", [("M_body_skinCluster", None); ("M_face_ffd", None)])];
     GROUPS_HIERARCHY := GROUPS_HIERARCHY cfg0 |}.

(** Commands that give a node another name. *)
Definition renames (e : issued) : bool :=
  match e with
  | Issued (Rename _ _) => true
  | _ => false
  end.

(** The body mesh with a cluster and, added after it, a lattice; and a
    head mesh without deformers. *)
Definition deformed_body : scene :=
  after (let* _ := call (Cluster ["M_body_compil_mesh"] "M_jaw_cluster") in
         call (Lattice ["M_body_compil_mesh"] "M_face_ffd")) two_meshes.

(** What the dispatch of [create_all_deformers] raises on the value
    [d] the stack holds for a missing deformer of type [t], if
    anything: a skinCluster reads three keys of it, any other type
    reads ["source"] when the value is a dict. *)
Definition parameters_error (t : string) (d : option parameters) : option exn :=
  if String.eqb t "skinCluster" then skin_parameters_error d
  else match d with
       | Some p => match source p with
                   | None => Some (KeyError "source")
                   | Some _ => None
                   end
       | None => None
       end.

(** ** Connection templates

    [get_template_data] writes the side of a node or plug as the
    placeholder [{}]; [connect_template_scenes] fills it in again. *)

(** [s[1:]] *)
Definition tail_str (s : string) : string :=
  match s with
  | EmptyString => EmptyString
  | String _ r => r
  end.

(** [get_template_data], the loop [for side in "LR"] over the name of a
    selected node. *)
Definition template_node (node : string) : string :=
  List.fold_left (fun node side =>
      if startswith node side then "{}" +:+ tail_str node else node)
    ["L"; "R"] node.

(** [get_template_data], the loop [for side in "LR"] over an input plug
    and the attribute it drives. *)
Definition template_connection (input_plug dest : string) : string * string :=
  List.fold_left (fun '(input_plug, dest) side =>
      if startswith input_plug side && negb (endswith dest side)
      then ("{}" +:+ tail_str input_plug, dest)
      else if startswith input_plug side && endswith dest side
      then ("{}" +:+ tail_str input_plug, drop_last_char dest +:+ "{}")
      else (input_plug, dest))
    ["L"; "R"] (input_plug, dest).

Fixpoint map_outcome {A B} (f : A -> outcome B) (xs : list A) : outcome (list B) :=
  match xs with
  | [] => Returned []
  | x :: r =>
    outcome_bind (f x) (fun y =>
    outcome_bind (map_outcome f r) (fun ys => Returned (y :: ys)))
  end.

(** [connect_template_scenes], the body of
    [for src_plug, dest_attr in plugs_raw.items()]: the pairs of plugs
    handed to [cmds.connectAttr], in order.  [Raised] when a [format]
    raises, whatever was connected before it. *)
Definition plugs_to_connect (destination src_plug dest_attr : string)
    : outcome (list (string * string)) :=
  let dest_prefix := first_token destination in
  outcome_bind
    (if startswith src_plug "{}" && contains dest_prefix "LR"
     then outcome_bind (format src_plug [dest_prefix] []) (fun p => Returned [p])
     else Returned [src_plug]) (fun src_plugs =>
  outcome_bind
    (if startswith src_plug "{}" && String.eqb dest_prefix "M"
     then outcome_bind (format src_plug ["L"] []) (fun l =>
          outcome_bind (format src_plug ["R"] []) (fun r => Returned [l; r]))
     else Returned src_plugs) (fun src_plugs =>
  map_outcome (fun side_src_plug =>
      let src_prefix := first_token side_src_plug in
      outcome_bind
        (if endswith dest_attr "{}" then format dest_attr [src_prefix] []
         else Returned dest_attr) (fun side_dest_attr =>
      Returned (side_src_plug, destination +:+ "." +:+ side_dest_attr)))
    src_plugs)).

(** [rename_scene], the block "Rename other deformers": the loop over
    the associations for one deformer found on a mesh and its type. *)
Definition rename_other (cfg : config) (actual typ : string) : script unit :=
  for_each (DEFORMER_SUFFIX_ASSOCIATIONS cfg) (fun data =>
    let sfx := last_token actual in
    let match_suffix := String.eqb sfx (suffix data) in
    let new_name := replace actual sfx (suffix data) in
    if negb (String.eqb (type data) typ) then Return tt
    else if match_suffix then Return tt
    else if String.eqb actual new_name then Return tt
    else let* _ := call (Rename [actual] new_name) in Return tt).

(** [rename_scene], the block "Rename other deformers". *)
Definition rename_other_deformers (cfg : config) (deformers_data : stacks) : script unit :=
  for_each (List.combine (List.seq 0 (List.length deformers_data)) deformers_data)
    (fun item =>
      let i := fst item in
      let* meshes := get_meshes cfg [i] in
      for_each meshes (fun mesh =>
        let* (actual_deformers, types) :=
          list_deformers mesh ["cluster"; "ffd"; "skinCluster"] in
        for_each (List.combine actual_deformers types) (fun '(actual, typ) =>
          rename_other cfg actual typ))).

(** ** Vocabulary of a second run, of what a run adds, and of the sides *)

(** A stack whose first entry has a suffix without association and
    whose second entry is a cluster: the cluster is handled first, the
    other entry after it. *)
Definition data_silent_skip : stacks :=
  [("M_body_compil_mesh", [("M_jaw_unknown", None); ("M_x_cluster", None)])].

(** The deformer a command puts on a chain: the one it creates or the
    one it attaches. *)
Definition chain_name (e : issued) : option string :=
  match e with
  | Issued (DeformerAddGeometry d _) => Some d
  | _ => created_name e
  end.

(** A command that deletes and renames nothing and that puts on a
    chain, if anything, a deformer whose name satisfies [P]. *)
Definition adds_only (P : string -> Prop) (e : issued) : Prop :=
  destructive e = false /\ forall n, chain_name e = Some n -> P n.


(** [s'] keeps what [s] has, as [extends] says, and what it adds to a
    chain are nodes of [s'] whose names satisfy [P]. *)
Definition grows_by (P : string -> Prop) (s s' : scene) : Prop :=
  (forall n nd, nodes s !! n = Some nd ->
     exists nd', nodes s' !! n = Some nd' /\ node_type nd' = node_type nd)
  /\ (forall g, exists added,
        chain s' g = added ++ chain s g
        /\ Forall (fun n => P n /\ exists_node s' n = true) added).

(** The state the host is in when the script ends, by returning or by
    an exception. *)
Fixpoint reached {S A} (h : host S) (p : script A) (s : S) : S :=
  match p with
  | Return _ => s
  | Raise _ => s
  | Call c k =>
    match h _ c s with
    | Returned (x, s') => reached h (k x) s'
    | Raised _ => s
    end
  end.

(** Every command the script can issue satisfies [ok], and every value
    it can return satisfies [Q], whatever the host answers. *)
Inductive issues_post (ok : issued -> Prop) {A : Type} (Q : A -> Prop) : script A -> Prop :=
| post_return (a : A) : Q a -> issues_post ok Q (Return a)
| post_raise (e : exn) : issues_post ok Q (Raise e)
| post_call {X : Type} (c : cmd X) (k : X -> script A) :
    ok (Issued c) -> (forall x, issues_post ok Q (k x)) -> issues_post ok Q (Call c k).

(** Reconciling [mesh] has led from [s] to [s']: every node is kept as
    it is, no chain but that of [mesh] has changed, and [mesh] keeps
    the deformers it had. *)
Definition mesh_grows (mesh : string) (s s' : scene) : Prop :=
  (forall n nd, nodes s !! n = Some nd -> nodes s' !! n = Some nd)
  /\ (forall g, g <> mesh -> chain s' g = chain s g)
  /\ (forall n, mem n (chain s mesh) = true -> mem n (chain s' mesh) = true).

(** Commands that work on [mesh] alone: queries and messages, the
    attachment of a deformer to [mesh], the creation of a deformer on
    [mesh] and nothing else, and the settings of a skinCluster. *)
Definition framed (mesh : string) (e : issued) : Prop :=
  match e with
  | Issued (ObjExists _) | Issued (ListRelatives _ _) | Issued (ListHistory _)
  | Issued (Ls _ _) | Issued (LogInfo _) => True
  | Issued (DeformerAddGeometry _ g) => g = mesh
  | Issued (Cluster ms _) | Issued (Lattice ms _) | Issued (BlendShape ms _) => ms = [mesh]
  | Issued (NonLinear m _ _) => m = mesh
  | Issued (SkinCluster _ m _ _ _ _ _ _ _) => m = mesh
  | Issued (SkinClusterAddInfluence _ _ _) | Issued (SetAttr _ _ _) => True
  | _ => False
  end.

(** [mesh] can be reconciled against [deformers] from [s]: it is a
    node, the deformers on it are nodes, the names the stack stands for
    on it are pairwise different, and each of them exists or can be
    created. *)
Definition reconcilable (cfg : config) (deformers : stack) (s : scene) (mesh : string)
    : Prop :=
  exists_node s mesh = true
  /\ Forall (fun n => exists_node s n = true) (chain s mesh)
  /\ exists names,
       Forall2 (fun key ns =>
                  expand_deformer mesh key = Returned ns
                  /\ Forall (fun n => exists_node s n = true
                                      \/ creatable cfg deformers s key n) ns)
               (List.map fst deformers) names
       /\ List.NoDup (List.concat names).

(** [obj] is a node without child transforms: the reconciler handles it
    as the one mesh it stands for. *)
Definition is_leaf (s : scene) (obj : string) : Prop :=
  exists nd, nodes s !! obj = Some nd /\ meshes_of nd obj = [obj].




(** * Properties *)

(** ** Running scripts *)

Section Running.
Context {S : Type} (h : host S).

Lemma run_bind {A B} (p : script A) (f : A -> script B) (s : S) :
  run h (bind p f) s =
  match run h p s with
  | Returned (a, s') => run h (f a) s'
  | Raised e => Raised e
  end.
Proof.
  revert s. induction p as [a|e|X c k IH]; intros s; simpl; try reflexivity.
  destruct (h X c s) as [[x s']|e]; [apply IH | reflexivity].
Qed.

Lemma trace_bind {A B} (p : script A) (f : A -> script B) (s : S) :
  trace h (bind p f) s =
  trace h p s ++
  match run h p s with
  | Returned (a, s') => trace h (f a) s'
  | Raised _ => []
  end.
Proof.
  revert s. induction p as [a|e|X c k IH]; intros s; simpl; try reflexivity.
  destruct (h X c s) as [[x s']|e]; [now rewrite IH | reflexivity].
Qed.

Lemma run_lift {A} (o : outcome A) (s : S) :
  run h (lift o) s =
  match o with
  | Returned a => Returned (a, s)
  | Raised e => Raised e
  end.
Proof. destruct o; reflexivity. Qed.

Lemma trace_lift {A} (o : outcome A) (s : S) : trace h (lift o) s = [].
Proof. destruct o; reflexivity. Qed.

(** A property of the local variables that every iteration keeps holds
    when the loop returns. *)
Lemma run_for_fold_inv {A V} (P : V -> Prop) (body : V -> A -> script V) :
  forall (xs : list A) (v : V) (s : S) v' s',
    (forall v x s v' s', In x xs -> P v -> run h (body v x) s = Returned (v', s') -> P v') ->
    P v ->
    run h (for_fold xs v body) s = Returned (v', s') ->
    P v'.
Proof.
  induction xs as [|x xs IH]; intros v s v' s' Hbody Hv Hrun; simpl in Hrun.
  - now inversion Hrun; subst.
  - rewrite run_bind in Hrun.
    destruct (run h (body v x) s) as [[v1 s1]|e] eqn:E; [|discriminate].
    eapply IH; [| |exact Hrun].
    + intros; eapply Hbody; eauto. now right.
    + eapply Hbody; eauto. now left.
Qed.

End Running.

(** ** Creating a deformer whose kind cannot be resolved *)

Lemma find_association_none (association_map : list association) (sfx : string) :
  (forall a, In a association_map -> suffix a <> sfx) ->
  find_association association_map sfx = None.
Proof.
  intros H. unfold find_association.
  destruct (List.find _ association_map) as [a|] eqn:E; [|reflexivity].
  apply List.find_some in E as [Hin Heq].
  apply String.eqb_eq in Heq. now apply H in Hin.
Qed.

(** C9: when [create_deformer] is called with no explicit
    [deformer_type] and the last underscore-separated token of [name]
    is the suffix of no entry of the association map, it issues no host
    command on any host, leaves the host state as it was and returns
    [None]; it does not raise. *)
Theorem create_deformer_unresolved_returns_none :
  forall (groups : list (string * string)) (name : string) (meshes : list string)
         (deformer_type : option string) (association_map : list association),
    truthy_opt_str deformer_type = false ->
    (forall a, In a association_map -> suffix a <> last_token name) ->
    forall (S : Type) (h : host S) (s : S),
      run h (create_deformer groups name meshes deformer_type association_map) s
        = Returned (None, s)
      /\ trace h (create_deformer groups name meshes deformer_type association_map) s = [].
Proof.
  intros groups name meshes deformer_type association_map Hfalsy Hnone S h s.
  unfold create_deformer.
  rewrite Hfalsy, (find_association_none _ _ Hnone).
  destruct deformer_type as [t|]; [|now split].
  simpl in Hfalsy. now rewrite Hfalsy.
Qed.

Lemma create_deformer_unresolved_returns_none_witness :
  run maya (create_deformer [] "M_jaw_unknown" ["M_body_compil_mesh"] None
              (DEFORMER_SUFFIX_ASSOCIATIONS cfg0)) s0 = Returned (None, s0)
  /\ trace maya (create_deformer [] "M_jaw_unknown" ["M_body_compil_mesh"] None
              (DEFORMER_SUFFIX_ASSOCIATIONS cfg0)) s0 = [].
Proof.
  apply (create_deformer_unresolved_returns_none [] "M_jaw_unknown" ["M_body_compil_mesh"]
           None (DEFORMER_SUFFIX_ASSOCIATIONS cfg0)).
  - reflexivity.
  - intros a Hin. simpl in Hin.
    destruct Hin as [<-|[<-|[<-|[]]]]; vm_compute; discriminate.
Defined.

(** ** The two lists of [copy_deformers] *)

Lemma correspond_snoc (target : string) (missing raw_missing : list string) (defo raw : string) :
  List.length missing = List.length raw_missing /\
  Forall2 (resolution_of target) raw_missing missing ->
  resolution_of target raw defo ->
  List.length (missing ++ [defo]) = List.length (raw_missing ++ [raw]) /\
  Forall2 (resolution_of target) (raw_missing ++ [raw]) (missing ++ [defo]).
Proof.
  intros [Hlen Hall] Hres. split.
  - rewrite !List.length_app. simpl. lia.
  - apply Forall2_app; [exact Hall|]. constructor; [exact Hres | constructor].
Qed.

(** C10: whenever [copy_deformers] returns, on any host, its two lists
    [missing] and [raw_missing] have the same length and, index by
    index, [missing[i]] is one of the names the template
    [raw_missing[i]] expands to on the target (a side, the target's
    name, the target's side prefix, or the template itself). *)
Theorem copy_deformers_lists_correspond :
  forall (S : Type) (h : host S) (s s' : S) (target source : string)
         (types deformer_stack missing raw_missing : list string),
    run h (copy_deformers target source types deformer_stack) s
      = Returned ((missing, raw_missing), s') ->
    List.length missing = List.length raw_missing
    /\ Forall2 (resolution_of target) raw_missing missing.
Proof.
  intros S h s s' target source types deformer_stack missing raw_missing Hrun.
  unfold copy_deformers in Hrun. rewrite run_bind in Hrun.
  destruct (run h _ s) as [[stack' s1]|e] eqn:Hstack in Hrun; [|discriminate].
  pose (P := fun acc : list string * list string =>
    List.length (fst acc) = List.length (snd acc)
    /\ Forall2 (resolution_of target) (snd acc) (fst acc)).
  change (P (missing, raw_missing)).
  eapply (run_for_fold_inv h P); [| |exact Hrun]; [|split; [reflexivity|constructor]].
  clear. intros acc deformer s acc' s' _ Hacc Hbody.
  unfold copy_entry in Hbody. rewrite run_bind, run_lift in Hbody.
  destruct (expand_deformer target deformer) as [names|e] eqn:Hexp; [|discriminate].
  eapply (run_for_fold_inv h P); [| exact Hacc | exact Hbody].
  intros [m r] defo s1 [m' r'] s1' Hin HP Hstep. simpl in Hstep.
  destruct (h bool (ObjExists defo) s1) as [[[|] s2]|e]; simpl in Hstep; try discriminate.
  - destruct (h unit (DeformerAddGeometry defo target) s2) as [[[] s3]|e];
      simpl in Hstep; [|discriminate].
    now inversion Hstep; subst.
  - inversion Hstep; subst.
    apply correspond_snoc; [exact HP|]. now exists names.
Qed.

Lemma copy_deformers_lists_correspond_witness :
  List.length ["M_body_compil_mesh_skinCluster"; "M_face_ffd"; "M_jaw_cluster"]
    = List.length ["{name}_skinCluster"; "M_face_ffd"; "M_jaw_cluster"]
  /\ Forall2 (resolution_of "M_body_compil_mesh")
       ["{name}_skinCluster"; "M_face_ffd"; "M_jaw_cluster"]
       ["M_body_compil_mesh_skinCluster"; "M_face_ffd"; "M_jaw_cluster"].
Proof.
  apply (copy_deformers_lists_correspond scene maya s0 s0 "M_body_compil_mesh" ""
           ["cluster"; "ffd"] ["M_jaw_cluster"; "M_face_ffd"; "{name}_skinCluster"]).
  vm_compute. reflexivity.
Defined.

(** ** skinCluster specs *)

(** C5, as the code has it: for a spec that [copy_deformers] found
    missing, whose suffix resolves to [skinCluster] and whose
    parameters hold a joint list, a hierarchy flag and an envelope, the
    reconciler first asks the host whether the resolved name exists.
    If it does, the only commands that follow are
    [skinCluster(name, edit, addInfluence=joints, lockWeights)] and the
    envelope [setAttr]: no skinCluster is created.  If it does not, a
    skinCluster of that name is bound to the mesh with the spec's
    joints, [toSelectedBones] the negated hierarchy flag, and the
    envelope is set to the spec's value. *)
Theorem create_missing_skincluster_adds_or_binds :
  forall (cfg : config) (deformers : stack) (mesh : string) (deformer_type : local)
         (key deformer : string) (p : parameters) (js : list string) (uh : bool)
         (env : pynum),
    find_association (DEFORMER_SUFFIX_ASSOCIATIONS cfg) (last_token deformer)
      = Some "skinCluster" ->
    dict_get deformers key = Returned (Some p) ->
    joints p = Some js -> use_hierarchy p = Some uh -> envelope p = Some env ->
    forall (S : Type) (h : host S) (s : S),
      let step := create_missing cfg deformers mesh deformer_type (key, deformer) in
      match h bool (ObjExists deformer) s with
      | Returned (true, s1) =>
        run h step s = run h (skincluster_add_influence deformer js env) s1
        /\ trace h step s
           = Issued (ObjExists deformer) :: trace h (skincluster_add_influence deformer js env) s1
      | Returned (false, s1) =>
        run h step s = run h (skincluster_bind_new deformer mesh js uh env) s1
        /\ trace h step s
           = Issued (ObjExists deformer)
             :: trace h (skincluster_bind_new deformer mesh js uh env) s1
      | Raised e =>
        run h step s = Raised e /\ trace h step s = [Issued (ObjExists deformer)]
      end.
Proof.
  intros cfg deformers mesh deformer_type key deformer p js uh env
         Hkind Hspec Hjoints Hflag Henv S h s step.
  subst step. unfold create_missing. rewrite Hkind. simpl.
  rewrite Hspec. simpl. rewrite Hjoints, Hflag, Henv. simpl.
  destruct (h bool (ObjExists deformer) s) as [[[|] s1]|e]; simpl.
  - destruct (h unit (SkinClusterAddInfluence deformer js true) s1) as [[[] s2]|e];
      simpl; [|now split].
    destruct (h unit (SetAttr deformer "envelope" env) s2) as [[[] s3]|e];
      simpl; now split.
  - destruct (h (list string) (SkinCluster js mesh 1 (negb uh) 10 1 false true deformer) s1)
      as [[l s2]|e]; simpl; [|now split].
    destruct (h unit (SetAttr deformer "envelope" env) s2) as [[[] s3]|e];
      simpl; now split.
  - now split.
Qed.

Lemma create_missing_skincluster_adds_or_binds_witness :
  let step := create_missing cfg0 (snd (List.hd ("", []) data0)) "M_body_compil_mesh" None
                ("{name}_skinCluster", "M_body_compil_mesh_skinCluster") in
  run maya step s0
    = run maya (skincluster_bind_new "M_body_compil_mesh_skinCluster" "M_body_compil_mesh"
                  ["M_jaw_jnt"] false (PInt 1)) s0
  /\ trace maya step s0
     = Issued (ObjExists "M_body_compil_mesh_skinCluster")
       :: trace maya (skincluster_bind_new "M_body_compil_mesh_skinCluster"
                        "M_body_compil_mesh" ["M_jaw_jnt"] false (PInt 1)) s0.
Proof.
  exact (create_missing_skincluster_adds_or_binds cfg0 (snd (List.hd ("", []) data0))
           "M_body_compil_mesh" None "{name}_skinCluster" "M_body_compil_mesh_skinCluster"
           {| joints := Some ["M_jaw_jnt"]; use_hierarchy := Some false;
              envelope := Some (PInt 1); source := None |}
           ["M_jaw_jnt"] false (PInt 1)
           eq_refl eq_refl eq_refl eq_refl eq_refl scene maya s0).
Defined.

(** ** What a script can issue *)

Section Issues.
Context (ok : issued -> Prop).

Lemma issues_only_bind {A B} (p : script A) (f : A -> script B) :
  issues_only ok p -> (forall a, issues_only ok (f a)) -> issues_only ok (bind p f).
Proof.
  intros Hp Hf. induction Hp as [a|e|X c k Hc Hk IH]; simpl.
  - apply Hf.
  - constructor.
  - constructor; [exact Hc | exact IH].
Qed.

Lemma issues_only_call {X} (c : cmd X) : ok (Issued c) -> issues_only ok (call c).
Proof. intros Hc. constructor; [exact Hc | constructor]. Qed.

Lemma issues_only_lift {A} (o : outcome A) : issues_only ok (lift o).
Proof. destruct o; constructor. Qed.

Lemma issues_only_for_fold {A V} (xs : list A) (body : V -> A -> script V) :
  (forall v x, issues_only ok (body v x)) -> forall v, issues_only ok (for_fold xs v body).
Proof.
  intros Hbody. induction xs as [|x xs IH]; intros v; simpl.
  - constructor.
  - apply issues_only_bind; [apply Hbody | exact IH].
Qed.

Lemma issues_only_for_each {A} (xs : list A) (body : A -> script unit) :
  (forall x, issues_only ok (body x)) -> issues_only ok (for_each xs body).
Proof.
  intros Hbody. induction xs as [|x xs IH]; simpl.
  - constructor.
  - apply issues_only_bind; [apply Hbody | intros _; exact IH].
Qed.

Lemma trace_issues_only {S A} (h : host S) (p : script A) :
  issues_only ok p -> forall s, Forall ok (trace h p s).
Proof.
  intros Hp. induction Hp as [a|e|X c k Hc Hk IH]; intros s; simpl; try constructor.
  - exact Hc.
  - destruct (h X c s) as [[x s']|e]; [apply IH | constructor].
Qed.

End Issues.

Lemma issues_only_weaken (ok ok' : issued -> Prop) {A} (p : script A) :
  (forall e, ok e -> ok' e) -> issues_only ok p -> issues_only ok' p.
Proof.
  intros Himp Hp. induction Hp; constructor; auto.
Qed.

Lemma list_deformers_queries (mesh : string) (types : list string) :
  issues_only (fun e => queries e = true) (list_deformers mesh types).
Proof.
  unfold list_deformers.
  apply issues_only_bind; [now apply issues_only_call|]. intros relatives.
  destruct (or_empty relatives) as [|shape_node rest]; [constructor|].
  destruct (truthy_str shape_node); [|constructor].
  apply issues_only_bind; [now apply issues_only_call|]. intros history.
  apply issues_only_for_fold. intros acc deformer.
  apply issues_only_for_fold. intros [deformers deformers_types] typ.
  apply issues_only_bind; [now apply issues_only_call|]. intros filtered.
  destruct (or_empty filtered); constructor.
Qed.

(** ** More than one skinCluster on a mesh *)

Lemma endswith_truthy (s suf : string) :
  endswith s suf = true -> truthy_str suf = true -> truthy_str s = true.
Proof.
  destruct s as [|c r]; [|reflexivity].
  destruct suf; [intros _ H; exact H | discriminate].
Qed.

(** C6: when the stack of a mesh names a skinCluster (a key ending in
    [_skinCluster]) and [list_deformers] finds more than one
    skinCluster on the mesh, [rename_scene]'s skinCluster step raises:
    with [RuntimeError "One skinCluster is expected on <mesh>"] when
    the expected name can be filled in, with the exception of the
    fill-in otherwise.  The commands it issues are those of
    [list_deformers], which only read the scene; it renames nothing. *)
Theorem rename_skincluster_ambiguous_raises :
  forall (deformers : stack) (mesh expected : string)
         (S : Type) (h : host S) (s s1 : S) (found found_types : list string),
    List.find (fun deformer => endswith deformer "_skinCluster") (List.map fst deformers)
      = Some expected ->
    run h (list_deformers mesh ["skinCluster"]) s = Returned ((found, found_types), s1) ->
    (1 < List.length found)%nat ->
    run h (rename_skincluster deformers mesh) s
      = Raised (match skincluster_name_on mesh expected with
                | Returned _ => RuntimeError ("One skinCluster is expected on " +:+ mesh)
                | Raised e => e
                end)
    /\ trace h (rename_skincluster deformers mesh) s
       = trace h (list_deformers mesh ["skinCluster"]) s
    /\ Forall (fun e => queries e = true) (trace h (rename_skincluster deformers mesh) s).
Proof.
  intros deformers mesh expected S h s s1 found found_types Hkey Hfound Hmany.
  assert (Htruthy : truthy_str expected = true).
  { apply List.find_some in Hkey as [_ Hends].
    now apply (endswith_truthy _ _ Hends). }
  assert (Htrace : trace h (rename_skincluster deformers mesh) s
                   = trace h (list_deformers mesh ["skinCluster"]) s).
  { unfold rename_skincluster. rewrite trace_bind, Hfound, Hkey.
    destruct found as [|d0 found']; [simpl in Hmany; lia|].
    rewrite Htruthy. cbn [negb].
    rewrite trace_bind, trace_lift, run_lift.
    destruct (skincluster_name_on mesh expected) as [name|e]; [|now rewrite app_nil_r].
    apply Nat.ltb_lt in Hmany. rewrite trace_bind, Hmany. simpl. now rewrite app_nil_r. }
  split; [|split; [exact Htrace|]].
  - unfold rename_skincluster. rewrite run_bind, Hfound, Hkey.
    destruct found as [|d0 found']; [simpl in Hmany; lia|].
    rewrite Htruthy. cbn [negb].
    rewrite run_bind, run_lift.
    destruct (skincluster_name_on mesh expected) as [name|e]; [|reflexivity].
    apply Nat.ltb_lt in Hmany. rewrite run_bind, Hmany. reflexivity.
  - rewrite Htrace. apply trace_issues_only, list_deformers_queries.
Qed.

Lemma rename_skincluster_ambiguous_raises_witness :
  run maya (rename_skincluster (snd (List.hd ("", []) data0)) "M_body_compil_mesh") two_skins
    = Raised (match skincluster_name_on "M_body_compil_mesh" "{name}_skinCluster" with
              | Returned _ => RuntimeError "One skinCluster is expected on M_body_compil_mesh"
              | Raised e => e
              end)
  /\ trace maya (rename_skincluster (snd (List.hd ("", []) data0)) "M_body_compil_mesh")
       two_skins
     = trace maya (list_deformers "M_body_compil_mesh" ["skinCluster"]) two_skins
  /\ Forall (fun e => queries e = true)
       (trace maya (rename_skincluster (snd (List.hd ("", []) data0)) "M_body_compil_mesh")
          two_skins).
Proof.
  apply (rename_skincluster_ambiguous_raises (snd (List.hd ("", []) data0))
           "M_body_compil_mesh" "{name}_skinCluster" scene maya two_skins two_skins
           ["skinCluster2"; "skinCluster1"] ["skinCluster"; "skinCluster"]).
  - reflexivity.
  - vm_compute. reflexivity.
  - simpl. lia.
Defined.

(** ** Side expansion *)




Lemma run_bind_return {S A} (h : host S) (p : script A) (s : S) :
  run h (bind p (fun a => Return a)) s = run h p s.
Proof. rewrite run_bind. now destruct (run h p s) as [[a s']|e]. Qed.

Lemma trace_bind_return {S A} (h : host S) (p : script A) (s : S) :
  trace h (bind p (fun a => Return a)) s = trace h p s.
Proof.
  rewrite trace_bind. destruct (run h p s) as [[a s']|e]; simpl; apply app_nil_r.
Qed.

Lemma run_for_fold_one {S A V} (h : host S) (x : A) (v : V) (body : V -> A -> script V)
    (s : S) :
  run h (for_fold [x] v body) s = run h (body v x) s.
Proof. cbn [for_fold]. apply run_bind_return. Qed.




(** A node that does not start with the placeholder is its own single
    object. *)
Lemma create_node_deformers_plain {S} (h : host S) (cfg : config) (deformer_type : local)
    (node : string) (deformers : stack) (s : S) :
  startswith node "{}" = false ->
  run h (create_node_deformers cfg deformer_type (node, deformers)) s
    = run h (create_object_deformers cfg deformers deformer_type node) s
  /\ trace h (create_node_deformers cfg deformer_type (node, deformers)) s
     = trace h (create_object_deformers cfg deformers deformer_type node) s.
Proof.
  intros Hplain. unfold create_node_deformers, expand_node. rewrite Hplain.
  cbn [lift bind for_fold].
  split; [apply run_bind_return | apply trace_bind_return].
Qed.

(** ** A target that is not in the scene *)

(** C3 (the code departs from it): [create_all_deformers] does not look
    whether a target exists.  With a first target that is not in the
    scene its first command, listing the target's children, raises in
    the host; the run ends there with no report, and the second target,
    which exists, is never reached.  [get_meshes] on the same table
    asks [objExists] first, logs the missing target and goes on to the
    second one. *)
Theorem create_all_deformers_missing_target_aborts :
  run maya (create_all_deformers cfg0 data_missing_target) s0
    = Raised (HostError "No object matches name: M_missing_mesh")
  /\ trace maya (create_all_deformers cfg0 data_missing_target) s0
     = [Issued (ListRelatives "M_missing_mesh" Children)]
  /\ run maya (get_meshes cfg_missing_target [0; 1]%nat) s0
     = Returned (["M_body_compil_mesh"], s0)
  /\ trace maya (get_meshes cfg_missing_target [0; 1]%nat) s0
     = [Issued (ObjExists "M_missing_mesh");
        Issued (LogInfo "M_missing_mesh does not exist and he is skipped");
        Issued (ObjExists "M_body_compil_mesh");
        Issued (ListRelatives "M_body_compil_mesh" Children)].
Proof. repeat split; vm_compute; reflexivity. Qed.

(** ** A missing spec whose suffix has no association *)

(** C4 (the code departs from it): [create_all_deformers] never resets
    its variable [deformer_type].  When the first missing deformer it
    handles has a suffix without association, the variable is unbound
    and the run ends in [UnboundLocalError]: the rest of the stack (the
    lattice) is not created.  When such a deformer is handled after a
    skinCluster, it is bound as a skinCluster itself, the kind left
    over from the previous deformer. *)
Theorem create_all_deformers_unknown_suffix_diverges :
  run maya (create_all_deformers cfg0 data_unknown_first) s0
    = Raised (UnboundLocalError "deformer_type")
  /\ List.filter creates (trace maya (create_all_deformers cfg0 data_unknown_first) s0) = []
  /\ (exists s, run maya (create_all_deformers cfg0 data_unknown_after_skin) s0
                = Returned (tt, s)
                /\ option_map node_type (nodes s !! "M_jaw_unknown") = Some "skinCluster"
                /\ chain s "M_body_compil_mesh" = ["M_jaw_unknown"; "M_body_skinCluster"])
  /\ List.filter creates (trace maya (create_all_deformers cfg0 data_unknown_after_skin) s0)
     = [Issued (SkinCluster ["M_jaw_jnt"] "M_body_compil_mesh" 1 true 10 1 false true
                  "M_body_skinCluster");
        Issued (SkinCluster ["M_jaw_jnt"] "M_body_compil_mesh" 1 true 10 1 false true
                  "M_jaw_unknown")].
Proof.
  split; [vm_compute; reflexivity|].
  split; [vm_compute; reflexivity|].
  split; [|vm_compute; reflexivity].
  eexists. split; [vm_compute; reflexivity|].
  split; vm_compute; reflexivity.
Qed.

(** ** What the reconciler issues *)

Ltac issues :=
  repeat match goal with
  | |- issues_only _ (bind _ _) => apply issues_only_bind; [|intros ?]
  | |- issues_only _ (call _) => apply issues_only_call; first [reflexivity | now split]
  | |- issues_only _ (lift _) => apply issues_only_lift
  | |- issues_only _ (Return _) => constructor
  | |- issues_only _ (Raise _) => constructor
  | |- issues_only _ (for_fold _ _ _) => apply issues_only_for_fold; intros ? ?
  | |- issues_only _ (for_each _ _) => apply issues_only_for_each; intros ?
  | |- issues_only _ (match ?x with _ => _ end) => destruct x
  | |- issues_only _ ((match ?x with _ => _ end) _) => destruct x
  | |- issues_only _ _ => progress cbv beta
  end.

Lemma get_children_queries (node : string) :
  issues_only (fun e => queries e = true) (get_children node).
Proof. unfold get_children. issues. Qed.

(** [copy_deformers] reads the scene and puts existing deformers on
    the target; it issues nothing else. *)
Lemma copy_deformers_reads_and_attaches (target source : string)
    (types deformer_stack : list string) :
  issues_only (fun e => queries e = true \/ attaches e = true)
    (copy_deformers target source types deformer_stack).
Proof.
  unfold copy_deformers. apply issues_only_bind.
  - destruct deformer_stack; [|constructor].
    apply issues_only_bind; [|intros; constructor].
    eapply issues_only_weaken; [|apply list_deformers_queries]. now left.
  - intros stack'. apply issues_only_for_fold. intros acc deformer.
    unfold copy_entry. apply issues_only_bind; [apply issues_only_lift|]. intros names.
    apply issues_only_for_fold. intros [missing raw_missing] defo.
    unfold copy_deformer. apply issues_only_bind; [apply issues_only_call; now left|].
    intros [|]; [|constructor].
    apply issues_only_bind; [apply issues_only_call; now right | intros; constructor].
Qed.

Lemma reads_and_attaches_reconciling (e : issued) :
  queries e = true \/ attaches e = true -> reconciling e.
Proof. destruct e as [X []]; simpl; intros [H|H]; try discriminate H; now split. Qed.

Lemma get_children_issues (node : string) : issues_only reconciling (get_children node).
Proof.
  eapply issues_only_weaken; [|apply get_children_queries].
  intros e H. apply reads_and_attaches_reconciling. now left.
Qed.

Lemma copy_deformers_issues (target source : string) (types deformer_stack : list string) :
  issues_only reconciling (copy_deformers target source types deformer_stack).
Proof.
  eapply issues_only_weaken; [|apply copy_deformers_reads_and_attaches].
  apply reads_and_attaches_reconciling.
Qed.

Lemma create_shrinkwrap_issues (mesh target name : string) (kwargs : list (string * pynum)) :
  issues_only reconciling (create_shrinkwrap mesh target name kwargs).
Proof. unfold create_shrinkwrap. issues. Qed.

Lemma create_deformer_issues (groups : list (string * string)) (name : string)
    (meshes : list string) (deformer_type : option string)
    (association_map : list association) :
  issues_only reconciling (create_deformer groups name meshes deformer_type association_map).
Proof.
  unfold create_deformer. issues; apply create_shrinkwrap_issues.
Qed.

Lemma bind_skincluster_issues (name mesh : string) (js : list string) (uh : bool)
    (method : Z) (env : pynum) :
  issues_only reconciling (bind_skincluster name mesh js uh method env).
Proof. unfold bind_skincluster. issues. Qed.

Lemma create_missing_issues (cfg : config) (deformers : stack) (mesh : string)
    (deformer_type : local) (item : string * string) :
  issues_only reconciling (create_missing cfg deformers mesh deformer_type item).
Proof.
  unfold create_missing. destruct item as [key deformer].
  issues; first [apply bind_skincluster_issues | apply create_deformer_issues].
Qed.

Lemma create_mesh_deformers_issues (cfg : config) (deformers : stack)
    (deformer_type : local) (mesh : string) :
  issues_only reconciling (create_mesh_deformers cfg deformers deformer_type mesh).
Proof.
  unfold create_mesh_deformers.
  apply issues_only_bind; [apply copy_deformers_issues|].
  intros [missing raw_missing]. apply issues_only_for_fold. intros.
  apply create_missing_issues.
Qed.

Lemma create_all_deformers_issues (cfg : config) (deformers_data : stacks) :
  issues_only reconciling (create_all_deformers cfg deformers_data).
Proof.
  unfold create_all_deformers.
  apply issues_only_bind; [|intros; constructor].
  apply issues_only_for_fold. intros deformer_type [node deformers].
  unfold create_node_deformers.
  apply issues_only_bind; [apply issues_only_lift|]. intros objects.
  apply issues_only_for_fold. intros deformer_type' obj.
  unfold create_object_deformers.
  apply issues_only_bind; [apply get_children_issues|]. intros childs.
  apply issues_only_for_fold. intros. apply create_mesh_deformers_issues.
Qed.

(** ** The in-memory host keeps what it has *)

Lemma extends_refl (s : scene) : extends s s.
Proof.
  split.
  - intros n nd H. now exists nd.
  - intros g. now exists [].
Qed.

Lemma extends_trans (s1 s2 s3 : scene) : extends s1 s2 -> extends s2 s3 -> extends s1 s3.
Proof.
  intros [Hn12 Hc12] [Hn23 Hc23]. split.
  - intros n nd H. destruct (Hn12 n nd H) as (nd2 & H2 & Ht2).
    destruct (Hn23 n nd2 H2) as (nd3 & H3 & Ht3).
    exists nd3. split; [exact H3 | congruence].
  - intros g. destruct (Hc12 g) as [a12 H12]. destruct (Hc23 g) as [a23 H23].
    exists (a23 ++ a12). now rewrite H23, H12, app_assoc.
Qed.

(** A change that leaves the nodes and the chains alone. *)
Lemma extends_same (s s' : scene) :
  nodes s' = nodes s -> chains s' = chains s -> extends s s'.
Proof.
  intros Hn Hc. split.
  - intros n nd H. exists nd. now rewrite Hn.
  - intros g. exists []. unfold chain. now rewrite Hc.
Qed.

Lemma chain_attach (d g g' : string) (s : scene) :
  chain (attach d g s) g' =
  if decide (g' = g)
  then (if mem d (chain s g) then chain s g else d :: chain s g)
  else chain s g'.
Proof.
  unfold attach. destruct (mem d (chain s g)) eqn:Hmem.
  - destruct (decide (g' = g)) as [->|]; reflexivity.
  - unfold chain at 1. simpl.
    destruct (decide (g' = g)) as [->|Hne].
    + now rewrite lookup_insert_eq.
    + now rewrite lookup_insert_ne by congruence.
Qed.

Lemma nodes_attach (d g : string) (s : scene) : nodes (attach d g s) = nodes s.
Proof. unfold attach. now destruct (mem d (chain s g)). Qed.

Lemma extends_attach (d g : string) (s : scene) : extends s (attach d g s).
Proof.
  split.
  - intros n nd H. exists nd. now rewrite nodes_attach.
  - intros g'. rewrite chain_attach.
    destruct (decide (g' = g)) as [->|]; [|now exists []].
    destruct (mem d (chain s g)); [now exists [] | now exists [d]].
Qed.

Lemma extends_attach_all (d : string) (gs : list string) (s : scene) :
  extends s (attach_all d gs s).
Proof.
  unfold attach_all. revert s. induction gs as [|g gs IH]; intros s; simpl.
  - apply extends_refl.
  - eapply extends_trans; [apply extends_attach | apply IH].
Qed.

Lemma exists_node_false (s : scene) (n : string) :
  exists_node s n = false -> nodes s !! n = None.
Proof. unfold exists_node. now destruct (nodes s !! n). Qed.

Lemma exists_node_true (s : scene) (n : string) :
  exists_node s n = true -> exists nd, nodes s !! n = Some nd.
Proof. unfold exists_node. destruct (nodes s !! n) as [nd|]; [now exists nd | discriminate]. Qed.

Lemma extends_add_node (n typ : string) (s : scene) :
  exists_node s n = false -> extends s (add_node n typ s).
Proof.
  intros Hfresh. apply exists_node_false in Hfresh. split.
  - intros n' nd H. exists nd. split; [|reflexivity].
    simpl. rewrite lookup_insert_ne; [exact H | congruence].
  - intros g. now exists [].
Qed.

Lemma extends_new_deformer (name typ : string) (gs : list string) (s s' : scene) :
  new_deformer name typ gs s = Returned s' -> extends s s'.
Proof.
  unfold new_deformer. destruct (exists_node s name) eqn:Hfresh; [discriminate|].
  destruct (List.find _ gs); [discriminate|].
  intros H. inversion H; subst.
  apply (extends_trans _ (add_node name typ s));
    [apply extends_add_node; exact Hfresh | apply extends_attach_all].
Qed.

Lemma created_returned {A} (result : A) (o : outcome scene) (x : A) (s' : scene) :
  created result o = Returned (x, s') -> x = result /\ o = Returned s'.
Proof. destruct o; simpl; intros H; inversion H; now subst. Qed.

(** Every command that is not [rename] or [delete] leaves the scene an
    extension of what it was. *)
Lemma maya_extends {X} (c : cmd X) (s s' : scene) (x : X) :
  destructive (Issued c) = false ->
  maya X c s = Returned (x, s') ->
  extends s s'.
Proof.
  intros Hsafe Hrun.
  destruct c as [name | node which | node | pattern typ | d g | meshes name | meshes name
                 | meshes name | mesh wires name | driver driven name
                 | drivers drivens name | mesh name typ | mesh typ name | name js lock
                 | js mesh bm tsb mi nw rui omi name | node attribute value | src dst
                 | child parent | objects new_name | gone | message];
    simpl in Hsafe, Hrun; try discriminate;
    try (apply created_returned in Hrun as [_ Hrun];
         now apply extends_new_deformer in Hrun).
  - inversion Hrun; subst. apply extends_refl.
  - destruct (nodes s !! node); [|discriminate].
    destruct which as [|[|]]; inversion Hrun; subst; apply extends_refl.
  - destruct (geometry_of s node); inversion Hrun; subst. apply extends_refl.
  - destruct (List.rev (list_ascii_of_string pattern)) as [|a l].
    + destruct (nodes s !! pattern); inversion Hrun; subst; apply extends_refl.
    + destruct (Ascii.eqb a "*") eqn:Ha.
      * apply Ascii.eqb_eq in Ha. subst a. inversion Hrun; subst. apply extends_refl.
      * assert (Hgen : match nodes s !! pattern with
                       | Some nd =>
                         Returned (Some (if String.eqb (node_type nd) typ
                                         then [pattern] else []), s)
                       | None => Returned (Some [], s)
                       end = Returned (x, s')).
        { revert Hrun. destruct a as [[] [] [] [] [] [] [] []]; try (intros H; exact H).
          discriminate Ha. }
        destruct (nodes s !! pattern); inversion Hgen; subst; apply extends_refl.
  - destruct (exists_node s d); simpl in Hrun; [|discriminate].
    destruct (exists_node s g); simpl in Hrun; [|discriminate].
    inversion Hrun; subst. apply extends_attach.
  - destruct (exists_node s driver); simpl in Hrun; [|discriminate].
    apply created_returned in Hrun as [_ Hrun].
    destruct (new_deformer name "wrap" [driven] s) as [s1|e] eqn:Hnew; [|discriminate].
    simpl in Hrun. apply extends_new_deformer in Hnew.
    destruct (exists_node s1 (driver +:+ "Base")) eqn:Hbase; inversion Hrun; subst.
    + exact Hnew.
    + eapply extends_trans; [exact Hnew | now apply extends_add_node].
  - destruct (List.find _ drivers); [discriminate|].
    apply created_returned in Hrun as [_ Hrun]. now apply extends_new_deformer in Hrun.
  - destruct (exists_node s name); simpl in Hrun; [|discriminate].
    destruct (List.find _ js); inversion Hrun; subst. now apply extends_same.
  - destruct (List.find _ js); [discriminate|].
    apply created_returned in Hrun as [_ Hrun].
    destruct (new_deformer name "skinCluster" [mesh] s) as [s1|e] eqn:Hnew; [|discriminate].
    simpl in Hrun. inversion Hrun; subst. apply extends_new_deformer in Hnew.
    eapply extends_trans; [exact Hnew | now apply extends_same].
  - destruct (exists_node s node); simpl in Hrun; inversion Hrun; subst.
    now apply extends_same.
  - destruct (exists_node s (fst dst)); simpl in Hrun; inversion Hrun; subst.
    now apply extends_same.
  - destruct (exists_node s child); simpl in Hrun; [|discriminate].
    destruct (nodes s !! parent) eqn:Hparent; inversion Hrun; subst. split.
    + intros n0 nd Hn. simpl.
      destruct (decide (n0 = parent)) as [->|Hne].
      * rewrite lookup_alter_eq, lookup_fmap, Hn. simpl. eexists. split; reflexivity.
      * rewrite lookup_alter_ne by congruence. rewrite lookup_fmap, Hn. simpl.
        eexists. split; reflexivity.
    + intros g0. now exists [].
  - inversion Hrun; subst. apply extends_refl.
Qed.

Lemma run_extends {A} (p : script A) :
  issues_only (fun e => destructive e = false) p ->
  forall (s s' : scene) (a : A), run maya p s = Returned (a, s') -> extends s s'.
Proof.
  intros Hp. induction Hp as [a0|e|X c k Hc Hk IH]; intros s s' a Hrun; simpl in Hrun.
  - inversion Hrun; subst. apply extends_refl.
  - discriminate.
  - destruct (maya X c s) as [[x s1]|e] eqn:Hc1; [|discriminate].
    eapply extends_trans; [eapply maya_extends; eauto | eapply IH; eauto].
Qed.

(** ** Reconciliation only adds *)

Lemma reconciling_not_destructive {A} (p : script A) :
  issues_only reconciling p -> issues_only (fun e => destructive e = false) p.
Proof. apply issues_only_weaken. now intros e [H _]. Qed.


(** ** A second run *)

(** A loop whose every iteration returns the locals and the state it
    was given does so itself, and issues what its iterations issue. *)
Lemma run_for_fold_fixed {S A V} (h : host S) (xs : list A) (v : V) (s : S)
    (body : V -> A -> script V) :
  (forall x, In x xs -> run h (body v x) s = Returned (v, s)) ->
  run h (for_fold xs v body) s = Returned (v, s).
Proof.
  induction xs as [|x xs IH]; intros Hbody; simpl; [reflexivity|].
  rewrite run_bind, Hbody by now left.
  apply IH. intros y Hy. apply Hbody. now right.
Qed.

Lemma trace_for_fold_fixed {S A V} (h : host S) (P : issued -> Prop) (xs : list A) (v : V)
    (s : S) (body : V -> A -> script V) :
  (forall x, In x xs -> run h (body v x) s = Returned (v, s)) ->
  (forall x, In x xs -> Forall P (trace h (body v x) s)) ->
  Forall P (trace h (for_fold xs v body) s).
Proof.
  induction xs as [|x xs IH]; intros Hbody Htrace; simpl; [constructor|].
  rewrite trace_bind, Hbody by now left.
  apply Forall_app. split; [apply Htrace; now left|].
  apply IH; intros y Hy; [apply Hbody | apply Htrace]; now right.
Qed.

Lemma attach_present (d g : string) (s : scene) :
  mem d (chain s g) = true -> attach d g s = s.
Proof. unfold attach. now intros ->. Qed.

(** Nothing is missing on a mesh that has the whole stack. *)
Lemma copy_deformers_all_present (s : scene) (mesh : string) (deformers : stack)
    (types : list string) :
  stack_applied s mesh deformers ->
  run maya (copy_deformers mesh "" types (List.map fst deformers)) s = Returned (([], []), s).
Proof.
  intros (Hne & Hmesh & Hall). unfold copy_deformers.
  destruct (List.map fst deformers) as [|k ks] eqn:Hkeys.
  { destruct deformers; [now destruct Hne | discriminate]. }
  cbn [bind]. rewrite <- Hkeys in *. clear Hkeys k ks.
  apply run_for_fold_fixed. intros key Hkey. unfold copy_entry.
  apply List.in_rev in Hkey.
  rewrite List.Forall_forall in Hall.
  destruct (Hall key Hkey) as (names & Hexp & Hnames).
  rewrite run_bind, run_lift, Hexp.
  apply run_for_fold_fixed. intros name Hname.
  rewrite List.Forall_forall in Hnames. destruct (Hnames name Hname) as [Hex Hmem].
  simpl. rewrite Hex. simpl. rewrite Hex, Hmesh. simpl.
  now rewrite attach_present.
Qed.

Lemma create_mesh_deformers_all_present (cfg : config) (s : scene) (mesh : string)
    (deformers : stack) (deformer_type : local) :
  stack_applied s mesh deformers ->
  run maya (create_mesh_deformers cfg deformers deformer_type mesh) s
    = Returned (deformer_type, s)
  /\ Forall (fun e => queries e = true \/ attaches e = true)
            (trace maya (create_mesh_deformers cfg deformers deformer_type mesh) s).
Proof.
  intros Happlied. unfold create_mesh_deformers.
  rewrite run_bind, trace_bind, (copy_deformers_all_present s mesh deformers _ Happlied).
  split; [reflexivity|]. simpl. rewrite app_nil_r.
  apply trace_issues_only, copy_deformers_reads_and_attaches.
Qed.

Lemma get_children_maya (s : scene) (obj : string) (nd : node) :
  nodes s !! obj = Some nd ->
  run maya (get_children obj) s
    = Returned (List.filter (fun child => negb (contains "Shape" child)) (children nd), s).
Proof.
  intros Hnd. unfold get_children. simpl. rewrite Hnd. simpl.
  now destruct (children nd).
Qed.

Lemma create_object_deformers_all_present (cfg : config) (s : scene) (obj : string)
    (nd : node) (deformers : stack) (deformer_type : local) :
  nodes s !! obj = Some nd ->
  Forall (fun mesh => stack_applied s mesh deformers) (meshes_of nd obj) ->
  run maya (create_object_deformers cfg deformers deformer_type obj) s
    = Returned (deformer_type, s)
  /\ Forall (fun e => queries e = true \/ attaches e = true)
            (trace maya (create_object_deformers cfg deformers deformer_type obj) s).
Proof.
  intros Hnd Hall. rewrite List.Forall_forall in Hall. unfold create_object_deformers.
  rewrite run_bind, trace_bind, (get_children_maya s obj nd Hnd).
  assert (Hmesh : forall mesh, In mesh (meshes_of nd obj) ->
            run maya (create_mesh_deformers cfg deformers deformer_type mesh) s
              = Returned (deformer_type, s)
            /\ Forall (fun e => queries e = true \/ attaches e = true)
                      (trace maya (create_mesh_deformers cfg deformers deformer_type mesh) s)).
  { intros mesh Hin. apply create_mesh_deformers_all_present, Hall, Hin. }
  split.
  - apply run_for_fold_fixed. intros mesh Hin. exact (proj1 (Hmesh mesh Hin)).
  - apply Forall_app. split.
    + eapply List.Forall_impl; [|apply trace_issues_only, get_children_queries].
      intros e He. now left.
    + apply trace_for_fold_fixed; intros mesh Hin;
        [exact (proj1 (Hmesh mesh Hin)) | exact (proj2 (Hmesh mesh Hin))].
Qed.

(** A run from a scene in which the table is applied: the scene it
    returns and what it issues. *)
Lemma conformant_run_unchanged (cfg : config) (deformers_data : stacks) (s1 : scene) :
  conformant s1 deformers_data ->
  run maya (create_all_deformers cfg deformers_data) s1 = Returned (tt, s1)
  /\ Forall (fun e => creates e = false /\ (queries e = true \/ attaches e = true))
            (trace maya (create_all_deformers cfg deformers_data) s1)
  /\ forall (mesh : string) (deformers : stack),
       stack_applied s1 mesh deformers ->
       run maya (copy_deformers mesh "" ["cluster"; "ffd"] (List.map fst deformers)) s1
         = Returned (([], []), s1).
Proof.
  intros Hconf.
  assert (Hnode : forall item, In item deformers_data ->
            run maya (create_node_deformers cfg None item) s1 = Returned (None, s1)
            /\ Forall (fun e => queries e = true \/ attaches e = true)
                      (trace maya (create_node_deformers cfg None item) s1)).
  { unfold conformant in Hconf. rewrite List.Forall_forall in Hconf.
    intros [node deformers] Hin.
    destruct (Hconf _ Hin) as (objects & Hexp & Hobjs). simpl in Hexp, Hobjs.
    rewrite List.Forall_forall in Hobjs.
    unfold create_node_deformers. rewrite Hexp. cbn [lift bind]. split.
    - apply run_for_fold_fixed. intros obj Hobj.
      destruct (Hobjs obj Hobj) as (nd & Hnd & Hmeshes).
      exact (proj1 (create_object_deformers_all_present cfg s1 obj nd deformers None
                      Hnd Hmeshes)).
    - apply trace_for_fold_fixed; intros obj Hobj;
        destruct (Hobjs obj Hobj) as (nd & Hnd & Hmeshes);
        [exact (proj1 (create_object_deformers_all_present cfg s1 obj nd deformers None
                         Hnd Hmeshes))
        |exact (proj2 (create_object_deformers_all_present cfg s1 obj nd deformers None
                         Hnd Hmeshes))]. }
  split; [|split].
  - unfold create_all_deformers. rewrite run_bind.
    rewrite run_for_fold_fixed; [reflexivity|].
    intros item Hin. exact (proj1 (Hnode item Hin)).
  - unfold create_all_deformers. rewrite trace_bind.
    rewrite run_for_fold_fixed by (intros item Hin; exact (proj1 (Hnode item Hin))).
    simpl. rewrite app_nil_r.
    eapply List.Forall_impl;
      [|apply trace_for_fold_fixed; intros item Hin;
        [exact (proj1 (Hnode item Hin)) | exact (proj2 (Hnode item Hin))]].
    intros [X c] [H|H]; split; auto; destruct c; simpl in *; congruence.
  - intros mesh deformers. apply copy_deformers_all_present.
Qed.

(** X29: from a scene of the in-memory host in which every deformer
    of the table is on its mesh, a run of [create_all_deformers]
    returns the very same scene; it only reads the scene and
    re-attaches deformers that are attached already, so it creates
    nothing; and for every mesh [copy_deformers] reports no deformer
    missing. *)
Theorem applied_table_run_changes_nothing :
  forall (cfg : config) (deformers_data : stacks) (s1 : scene),
    conformant s1 deformers_data ->
    run maya (create_all_deformers cfg deformers_data) s1 = Returned (tt, s1)
    /\ Forall (fun e => creates e = false /\ (queries e = true \/ attaches e = true))
              (trace maya (create_all_deformers cfg deformers_data) s1)
    /\ forall (mesh : string) (deformers : stack),
         stack_applied s1 mesh deformers ->
         run maya (copy_deformers mesh "" ["cluster"; "ffd"] (List.map fst deformers)) s1
           = Returned (([], []), s1).
Proof. intros cfg deformers_data s1. apply conformant_run_unchanged. Qed.

Lemma applied_table_run_changes_nothing_witness :
  run maya (create_all_deformers cfg0 data0) reconciled = Returned (tt, reconciled)
  /\ Forall (fun e => creates e = false /\ (queries e = true \/ attaches e = true))
            (trace maya (create_all_deformers cfg0 data0) reconciled)
  /\ forall (mesh : string) (deformers : stack),
       stack_applied reconciled mesh deformers ->
       run maya (copy_deformers mesh "" ["cluster"; "ffd"] (List.map fst deformers)) reconciled
         = Returned (([], []), reconciled).
Proof.
  apply (applied_table_run_changes_nothing cfg0 data0 reconciled).
  constructor; [|constructor].
  exists ["M_body_compil_mesh"]. split; [reflexivity|].
  constructor; [|constructor].
  eexists. split; [vm_compute; reflexivity|].
  constructor; [|constructor].
  split; [discriminate|]. split; [vm_compute; reflexivity|].
  repeat constructor;
    (eexists; split; [vm_compute; reflexivity|]);
    repeat constructor; vm_compute; reflexivity.
Defined.

(** ** The order of a chain built from nothing *)

(** C2 as stated fails: two targets without deformers, the first
    target's only deformer being the middle one of the second target's
    stack.  When the second target is reconciled that deformer exists,
    so it is put on the target while the stack is walked, and the two
    missing ones are created after it: the chain ends with it. *)
Lemma order_breaks_when_a_name_exists :
  let s' := after (create_all_deformers cfg0 data_shared_name) two_meshes in
  chain two_meshes "M_body_compil_mesh" = []
  /\ chain two_meshes "M_head_mesh" = []
  /\ run maya (create_all_deformers cfg0 data_shared_name) two_meshes = Returned (tt, s')
  /\ chain s' "M_body_compil_mesh" = ["M_a_cluster"; "M_c_cluster"; "M_b_cluster"]
  /\ chain s' "M_body_compil_mesh" <> ["M_a_cluster"; "M_b_cluster"; "M_c_cluster"].
Proof.
  cbv zeta.
  split; [vm_compute; reflexivity|].
  split; [vm_compute; reflexivity|].
  split; [vm_compute; reflexivity|].
  split; [vm_compute; reflexivity|].
  vm_compute. discriminate.
Qed.

Lemma exists_node_add_node (n typ m : string) (s : scene) :
  m <> n -> exists_node (add_node n typ s) m = exists_node s m.
Proof.
  intros Hne. unfold exists_node, add_node. simpl.
  now rewrite lookup_insert_ne by congruence.
Qed.

Lemma exists_node_add_node_eq (n typ : string) (s : scene) :
  exists_node (add_node n typ s) n = true.
Proof. unfold exists_node, add_node. simpl. now rewrite lookup_insert_eq. Qed.

Lemma exists_node_attach (d g m : string) (s : scene) :
  exists_node (attach d g s) m = exists_node s m.
Proof. unfold exists_node. now rewrite nodes_attach. Qed.

Lemma stacked_same (name mesh : string) (s s1 s2 : scene) :
  stacked name mesh s s1 -> nodes s2 = nodes s1 -> chains s2 = chains s1 ->
  stacked name mesh s s2.
Proof.
  intros (Hc & He & Ho) Hn Hch. unfold stacked, chain, exists_node in *.
  rewrite Hn, Hch. auto.
Qed.

(** A new deformer on a mesh that exists, under a name that is free. *)
Lemma new_deformer_on_mesh (name typ mesh : string) (s : scene) :
  exists_node s mesh = true ->
  exists_node s name = false ->
  mem name (chain s mesh) = false ->
  exists s', new_deformer name typ [mesh] s = Returned s' /\ stacked name mesh s s'.
Proof.
  intros Hmesh Hfree Hnot.
  exists (attach name mesh (add_node name typ s)). split.
  - unfold new_deformer. rewrite Hfree. simpl. now rewrite Hmesh.
  - split; [|split].
    + rewrite chain_attach. destruct (decide (mesh = mesh)); [|congruence].
      change (chain (add_node name typ s) mesh) with (chain s mesh). now rewrite Hnot.
    + rewrite exists_node_attach. apply exists_node_add_node_eq.
    + intros n Hn. rewrite exists_node_attach. now apply exists_node_add_node.
Qed.

Lemma create_deformer_plain (groups : list (string * string)) (name mesh t : string)
    (association_map : list association) (s : scene) :
  find_association association_map (last_token name) = Some t ->
  In t plain_types ->
  exists_node s mesh = true ->
  exists_node s name = false ->
  mem name (chain s mesh) = false ->
  exists r s',
    run maya (create_deformer groups name [mesh] None association_map) s = Returned (r, s')
    /\ stacked name mesh s s'
    /\ created_names (trace maya (create_deformer groups name [mesh] None association_map) s)
       = [name].
Proof.
  intros Hassoc Hplain Hmesh Hfree Hnot.
  unfold create_deformer. cbn [truthy_opt_str]. rewrite Hassoc.
  simpl in Hplain.
  destruct Hplain as [<-|[<-|[<-|[<-|[]]]]].
  - destruct (new_deformer_on_mesh name "cluster" mesh s Hmesh Hfree Hnot)
      as (s' & Hnew & Hst).
    cbn. rewrite Hnew. cbn.
    eexists; exists s'; (split; [reflexivity|]); split; [exact Hst|reflexivity].
  - destruct (new_deformer_on_mesh name "ffd" mesh s Hmesh Hfree Hnot)
      as (s' & Hnew & Hst).
    cbn. rewrite Hnew. cbn.
    eexists; exists s'; (split; [reflexivity|]); split; [exact Hst|reflexivity].
  - destruct (new_deformer_on_mesh name "blendShape" mesh s Hmesh Hfree Hnot)
      as (s' & Hnew & Hst).
    cbn. rewrite Hnew. cbn.
    eexists; exists s'; (split; [reflexivity|]); split; [exact Hst|reflexivity].
  - destruct (new_deformer_on_mesh name "nonLinear" mesh s Hmesh Hfree Hnot)
      as (s' & Hnew & Hst).
    cbn. rewrite Hnew. cbn.
    eexists; exists s'; (split; [reflexivity|]); split; [exact Hst|reflexivity].
Qed.

Lemma find_missing_none (s : scene) (js : list string) :
  Forall (fun j => exists_node s j = true) js ->
  List.find (fun j => negb (exists_node s j)) js = None.
Proof.
  induction 1 as [|j js Hj _ IH]; simpl; [reflexivity|]. now rewrite Hj.
Qed.

Lemma stacked_exists (name mesh n : string) (s s' : scene) :
  stacked name mesh s s' -> exists_node s n = true -> exists_node s' n = true.
Proof.
  intros (_ & Hname & Hother) Hn.
  destruct (decide (n = name)) as [->|Hne]; [exact Hname|].
  now rewrite Hother.
Qed.

Lemma creatable_stacked (cfg : config) (deformers : stack) (name mesh key n : string)
    (s s' : scene) :
  stacked name mesh s s' -> creatable cfg deformers s key n -> creatable cfg deformers s' key n.
Proof.
  intros Hst (t & Hassoc & Hkind). exists t. split; [exact Hassoc|].
  destruct Hkind as [Hplain|(-> & p & js & uh & env & Hd & Hj & Hu & He & Hjs)];
    [now left|right].
  split; [reflexivity|]. exists p, js, uh, env. repeat (split; [assumption|]).
  eapply List.Forall_impl; [|exact Hjs]. intros j. apply (stacked_exists _ _ _ _ _ Hst).
Qed.

(** One missing deformer that can be created is created on the mesh. *)
Lemma create_missing_creatable (cfg : config) (deformers : stack) (mesh key name : string)
    (deformer_type : local) (s : scene) :
  creatable cfg deformers s key name ->
  exists_node s mesh = true ->
  exists_node s name = false ->
  mem name (chain s mesh) = false ->
  exists dt' s',
    run maya (create_missing cfg deformers mesh deformer_type (key, name)) s
      = Returned (dt', s')
    /\ stacked name mesh s s'
    /\ created_names (trace maya (create_missing cfg deformers mesh deformer_type (key, name)) s)
       = [name].
Proof.
  intros (t & Hassoc & Hkind) Hmesh Hfree Hnot.
  unfold create_missing. rewrite Hassoc.
  destruct Hkind as [[Hplain Hd]|(-> & p & js & uh & env & Hd & Hj & Hu & He & Hjs)].
  - destruct (create_deformer_plain (GROUPS_HIERARCHY cfg) name mesh t
                (DEFORMER_SUFFIX_ASSOCIATIONS cfg) s Hassoc Hplain Hmesh Hfree Hnot)
      as (r & s' & Hrun & Hst & Htr).
    assert (Hnotskin : truthy_str t = true /\ String.eqb t "skinCluster" = false).
    { simpl in Hplain. destruct Hplain as [<-|[<-|[<-|[<-|[]]]]]; now split. }
    destruct Hnotskin as [-> ->]. rewrite Hd. cbn [lift bind].
    rewrite run_bind, trace_bind, Hrun. cbn [run trace]. rewrite app_nil_r.
    exists (Some t), s'. split; [reflexivity|]. split; [exact Hst | exact Htr].
  - cbn [truthy_str String.eqb Ascii.eqb Bool.eqb negb].
    rewrite Hd. cbn [outcome_bind subscriptable lift bind].
    rewrite Hj, Hu, He. cbn [param lift bind].
    destruct (new_deformer_on_mesh name "skinCluster" mesh s Hmesh Hfree Hnot)
      as (s1 & Hnew & Hst).
    unfold bind_skincluster. cbn. rewrite Hfree. cbn.
    rewrite (find_missing_none s js Hjs), Hnew. cbn.
    assert (Hname : exists_node (set_influences (insert name js) s1) name = true).
    { destruct Hst as (_ & Hex & _). exact Hex. }
    rewrite Hname. cbn.
    eexists. eexists. split; [reflexivity|]. split; [|reflexivity].
    eapply stacked_same; [exact Hst| |]; reflexivity.
Qed.

Lemma created_names_app (tr1 tr2 : list issued) :
  created_names (tr1 ++ tr2) = created_names tr1 ++ created_names tr2.
Proof. unfold created_names. apply List.flat_map_app. Qed.

Lemma mem_cons_ne (x y : string) (l : list string) :
  x <> y -> mem x (y :: l) = mem x l.
Proof.
  intros Hne. unfold mem. simpl.
  destruct (String.eqb x y) eqn:E; [|reflexivity].
  apply String.eqb_eq in E. contradiction.
Qed.

(** The missing deformers are created one after the other, each on top
    of the chain the previous ones left. *)
Lemma create_missing_fold (cfg : config) (deformers : stack) (mesh : string) :
  forall (items : list (string * string)) (deformer_type : local) (s : scene),
    exists_node s mesh = true ->
    List.NoDup (List.map snd items) ->
    Forall (fun kn => exists_node s (snd kn) = false
                      /\ mem (snd kn) (chain s mesh) = false
                      /\ creatable cfg deformers s (fst kn) (snd kn)) items ->
    exists dt' s',
      run maya (for_fold items deformer_type (create_missing cfg deformers mesh)) s
        = Returned (dt', s')
      /\ chain s' mesh = List.rev (List.map snd items) ++ chain s mesh
      /\ created_names
           (trace maya (for_fold items deformer_type (create_missing cfg deformers mesh)) s)
         = List.map snd items
      /\ (forall n, exists_node s n = true -> exists_node s' n = true)
      /\ Forall (fun n => exists_node s' n = true) (List.map snd items).
Proof.
  induction items as [|[key name] items IH]; intros deformer_type s Hmesh Hnodup Hall.
  - exists deformer_type, s. repeat (split; [reflexivity|]). split; [auto | constructor].
  - apply List.Forall_cons_iff in Hall as [(Hfree & Hnot & Hcreatable) Hrest].
    simpl in Hfree, Hnot, Hcreatable, Hnodup.
    apply List.NoDup_cons_iff in Hnodup as [Hnotin Hnodup].
    destruct (create_missing_creatable cfg deformers mesh key name deformer_type s
                Hcreatable Hmesh Hfree Hnot) as (dt1 & s1 & Hrun & Hst & Htr).
    destruct (IH dt1 s1) as (dt' & s' & Hrun' & Hchain' & Htr' & Hkeep' & Hmade').
    + now apply (stacked_exists _ _ _ _ _ Hst).
    + exact Hnodup.
    + rewrite List.Forall_forall in Hrest |- *.
      intros [key' name'] Hin. simpl.
      destruct (Hrest _ Hin) as (Hfree' & Hnot' & Hcreatable'). simpl in *.
      assert (Hne : name' <> name).
      { intros ->. apply Hnotin. apply List.in_map_iff. now exists (key', name). }
      destruct Hst as (Hchain & Hex & Hother).
      split; [now rewrite Hother|]. split.
      * now rewrite Hchain, mem_cons_ne.
      * apply (creatable_stacked cfg deformers name mesh key' name' s s1);
          [split; [exact Hchain | split; [exact Hex | exact Hother]] | exact Hcreatable'].
    + exists dt', s'. cbn [for_fold].
      rewrite run_bind, trace_bind, Hrun. split; [exact Hrun'|].
      split; [|split; [|split]].
      * rewrite Hchain'. destruct Hst as (-> & _ & _).
        simpl. now rewrite <- app_assoc.
      * rewrite created_names_app, Htr, Htr'. reflexivity.
      * intros n Hn. apply Hkeep'. now apply (stacked_exists _ _ _ _ _ Hst).
      * simpl. constructor; [|exact Hmade'].
        apply Hkeep'. now destruct Hst as (_ & Hex & _).
Qed.

(** *** Walking a stack none of whose deformers exists *)

Lemma copy_deformer_missing (s : scene) (target deformer : string) :
  forall (names missing raw_missing : list string),
    Forall (fun n => exists_node s n = false) names ->
    run maya (for_fold names (missing, raw_missing) (copy_deformer target deformer)) s
      = Returned ((missing ++ names,
                   raw_missing ++ List.map (fun _ => deformer) names), s).
Proof.
  induction names as [|n names IH]; intros missing raw_missing Hfresh.
  - simpl. now rewrite !app_nil_r.
  - apply List.Forall_cons_iff in Hfresh as [Hn Hfresh].
    cbn [for_fold]. rewrite run_bind. simpl. rewrite Hn. simpl.
    rewrite (IH _ _ Hfresh), <- !app_assoc. reflexivity.
Qed.

Lemma copy_entries_missing (s : scene) (target : string) :
  forall (entries : list (string * list string)) (acc : list string * list string),
    Forall (fun kn => expand_deformer target (fst kn) = Returned (snd kn)
                      /\ Forall (fun n => exists_node s n = false) (snd kn)) entries ->
    run maya (for_fold (List.map fst entries) acc (copy_entry target)) s
      = Returned ((fst acc ++ List.concat (List.map snd entries),
                   snd acc ++ List.flat_map
                                (fun kn => List.map (fun _ => fst kn) (snd kn)) entries), s).
Proof.
  induction entries as [|[key names] entries IH]; intros [missing raw_missing] Hall.
  - simpl. now rewrite !app_nil_r.
  - apply List.Forall_cons_iff in Hall as [[Hexp Hfresh] Hall]. simpl in Hexp, Hfresh.
    cbn [List.map fst for_fold]. rewrite run_bind. unfold copy_entry at 1.
    rewrite run_bind, run_lift, Hexp, (copy_deformer_missing _ _ _ _ _ _ Hfresh).
    rewrite (IH _ Hall). simpl. now rewrite <- !app_assoc.
Qed.

Lemma entries_flat (entries : list (string * list string)) :
  List.map snd (List.flat_map (fun kn => List.map (pair (fst kn)) (snd kn)) entries)
    = List.concat (List.map snd entries)
  /\ List.map fst (List.flat_map (fun kn => List.map (pair (fst kn)) (snd kn)) entries)
     = List.flat_map (fun kn => List.map (fun _ => fst kn) (snd kn)) entries.
Proof.
  induction entries as [|[key names] entries [IHs IHf]]; [now split|].
  simpl. rewrite !List.map_app, IHs, IHf, !List.map_map. simpl.
  now rewrite List.map_id.
Qed.

Lemma combine_fst_snd {A B} (l : list (A * B)) :
  List.combine (List.map fst l) (List.map snd l) = l.
Proof. induction l as [|[a b] l IH]; simpl; [reflexivity | now rewrite IH]. Qed.

Lemma forall2_combine {A B} (R : A -> B -> Prop) (xs : list A) (ys : list B) :
  Forall2 R xs ys ->
  List.map fst (List.combine xs ys) = xs
  /\ List.map snd (List.combine xs ys) = ys
  /\ Forall (fun p => R (fst p) (snd p)) (List.combine xs ys).
Proof.
  induction 1 as [|x y xs ys Hxy _ (IHf & IHs & IHa)]; simpl.
  - repeat split; constructor.
  - rewrite IHf, IHs. repeat split. now constructor.
Qed.

Lemma rev_concat_rev {A} (l : list (list A)) :
  List.rev (List.concat (List.rev l)) = List.concat (List.map (@List.rev A) l).
Proof.
  induction l as [|a l IH]; [reflexivity|].
  simpl. rewrite List.concat_app, List.rev_app_distr. simpl.
  now rewrite app_nil_r, IH.
Qed.

Lemma nodup_concat_rev {A} (l : list (list A)) :
  List.NoDup (List.concat l) -> List.NoDup (List.concat (List.rev l)).
Proof.
  apply Permutation.Permutation_NoDup.
  induction l as [|a l IH]; [constructor|].
  simpl. rewrite List.concat_app. simpl. rewrite app_nil_r.
  etransitivity; [|apply Permutation.Permutation_app_comm].
  now apply Permutation.Permutation_app_head.
Qed.

Lemma created_names_none (tr : list issued) :
  Forall (fun e => queries e = true \/ attaches e = true) tr -> created_names tr = [].
Proof.
  induction 1 as [|e tr He _ IH]; [reflexivity|].
  unfold created_names in *. simpl. rewrite IH, app_nil_r.
  destruct e as [X []]; simpl in *; destruct He; try discriminate; reflexivity.
Qed.

Lemma mem_in (x : string) (l : list string) : In x l -> mem x l = true.
Proof.
  intros Hin. unfold mem. apply List.existsb_exists. exists x.
  split; [exact Hin | apply String.eqb_refl].
Qed.

Lemma forall2_left {A B} (R : A -> B -> Prop) (xs : list A) (ys : list B) :
  Forall2 R xs ys -> Forall (fun x => exists y, In y ys /\ R x y) xs.
Proof.
  induction 1 as [|x y xs ys Hxy _ IH]; constructor.
  - exists y. split; [now left | exact Hxy].
  - eapply List.Forall_impl; [|exact IH].
    intros x' (y' & Hin & HR). exists y'. split; [now right | exact HR].
Qed.

(** Reconciling a mesh without deformers against a stack of new names:
    the run, what it creates, the chain it leaves, and the fact that
    the stack is then applied. *)
Lemma fresh_stack_run (cfg : config) (deformers : stack) (mesh : string)
    (deformer_type : local) (s : scene) (names : list (list string)) :
  deformers <> [] ->
  exists_node s mesh = true ->
  chain s mesh = [] ->
  Forall2 (fun key ns => expand_deformer mesh key = Returned ns
                         /\ Forall (fun n => exists_node s n = false
                                             /\ creatable cfg deformers s key n) ns)
          (List.map fst deformers) names ->
  List.NoDup (List.concat names) ->
  exists (dt' : local) (s' : scene),
    run maya (create_mesh_deformers cfg deformers deformer_type mesh) s = Returned (dt', s')
    /\ created_names (trace maya (create_mesh_deformers cfg deformers deformer_type mesh) s)
       = List.concat (List.rev names)
    /\ chain s' mesh = List.concat (List.map (@List.rev string) names)
    /\ stack_applied s' mesh deformers.
Proof.
  intros Hne Hmesh Hempty Hnames Hnodup.
  destruct (forall2_combine _ _ _ Hnames) as (Hkeys & Hvals & Hall).
  set (entries := List.rev (List.combine (List.map fst deformers) names)).
  assert (Hentries_keys : List.map fst entries = List.rev (List.map fst deformers)).
  { unfold entries. now rewrite List.map_rev, Hkeys. }
  assert (Hentries_vals : List.map snd entries = List.rev names).
  { unfold entries. now rewrite List.map_rev, Hvals. }
  assert (Hentries : Forall (fun kn =>
            expand_deformer mesh (fst kn) = Returned (snd kn)
            /\ Forall (fun n => exists_node s n = false
                                /\ creatable cfg deformers s (fst kn) n) (snd kn)) entries).
  { unfold entries. now apply List.Forall_rev. }
  set (items := List.flat_map (fun kn => List.map (pair (fst kn)) (snd kn)) entries).
  destruct (entries_flat entries) as [Hsnd Hfst]. fold items in Hsnd, Hfst.
  assert (Hcopy : run maya (copy_deformers mesh "" ["cluster"; "ffd"]
                              (List.map fst deformers)) s
                  = Returned ((List.map snd items, List.map fst items), s)).
  { unfold copy_deformers.
    destruct (List.map fst deformers) as [|k ks] eqn:Hk.
    { destruct deformers; [now destruct Hne | discriminate]. }
    cbn [bind]. rewrite <- Hentries_keys, copy_entries_missing.
    - simpl. now rewrite Hsnd, Hfst.
    - eapply List.Forall_impl; [|exact Hentries].
      intros kn [Hexp Hns]. split; [exact Hexp|].
      eapply List.Forall_impl; [|exact Hns]. now intros n [Hn _]. }
  destruct (create_missing_fold cfg deformers mesh items deformer_type s Hmesh)
    as (dt' & s' & Hrun & Hchain & Htrace & Hkeep & Hmade).
  { rewrite Hsnd, Hentries_vals. now apply nodup_concat_rev. }
  { rewrite List.Forall_forall in Hentries |- *.
    intros [key name] Hin. unfold items in Hin.
    apply List.in_flat_map in Hin as (kn & Hkn & Hin).
    apply List.in_map_iff in Hin as (n & Heq & Hn). inversion Heq; subst. simpl.
    destruct (Hentries kn Hkn) as [_ Hns]. rewrite List.Forall_forall in Hns.
    destruct (Hns name Hn) as [Hfresh Hcreatable].
    split; [exact Hfresh|]. split; [now rewrite Hempty | exact Hcreatable]. }
  assert (Hchain' : chain s' mesh = List.concat (List.map (@List.rev string) names)).
  { rewrite Hchain, Hempty, app_nil_r, Hsnd, Hentries_vals. apply rev_concat_rev. }
  exists dt', s'. unfold create_mesh_deformers.
  rewrite run_bind, trace_bind, Hcopy, combine_fst_snd.
  split; [exact Hrun|]. split; [|split; [exact Hchain'|]].
  - rewrite created_names_app, Htrace, Hsnd, Hentries_vals.
    rewrite created_names_none; [reflexivity|].
    apply trace_issues_only, copy_deformers_reads_and_attaches.
  - split; [exact Hne|]. split; [now apply Hkeep|].
    eapply List.Forall_impl; [|exact (forall2_left _ _ _ Hnames)].
    intros key (ns & Hin & Hexp & _). exists ns. split; [exact Hexp|].
    rewrite Hsnd, Hentries_vals in Hmade. rewrite List.Forall_forall in Hmade |- *.
    intros n Hn. split.
    + apply Hmade. apply List.in_concat. exists ns. split; [|exact Hn].
      now apply List.in_rev in Hin.
    + rewrite Hchain'. apply mem_in, List.in_concat. exists (List.rev ns).
      split; [now apply List.in_map | now apply List.in_rev in Hn].
Qed.

(** What the first run builds, the second run skips. *)
Lemma fresh_stack_second_run_is_skipped (cfg : config) (deformers : stack) (mesh : string)
    (deformer_type : local) (s : scene) (names : list (list string)) :
  deformers <> [] ->
  exists_node s mesh = true ->
  chain s mesh = [] ->
  Forall2 (fun key ns => expand_deformer mesh key = Returned ns
                         /\ Forall (fun n => exists_node s n = false
                                             /\ creatable cfg deformers s key n) ns)
          (List.map fst deformers) names ->
  List.NoDup (List.concat names) ->
  exists (dt' : local) (s' : scene),
    run maya (create_mesh_deformers cfg deformers deformer_type mesh) s = Returned (dt', s')
    /\ run maya (create_mesh_deformers cfg deformers dt' mesh) s' = Returned (dt', s')
    /\ created_names (trace maya (create_mesh_deformers cfg deformers dt' mesh) s') = [].
Proof.
  intros Hne Hmesh Hempty Hnames Hnodup.
  destruct (fresh_stack_run cfg deformers mesh deformer_type s names
              Hne Hmesh Hempty Hnames Hnodup) as (dt' & s' & Hrun & _ & _ & Happlied).
  exists dt', s'. split; [exact Hrun|].
  destruct (create_mesh_deformers_all_present cfg s' mesh deformers dt' Happlied)
    as [Hrun' Htrace'].
  split; [exact Hrun' | now apply created_names_none].
Qed.

(** C2, as the code has it: take a mesh that exists and has no
    deformer, and a stack whose names on that mesh are all different,
    exist nowhere in the scene and can each be created.  Reconciling
    the mesh returns; the deformers are created walking the stack from
    its last entry to its first; and the chain of the mesh then lists
    the stack entries in the order of the stack (the two names of a
    side-templated entry in the order R, L). *)
Theorem fresh_stack_is_built_in_spec_order :
  forall (cfg : config) (deformers : stack) (mesh : string) (deformer_type : local)
         (s : scene) (names : list (list string)),
    deformers <> [] ->
    exists_node s mesh = true ->
    chain s mesh = [] ->
    Forall2 (fun key ns => expand_deformer mesh key = Returned ns
                           /\ Forall (fun n => exists_node s n = false
                                               /\ creatable cfg deformers s key n) ns)
            (List.map fst deformers) names ->
    List.NoDup (List.concat names) ->
    exists (dt' : local) (s' : scene),
      run maya (create_mesh_deformers cfg deformers deformer_type mesh) s = Returned (dt', s')
      /\ created_names (trace maya (create_mesh_deformers cfg deformers deformer_type mesh) s)
         = List.concat (List.rev names)
      /\ chain s' mesh = List.concat (List.map (@List.rev string) names).
Proof.
  intros cfg deformers mesh deformer_type s names Hne Hmesh Hempty Hnames Hnodup.
  destruct (fresh_stack_run cfg deformers mesh deformer_type s names
              Hne Hmesh Hempty Hnames Hnodup) as (dt' & s' & Hrun & Hcreated & Hchain & _).
  exists dt', s'. split; [exact Hrun|]. split; [exact Hcreated | exact Hchain].
Qed.

Lemma fresh_stack_is_built_in_spec_order_witness :
  exists (dt' : local) (s' : scene),
    run maya (create_mesh_deformers cfg0 (snd (List.hd ("", []) data0)) None
                "M_body_compil_mesh") s0 = Returned (dt', s')
    /\ created_names (trace maya (create_mesh_deformers cfg0 (snd (List.hd ("", []) data0))
                                    None "M_body_compil_mesh") s0)
       = List.concat (List.rev [["M_jaw_cluster"]; ["M_face_ffd"];
                                ["M_body_compil_mesh_skinCluster"]])
    /\ chain s' "M_body_compil_mesh"
       = List.concat (List.map (@List.rev string)
                        [["M_jaw_cluster"]; ["M_face_ffd"];
                         ["M_body_compil_mesh_skinCluster"]]).
Proof.
  apply (fresh_stack_is_built_in_spec_order cfg0 (snd (List.hd ("", []) data0))
           "M_body_compil_mesh" None s0
           [["M_jaw_cluster"]; ["M_face_ffd"]; ["M_body_compil_mesh_skinCluster"]]).
  - discriminate.
  - vm_compute. reflexivity.
  - vm_compute. reflexivity.
  - repeat constructor; try (vm_compute; reflexivity).
    + exists "cluster". split; [reflexivity|]. left. split; [simpl; tauto | reflexivity].
    + exists "ffd". split; [reflexivity|]. left. split; [simpl; tauto | reflexivity].
    + exists "skinCluster". split; [reflexivity|]. right. split; [reflexivity|].
      eexists _, ["M_jaw_jnt"], false, (PInt 1).
      repeat (split; [reflexivity|]). repeat constructor.
  - repeat constructor; simpl; intuition discriminate.
Defined.

(** C5 as stated fails: a skinCluster of the resolved name exists, on
    the head.  Reconciling the body does not add the spec's joint to
    it: the walk of the stack finds the name, puts the skinCluster on
    the body and reports nothing missing, so the skinCluster dispatch
    is never reached and the influences stay as they were. *)
Lemma existing_skincluster_is_attached_not_extended :
  let s' := after (create_all_deformers cfg0 data_existing_skin) skinned_head in
  option_map node_type (nodes skinned_head !! "M_body_skinCluster") = Some "skinCluster"
  /\ influences skinned_head !! "M_body_skinCluster" = Some ["M_jaw_jnt"]
  /\ run maya (create_all_deformers cfg0 data_existing_skin) skinned_head = Returned (tt, s')
  /\ trace maya (create_all_deformers cfg0 data_existing_skin) skinned_head
     = [Issued (ListRelatives "M_body_compil_mesh" Children);
        Issued (ObjExists "M_body_skinCluster");
        Issued (DeformerAddGeometry "M_body_skinCluster" "M_body_compil_mesh")]
  /\ influences s' !! "M_body_skinCluster" = Some ["M_jaw_jnt"]
  /\ chain s' "M_body_compil_mesh" = ["M_body_skinCluster"].
Proof. repeat split; vm_compute; reflexivity. Qed.

(** ** More on a target that is not in the scene *)

(** On no host does [create_all_deformers] report anything. *)
Lemma create_all_deformers_never_reports (cfg : config) (deformers_data : stacks)
    {S : Type} (h : host S) (s : S) :
  Forall (fun e => reports e = false) (trace h (create_all_deformers cfg deformers_data) s).
Proof.
  apply trace_issues_only.
  eapply issues_only_weaken; [|apply create_all_deformers_issues]. now intros e [_ H].
Qed.

(** On any host that rejects listing the children of the first target,
    the run ends with the host's exception after that one command. *)
Lemma create_all_deformers_host_error_aborts (cfg : config) (node : string)
    (deformers : stack) (rest : stacks) {S : Type} (h : host S) (s : S) (e : exn) :
  startswith node "{}" = false ->
  h _ (ListRelatives node Children) s = Raised e ->
  run h (create_all_deformers cfg ((node, deformers) :: rest)) s = Raised e
  /\ trace h (create_all_deformers cfg ((node, deformers) :: rest)) s
     = [Issued (ListRelatives node Children)].
Proof.
  intros Hplain Hraise.
  unfold create_all_deformers. cbn [for_fold].
  rewrite !run_bind, !trace_bind.
  destruct (create_node_deformers_plain h cfg None node deformers s Hplain) as [-> ->].
  unfold create_object_deformers, get_children.
  rewrite !run_bind, !trace_bind. simpl. rewrite Hraise.
  split; [reflexivity|]. f_equal.
  match goal with
  | |- _ ++ match ?x with _ => _ end = _ => now destruct x as [[? ?]|]
  end.
Qed.

(** ** [copy_deformers] returns *)

Lemma run_for_fold_total {A V} (I : scene -> Prop) (xs : list A) (body : V -> A -> script V) :
  (forall v x s, In x xs -> I s ->
     exists v' s', run maya (body v x) s = Returned (v', s') /\ I s') ->
  forall v s, I s ->
    exists v' s', run maya (for_fold xs v body) s = Returned (v', s') /\ I s'.
Proof.
  induction xs as [|x xs IH]; intros Hbody v s Hs.
  - exists v, s. now split.
  - destruct (Hbody v x s (or_introl eq_refl) Hs) as (v1 & s1 & Hrun1 & Hs1).
    destruct (IH (fun v y s Hy => Hbody v y s (or_intror Hy)) v1 s1 Hs1)
      as (v' & s' & Hrun' & Hs').
    exists v', s'. cbn [for_fold]. rewrite run_bind, Hrun1. now split.
Qed.

(** On the in-memory host [copy_deformers] returns its two lists
    whenever the target exists and every entry of a stack that is not
    empty can be expanded. *)
Lemma copy_deformers_returns (s : scene) (target source : string)
    (types deformer_stack : list string) :
  deformer_stack <> [] ->
  exists_node s target = true ->
  Forall (fun deformer => exists names, expand_deformer target deformer = Returned names)
         deformer_stack ->
  exists missing raw_missing s',
    run maya (copy_deformers target source types deformer_stack) s
      = Returned ((missing, raw_missing), s').
Proof.
  intros Hne Htarget Hexp. unfold copy_deformers.
  destruct deformer_stack as [|k ks]; [now destruct Hne|]. cbn [bind].
  destruct (run_for_fold_total (fun s => exists_node s target = true) (List.rev (k :: ks))
              (copy_entry target)) with (v := (@nil string, @nil string)) (s := s)
    as ([missing raw_missing] & s' & Hrun & _); [|exact Htarget|now exists missing, raw_missing, s'].
  intros acc deformer s1 Hin Hs1. apply List.in_rev in Hin.
  rewrite List.Forall_forall in Hexp. destruct (Hexp deformer Hin) as [names Hnames].
  unfold copy_entry. rewrite run_bind, run_lift, Hnames.
  apply run_for_fold_total; [|exact Hs1].
  intros [m r] defo s2 _ Hs2. simpl.
  destruct (exists_node s2 defo) eqn:Hdefo; simpl.
  - rewrite Hdefo, Hs2. simpl. eexists _, _. split; [reflexivity|].
    now rewrite exists_node_attach.
  - eexists _, _. split; [reflexivity | exact Hs2].
Qed.

(** * Further properties *)

(** ** [list_deformers] *)

Lemma list_deformers_invariant {S} (h : host S) (s s' : S) (mesh : string)
    (types deformers deformers_types : list string) :
  run h (list_deformers mesh types) s = Returned ((deformers, deformers_types), s') ->
  List.length deformers = List.length deformers_types
  /\ Forall (fun typ => In typ types) deformers_types.
Proof.
  intros Hrun. unfold list_deformers in Hrun. simpl in Hrun.
  destruct (h _ (ListRelatives mesh (Shapes true)) s) as [[relatives s1]|e];
    [|discriminate].
  destruct (or_empty relatives) as [|shape_node rest];
    [inversion Hrun; subst; split; [reflexivity | constructor]|].
  destruct (truthy_str shape_node);
    [|inversion Hrun; subst; split; [reflexivity | constructor]].
  simpl in Hrun.
  destruct (h _ (ListHistory shape_node) s1) as [[history s2]|e]; [|discriminate].
  pose (P := fun acc : list string * list string =>
    List.length (fst acc) = List.length (snd acc)
    /\ Forall (fun typ => In typ types) (snd acc)).
  change (P (deformers, deformers_types)).
  eapply (run_for_fold_inv h P); [| |exact Hrun]; [|split; [reflexivity|constructor]].
  intros acc deformer s3 acc' s3' _ Hacc Hbody.
  eapply (run_for_fold_inv h P); [| exact Hacc | exact Hbody].
  intros [ds ts] typ s4 [ds' ts'] s4' Hin [Hlen Hall] Hstep.
  simpl in Hstep, Hlen, Hall.
  destruct (h _ (Ls deformer typ) s4) as [[filtered s5]|e]; [|discriminate].
  destruct (or_empty filtered); simpl in Hstep; inversion Hstep; subst.
  - now split.
  - split; simpl; [rewrite !List.length_app; simpl; lia|].
    apply Forall_app. split; [exact Hall | now constructor].
Qed.

(** X1: whenever [list_deformers] returns, on any host, its two lists
    have the same length and every type it reports is one of the types
    asked for; and whatever happens it only reads the scene. *)
Theorem list_deformers_lists_correspond :
  forall (S : Type) (h : host S) (s s' : S) (mesh : string)
         (types deformers deformers_types : list string),
    run h (list_deformers mesh types) s = Returned ((deformers, deformers_types), s') ->
    List.length deformers = List.length deformers_types
    /\ Forall (fun typ => In typ types) deformers_types
    /\ Forall (fun e => queries e = true) (trace h (list_deformers mesh types) s).
Proof.
  intros S h s s' mesh types deformers deformers_types Hrun.
  destruct (list_deformers_invariant h s s' mesh types _ _ Hrun) as [Hlen Hall].
  split; [exact Hlen|]. split; [exact Hall|].
  apply trace_issues_only, list_deformers_queries.
Qed.

Lemma list_deformers_lists_correspond_witness :
  List.length ["skinCluster2"; "skinCluster1"] = List.length ["skinCluster"; "skinCluster"]
  /\ Forall (fun typ => In typ ["skinCluster"]) ["skinCluster"; "skinCluster"]
  /\ Forall (fun e => queries e = true)
            (trace maya (list_deformers "M_body_compil_mesh" ["skinCluster"]) two_skins).
Proof.
  apply (list_deformers_lists_correspond scene maya two_skins two_skins "M_body_compil_mesh"
           ["skinCluster"] ["skinCluster2"; "skinCluster1"] ["skinCluster"; "skinCluster"]).
  vm_compute. reflexivity.
Defined.

(** X2: a mesh for which the host lists no shape has no deformers for
    [list_deformers]: it returns two empty lists after that single
    query, without asking for any history. *)
Theorem list_deformers_without_shape :
  forall (S : Type) (h : host S) (s s1 : S) (mesh : string) (types : list string)
         (relatives : option (list string)),
    h _ (ListRelatives mesh (Shapes true)) s = Returned (relatives, s1) ->
    or_empty relatives = [] ->
    run h (list_deformers mesh types) s = Returned (([], []), s1)
    /\ trace h (list_deformers mesh types) s = [Issued (ListRelatives mesh (Shapes true))].
Proof.
  intros S h s s1 mesh types relatives Hhost Hnone.
  unfold list_deformers. rewrite run_bind, trace_bind. simpl.
  rewrite Hhost, Hnone. now split.
Qed.

Lemma list_deformers_without_shape_witness :
  run maya (list_deformers "M_jaw_jnt" ["cluster"; "ffd"]) s0 = Returned (([], []), s0)
  /\ trace maya (list_deformers "M_jaw_jnt" ["cluster"; "ffd"]) s0
     = [Issued (ListRelatives "M_jaw_jnt" (Shapes true))].
Proof.
  apply (list_deformers_without_shape scene maya s0 s0 "M_jaw_jnt" ["cluster"; "ffd"] None);
    reflexivity.
Defined.

(** ** [get_meshes] *)

Lemma get_meshes_reads (cfg : config) (deformer_stack_keys : list nat) :
  issues_only (fun e => queries e || reports e = true) (get_meshes cfg deformer_stack_keys).
Proof.
  unfold get_meshes, get_children. issues.
Qed.

(** Commands that read or report leave the in-memory scene as it is. *)
Lemma maya_reads {X} (c : cmd X) (s s' : scene) (x : X) :
  queries (Issued c) || reports (Issued c) = true ->
  maya X c s = Returned (x, s') ->
  s' = s.
Proof.
  intros Hread Hrun.
  destruct c as [name | node which | node | pattern typ | d g | meshes name | meshes name
                 | meshes name | mesh wires name | driver driven name
                 | drivers drivens name | mesh name typ | mesh typ name | name js lock
                 | js mesh bm tsb mi nw rui omi name | node attribute value | src dst
                 | child parent | objects new_name | gone | message];
    simpl in Hread, Hrun; try discriminate.
  - now inversion Hrun.
  - destruct (nodes s !! node); [|discriminate].
    destruct which as [|[|]]; now inversion Hrun.
  - destruct (geometry_of s node); now inversion Hrun.
  - destruct (List.rev (list_ascii_of_string pattern)) as [|a l].
    + destruct (nodes s !! pattern); now inversion Hrun.
    + destruct (Ascii.eqb a "*") eqn:Ha.
      * apply Ascii.eqb_eq in Ha. subst a. now inversion Hrun.
      * assert (Hgen : match nodes s !! pattern with
                       | Some nd =>
                         Returned (Some (if String.eqb (node_type nd) typ
                                         then [pattern] else []), s)
                       | None => Returned (Some [], s)
                       end = Returned (x, s')).
        { revert Hrun. destruct a as [[] [] [] [] [] [] [] []]; try (intros H; exact H).
          discriminate Ha. }
        destruct (nodes s !! pattern); now inversion Hgen.
  - now inversion Hrun.
Qed.

Lemma run_reads {A} (p : script A) :
  issues_only (fun e => queries e || reports e = true) p ->
  forall (s s' : scene) (a : A), run maya p s = Returned (a, s') -> s' = s.
Proof.
  intros Hp. induction Hp as [a0|e|X c k Hc Hk IH]; intros s s' a Hrun; simpl in Hrun.
  - now inversion Hrun.
  - discriminate.
  - destruct (maya X c s) as [[x s1]|e] eqn:Hc1; [|discriminate].
    apply (maya_reads c s s1 x Hc) in Hc1. subst s1. eapply IH; eauto.
Qed.

(** X3: [get_meshes] never changes the scene: on every host the only
    commands it issues are queries and log messages, and on the
    in-memory host a call that returns leaves the scene as it was. *)
Theorem get_meshes_only_reads_and_logs :
  forall (cfg : config) (deformer_stack_keys : list nat),
    (forall (S : Type) (h : host S) (s : S),
       Forall (fun e => queries e || reports e = true)
              (trace h (get_meshes cfg deformer_stack_keys) s))
    /\ (forall (s s' : scene) (meshes : list string),
          run maya (get_meshes cfg deformer_stack_keys) s = Returned (meshes, s') ->
          s' = s).
Proof.
  intros cfg keys. split.
  - intros S h s. apply trace_issues_only, get_meshes_reads.
  - intros s s' meshes. apply run_reads, get_meshes_reads.
Qed.

Lemma get_meshes_only_reads_and_logs_witness : s0 = s0.
Proof.
  apply (proj2 (get_meshes_only_reads_and_logs cfg_missing_target [0; 1]%nat) s0 s0
           ["M_body_compil_mesh"]).
  vm_compute. reflexivity.
Defined.

Lemma get_meshes_objects_bad_index (table : list string) (keys : list nat) :
  (exists i, In i keys /\ (List.length table <= i)%nat) ->
  List.fold_right (fun i acc =>
      outcome_bind (getitem table i) (fun o =>
      outcome_bind acc (fun r => Returned (o :: r))))
    (Returned []) keys = Raised IndexError.
Proof.
  induction keys as [|k keys IH]; intros (i & Hin & Hi); [destruct Hin|].
  simpl. unfold getitem at 1.
  destruct (nth_error table k) as [o|] eqn:Hk; [|reflexivity].
  destruct Hin as [->|Hin].
  - apply nth_error_None in Hi. congruence.
  - simpl. rewrite IH; [reflexivity|]. now exists i.
Qed.

(** X4: [get_meshes] looks up every position in [DEFORMERS_STACK]
    before it does anything else: one position beyond the end of the
    table makes the call raise [IndexError] without a single host
    command, wherever that position stands in the list. *)
Theorem get_meshes_index_out_of_range :
  forall (cfg : config) (deformer_stack_keys : list nat),
    (exists i, In i deformer_stack_keys /\ (List.length (DEFORMERS_STACK cfg) <= i)%nat) ->
    forall (S : Type) (h : host S) (s : S),
      run h (get_meshes cfg deformer_stack_keys) s = Raised IndexError
      /\ trace h (get_meshes cfg deformer_stack_keys) s = [].
Proof.
  intros cfg keys Hbad S h s. unfold get_meshes.
  rewrite get_meshes_objects_bad_index; [now split|].
  destruct Hbad as (i & Hin & Hi). exists i. split; [exact Hin|].
  now rewrite List.length_map.
Qed.

Lemma get_meshes_index_out_of_range_witness :
  run maya (get_meshes cfg_missing_target [1; 2; 0]%nat) s0 = Raised IndexError
  /\ trace maya (get_meshes cfg_missing_target [1; 2; 0]%nat) s0 = [].
Proof.
  apply (get_meshes_index_out_of_range cfg_missing_target [1; 2; 0]%nat).
  exists 2%nat. split; [simpl; tauto | simpl; lia].
Defined.

Lemma run_for_fold_app {S A V} (h : host S) (xs ys : list A) (v : V)
    (body : V -> A -> script V) (s : S) :
  run h (for_fold (xs ++ ys) v body) s =
  match run h (for_fold xs v body) s with
  | Returned (v', s') => run h (for_fold ys v' body) s'
  | Raised e => Raised e
  end.
Proof.
  revert v s. induction xs as [|x xs IH]; intros v s; simpl; [reflexivity|].
  rewrite !run_bind. destruct (run h (body v x) s) as [[v1 s1]|e]; [apply IH | reflexivity].
Qed.

Lemma after_acc_app {S} (acc l : list string) (o : outcome (list string * S)) :
  after_acc acc (after_acc l o) = after_acc (acc ++ l) o.
Proof. destruct o as [[m s]|e]; simpl; [now rewrite app_assoc | reflexivity]. Qed.

(** A loop whose body only appends to its accumulator can be run from
    the empty accumulator. *)
Lemma run_for_fold_shift {S A} (h : host S) (body : list string -> A -> script (list string)) :
  (forall acc x s, run h (body acc x) s = after_acc acc (run h (body [] x) s)) ->
  forall xs acc s,
    run h (for_fold xs acc body) s = after_acc acc (run h (for_fold xs [] body) s).
Proof.
  intros Hbody. induction xs as [|x xs IH]; intros acc s; simpl.
  - now rewrite app_nil_r.
  - rewrite !run_bind, Hbody.
    destruct (run h (body [] x) s) as [[l s1]|e]; simpl; [|reflexivity].
    rewrite (IH (acc ++ l)), (IH l). now rewrite after_acc_app.
Qed.

Lemma get_meshes_objects_in_range (table : list string) (keys : list nat) :
  Forall (fun i => (i < List.length table)%nat) keys ->
  List.fold_right (fun i acc =>
      outcome_bind (getitem table i) (fun o =>
      outcome_bind acc (fun r => Returned (o :: r))))
    (Returned []) keys = Returned (List.map (fun i => List.nth i table "") keys).
Proof.
  induction 1 as [|k keys Hk _ IH]; simpl; [reflexivity|].
  unfold getitem at 1. rewrite (List.nth_error_nth' table "" Hk). simpl.
  now rewrite IH.
Qed.

(** X5: when every position is inside the table, [get_meshes] of two
    lists of positions one after the other is [get_meshes] of the
    first list followed by [get_meshes] of the second, the meshes
    being concatenated; so asking position by position, as
    [rename_scene] and the weight functions do, gives the meshes of
    the whole list. *)
Theorem get_meshes_concatenates :
  forall (cfg : config) (keys1 keys2 : list nat),
    Forall (fun i => (i < List.length (DEFORMERS_STACK cfg))%nat) (keys1 ++ keys2) ->
    forall (S : Type) (h : host S) (s : S),
      run h (get_meshes cfg (keys1 ++ keys2)) s =
      match run h (get_meshes cfg keys1) s with
      | Returned (meshes1, s1) => after_acc meshes1 (run h (get_meshes cfg keys2) s1)
      | Raised e => Raised e
      end.
Proof.
  intros cfg keys1 keys2 Hrange S h s.
  assert (Hrange' : Forall (fun i => (i < List.length (List.map fst (DEFORMERS_STACK cfg)))%nat)
                           (keys1 ++ keys2)).
  { eapply List.Forall_impl; [|exact Hrange]. intros i Hi. now rewrite List.length_map. }
  pose proof (get_meshes_objects_in_range _ _ Hrange') as Hall.
  apply List.Forall_app in Hrange' as [H1 H2].
  pose proof (get_meshes_objects_in_range _ _ H1) as Hobj1.
  pose proof (get_meshes_objects_in_range _ _ H2) as Hobj2.
  unfold get_meshes. rewrite Hall, Hobj1, Hobj2. cbn [lift bind].
  rewrite List.map_app, run_for_fold_app.
  match goal with
  | |- context [for_fold _ [] ?B] => set (body := B)
  end.
  destruct (run h (for_fold _ [] body) s) as [[meshes1 s1]|e]; [|reflexivity].
  apply run_for_fold_shift. clear. intros acc obj s. subst body. cbv beta.
  rewrite !run_bind.
  destruct (run h _ s) as [[side_obj s1]|e]; [|reflexivity].
  apply run_for_fold_shift. clear. intros acc node s.
  rewrite !run_bind.
  destruct (run h (call (ObjExists node)) s) as [[found s1]|e]; [|reflexivity].
  rewrite !run_bind.
  destruct (run h _ s1) as [[[node'|] s2]|e]; [| |reflexivity].
  - rewrite !run_bind.
    destruct (run h (get_children node') s2) as [[childs s3]|e]; [|reflexivity].
    apply run_for_fold_shift. clear. intros acc child s.
    destruct (startswith child "{}").
    + rewrite !run_bind.
      destruct (run h (lift (format child ["L"] [])) s) as [[l s1]|e]; [|reflexivity].
      rewrite !run_bind.
      destruct (run h (lift (format child ["R"] [])) s1) as [[r s2]|e]; [|reflexivity].
      reflexivity.
    + reflexivity.
  - simpl. now rewrite app_nil_r.
Qed.

Lemma get_meshes_concatenates_witness :
  run maya (get_meshes cfg_missing_target ([0]%nat ++ [1]%nat)) s0 =
  match run maya (get_meshes cfg_missing_target [0]%nat) s0 with
  | Returned (meshes1, s1) => after_acc meshes1 (run maya (get_meshes cfg_missing_target [1]%nat) s1)
  | Raised e => Raised e
  end.
Proof.
  apply (get_meshes_concatenates cfg_missing_target [0]%nat [1]%nat).
  repeat constructor.
Defined.

(** ** [copy_deformers] on the in-memory host *)

Lemma only_target_grows_refl (target : string) (s : scene) : only_target_grows target s s.
Proof. repeat split; auto. Qed.

Lemma only_target_grows_trans (target : string) (s1 s2 s3 : scene) :
  only_target_grows target s1 s2 -> only_target_grows target s2 s3 ->
  only_target_grows target s1 s3.
Proof.
  intros (Hn12 & Ho12 & Hm12) (Hn23 & Ho23 & Hm23). split; [congruence|]. split.
  - intros g Hg. now rewrite Ho23, Ho12.
  - auto.
Qed.

Lemma mem_attach_self (d g : string) (s : scene) : mem d (chain (attach d g s) g) = true.
Proof.
  rewrite chain_attach. destruct (decide (g = g)); [|congruence].
  destruct (mem d (chain s g)) eqn:Hmem; [exact Hmem|].
  unfold mem. simpl. now rewrite String.eqb_refl.
Qed.

Lemma only_target_grows_attach (d target : string) (s : scene) :
  only_target_grows target s (attach d target s).
Proof.
  split; [apply nodes_attach|]. split.
  - intros g Hg. rewrite chain_attach. now destruct (decide (g = target)).
  - intros n Hn. rewrite chain_attach. destruct (decide (target = target)); [|congruence].
    destruct (mem d (chain s target)); [exact Hn|].
    unfold mem in *. simpl. now rewrite Hn, orb_true_r.
Qed.

Lemma exists_node_same (s s' : scene) (n : string) :
  nodes s' = nodes s -> exists_node s' n = exists_node s n.
Proof. unfold exists_node. now intros ->. Qed.

(** The names of one entry: the absent ones are noted, the others are
    put on the target. *)
Lemma copy_deformer_fold (s : scene) (target deformer : string) :
  forall (names missing raw_missing : list string) (st st' : scene)
         (missing' raw_missing' : list string),
    nodes st = nodes s ->
    run maya (for_fold names (missing, raw_missing) (copy_deformer target deformer)) st
      = Returned ((missing', raw_missing'), st') ->
    missing' = missing ++ absent s names
    /\ only_target_grows target st st'
    /\ forall n, In n names -> exists_node s n = true -> mem n (chain st' target) = true.
Proof.
  induction names as [|n names IH];
    intros missing raw_missing st st' missing' raw_missing' Hnodes Hrun.
  - simpl in Hrun. inversion Hrun; subst. rewrite app_nil_r.
    split; [reflexivity|]. split; [apply only_target_grows_refl | intros n []].
  - cbn [for_fold] in Hrun. rewrite run_bind in Hrun. simpl in Hrun.
    rewrite (exists_node_same s st n Hnodes) in Hrun.
    unfold absent. simpl. fold (absent s names).
    destruct (exists_node s n) eqn:Hn; simpl in Hrun |- *.
    + rewrite (exists_node_same s st n Hnodes), Hn in Hrun. simpl in Hrun.
      destruct (exists_node st target); simpl in Hrun; [|discriminate].
      apply IH in Hrun as (Hmissing & Hgrow & Hon);
        [|now rewrite nodes_attach].
      split; [exact Hmissing|]. split.
      * eapply only_target_grows_trans; [apply only_target_grows_attach | exact Hgrow].
      * intros n' [<-|Hin] Hex; [|now apply Hon].
        destruct Hgrow as (_ & _ & Hmono). apply Hmono, mem_attach_self.
    + apply IH in Hrun as (Hmissing & Hgrow & Hon); [|exact Hnodes].
      split; [now rewrite Hmissing, <- app_assoc|]. split; [exact Hgrow|].
      intros n' [<-|Hin] Hex; [congruence | now apply Hon].
Qed.

Lemma copy_entries_fold (s : scene) (target : string) :
  forall (entries : list (string * list string)) (acc acc' : list string * list string)
         (st st' : scene),
    Forall (fun kn => expand_deformer target (fst kn) = Returned (snd kn)) entries ->
    nodes st = nodes s ->
    run maya (for_fold (List.map fst entries) acc (copy_entry target)) st
      = Returned (acc', st') ->
    fst acc' = fst acc ++ absent s (List.concat (List.map snd entries))
    /\ only_target_grows target st st'
    /\ forall n, In n (List.concat (List.map snd entries)) -> exists_node s n = true ->
                 mem n (chain st' target) = true.
Proof.
  induction entries as [|[key names] entries IH]; intros acc acc' st st' Hall Hnodes Hrun.
  - simpl in Hrun. inversion Hrun; subst. simpl. rewrite app_nil_r.
    split; [reflexivity|]. split; [apply only_target_grows_refl | intros n []].
  - apply List.Forall_cons_iff in Hall as [Hexp Hall]. simpl in Hexp.
    cbn [List.map fst for_fold] in Hrun. rewrite run_bind in Hrun.
    unfold copy_entry at 1 in Hrun. rewrite run_bind, run_lift, Hexp in Hrun.
    destruct acc as [missing raw_missing].
    destruct (run maya (for_fold names _ _) st) as [[[m1 r1] st1]|e] eqn:Hnames;
      [|discriminate].
    apply (copy_deformer_fold s) in Hnames as (Hm1 & Hgrow1 & Hon1); [|exact Hnodes].
    apply IH in Hrun as (Hm' & Hgrow' & Hon'); [|exact Hall|].
    2:{ destruct Hgrow1 as (Hn1 & _). congruence. }
    simpl in Hm' |- *. split.
    { rewrite Hm', Hm1. unfold absent. now rewrite List.filter_app, app_assoc. }
    split; [eapply only_target_grows_trans; eauto|].
    intros n Hin Hex. apply List.in_app_or in Hin as [Hin|Hin]; [|now apply Hon'].
    destruct Hgrow' as (_ & _ & Hmono). now apply Hmono, Hon1.
Qed.

Lemma copy_deformers_on_maya (s s' : scene) (target source : string)
    (types deformer_stack : list string) (names : list (list string))
    (missing raw_missing : list string) :
  deformer_stack <> [] ->
  Forall2 (fun deformer ns => expand_deformer target deformer = Returned ns)
          deformer_stack names ->
  run maya (copy_deformers target source types deformer_stack) s
    = Returned ((missing, raw_missing), s') ->
  missing = absent s (List.concat (List.rev names))
  /\ only_target_grows target s s'
  /\ forall n, In n (List.concat names) -> exists_node s n = true ->
               mem n (chain s' target) = true.
Proof.
  intros Hne Hnames Hrun.
  destruct (forall2_combine _ _ _ Hnames) as (Hkeys & Hvals & Hall).
  set (entries := List.rev (List.combine deformer_stack names)).
  assert (Hentries_keys : List.map fst entries = List.rev deformer_stack).
  { unfold entries. now rewrite List.map_rev, Hkeys. }
  assert (Hentries_vals : List.map snd entries = List.rev names).
  { unfold entries. now rewrite List.map_rev, Hvals. }
  unfold copy_deformers in Hrun.
  destruct deformer_stack as [|k ks]; [now destruct Hne|]. cbn [bind] in Hrun.
  rewrite <- Hentries_keys in Hrun.
  apply (copy_entries_fold s) in Hrun as (Hmissing & Hgrow & Hon);
    [|unfold entries; now apply List.Forall_rev | reflexivity].
  simpl in Hmissing. rewrite Hentries_vals in Hmissing, Hon.
  split; [exact Hmissing|]. split; [exact Hgrow|].
  intros n Hin. apply Hon.
  apply List.in_concat in Hin as (ns & Hns & Hn). apply List.in_concat.
  exists ns. split; [now apply List.in_rev in Hns | exact Hn].
Qed.

(** X6: on the in-memory host, the list [missing] that
    [copy_deformers] returns for a stack is exactly the names of the
    stack that are not nodes of the scene, the stack being walked from
    its last entry to its first and every entry giving its names in
    order. *)
Theorem copy_deformers_missing_are_the_absent_names :
  forall (s s' : scene) (target source : string) (types deformer_stack : list string)
         (names : list (list string)) (missing raw_missing : list string),
    deformer_stack <> [] ->
    Forall2 (fun deformer ns => expand_deformer target deformer = Returned ns)
            deformer_stack names ->
    run maya (copy_deformers target source types deformer_stack) s
      = Returned ((missing, raw_missing), s') ->
    missing = absent s (List.concat (List.rev names)).
Proof.
  intros s s' target source types deformer_stack names missing raw_missing Hne Hnames Hrun.
  exact (proj1 (copy_deformers_on_maya s s' target source types deformer_stack names
                  missing raw_missing Hne Hnames Hrun)).
Qed.

Lemma copy_deformers_missing_are_the_absent_names_witness :
  ["M_c_cluster"; "M_a_cluster"]
  = absent shared_b (List.concat (List.rev [["M_a_cluster"]; ["M_b_cluster"]; ["M_c_cluster"]])).
Proof.
  apply (copy_deformers_missing_are_the_absent_names shared_b
           (after (copy_deformers "M_body_compil_mesh" "" ["cluster"; "ffd"]
                     ["M_a_cluster"; "M_b_cluster"; "M_c_cluster"]) shared_b)
           "M_body_compil_mesh" "" ["cluster"; "ffd"]
           ["M_a_cluster"; "M_b_cluster"; "M_c_cluster"]
           [["M_a_cluster"]; ["M_b_cluster"]; ["M_c_cluster"]]
           ["M_c_cluster"; "M_a_cluster"] ["M_c_cluster"; "M_a_cluster"]).
  - discriminate.
  - repeat constructor.
  - vm_compute. reflexivity.
Defined.

(** X7: on the in-memory host, [copy_deformers] creates and removes
    nothing and touches no chain but the target's: the nodes are the
    same, every other geometry keeps its chain, the target keeps the
    deformers it had, and every name of the stack that is a node is on
    the target when the call returns. *)
Theorem copy_deformers_attaches_what_exists :
  forall (s s' : scene) (target source : string) (types deformer_stack : list string)
         (names : list (list string)) (missing raw_missing : list string),
    deformer_stack <> [] ->
    Forall2 (fun deformer ns => expand_deformer target deformer = Returned ns)
            deformer_stack names ->
    run maya (copy_deformers target source types deformer_stack) s
      = Returned ((missing, raw_missing), s') ->
    only_target_grows target s s'
    /\ forall n, In n (List.concat names) -> exists_node s n = true ->
                 mem n (chain s' target) = true.
Proof.
  intros s s' target source types deformer_stack names missing raw_missing Hne Hnames Hrun.
  exact (proj2 (copy_deformers_on_maya s s' target source types deformer_stack names
                  missing raw_missing Hne Hnames Hrun)).
Qed.

Lemma copy_deformers_attaches_what_exists_witness :
  let s' := after (copy_deformers "M_body_compil_mesh" "" ["cluster"; "ffd"]
                     ["M_a_cluster"; "M_b_cluster"; "M_c_cluster"]) shared_b in
  only_target_grows "M_body_compil_mesh" shared_b s'
  /\ forall n, In n (List.concat [["M_a_cluster"]; ["M_b_cluster"]; ["M_c_cluster"]]) ->
               exists_node shared_b n = true ->
               mem n (chain s' "M_body_compil_mesh") = true.
Proof.
  apply (copy_deformers_attaches_what_exists shared_b _
           "M_body_compil_mesh" "" ["cluster"; "ffd"]
           ["M_a_cluster"; "M_b_cluster"; "M_c_cluster"]
           [["M_a_cluster"]; ["M_b_cluster"]; ["M_c_cluster"]]
           ["M_c_cluster"; "M_a_cluster"] ["M_c_cluster"; "M_a_cluster"]).
  - discriminate.
  - repeat constructor.
  - vm_compute. reflexivity.
Defined.

(** ** [create_deformer] *)

Lemma create_deformer_resolved (groups : list (string * string)) (name : string)
    (meshes : list string) (deformer_type : option string)
    (association_map : list association) (t : string) :
  resolves_to deformer_type association_map name t ->
  create_deformer groups name meshes deformer_type association_map
  = create_deformer groups name meshes (Some t) [].
Proof.
  intros [Htruthy [->|[Hfalsy Hassoc]]]; unfold create_deformer.
  - cbn [truthy_opt_str]. now rewrite Htruthy.
  - rewrite Hfalsy, Hassoc. cbn [truthy_opt_str]. cbv beta iota zeta.
    rewrite !Htruthy. reflexivity.
Qed.

Lemma mem_cases (x : string) (l : list string) : mem x l = true -> In x l.
Proof.
  unfold mem. intros H. apply List.existsb_exists in H as (y & Hin & Heq).
  apply String.eqb_eq in Heq. now subst.
Qed.

(** X8: a wrap, proximityWrap or shrinkWrap needs two meshes and a wire
    or bend needs one; given fewer, [create_deformer] raises
    [IndexError] and no host command is issued, on any host. *)
Theorem create_deformer_too_few_meshes :
  forall (groups : list (string * string)) (name : string) (meshes : list string)
         (deformer_type : option string) (association_map : list association) (t : string),
    resolves_to deformer_type association_map name t ->
    (List.length meshes < meshes_needed t)%nat ->
    forall (S : Type) (h : host S) (s : S),
      run h (create_deformer groups name meshes deformer_type association_map) s
        = Raised IndexError
      /\ trace h (create_deformer groups name meshes deformer_type association_map) s = [].
Proof.
  intros groups name meshes deformer_type association_map t Hres Hfew S h s.
  rewrite (create_deformer_resolved _ _ _ _ _ _ Hres). clear Hres.
  unfold meshes_needed in Hfew.
  destruct (mem t ["wrap"; "proximityWrap"; "shrinkWrap"]) eqn:Htwo.
  - apply mem_cases in Htwo. simpl in Htwo.
    destruct Htwo as [<-|[<-|[<-|[]]]];
      destruct meshes as [|m0 [|m1 rest]]; simpl in Hfew; try lia; now split.
  - destruct (mem t ["wire"; "bend"]) eqn:Hone; [|lia].
    apply mem_cases in Hone. simpl in Hone.
    destruct Hone as [<-|[<-|[]]];
      destruct meshes as [|m0 rest]; simpl in Hfew; try lia; now split.
Qed.

Lemma create_deformer_too_few_meshes_witness :
  run maya (create_deformer [] "M_brow_wrap" ["M_body_compil_mesh"] None
              [{| suffix := "wrap"; type := "wrap" |}]) s0 = Raised IndexError
  /\ trace maya (create_deformer [] "M_brow_wrap" ["M_body_compil_mesh"] None
              [{| suffix := "wrap"; type := "wrap" |}]) s0 = [].
Proof.
  apply (create_deformer_too_few_meshes [] "M_brow_wrap" ["M_body_compil_mesh"] None
           [{| suffix := "wrap"; type := "wrap" |}] "wrap").
  - split; [reflexivity|]. right. split; reflexivity.
  - vm_compute. lia.
Defined.

Lemma not_in_eqb (t : string) (l : list string) :
  ~ In t l -> Forall (fun k => String.eqb t k = false) l.
Proof.
  intros Hnot. apply List.Forall_forall. intros k Hk.
  destruct (String.eqb t k) eqn:E; [|reflexivity].
  apply String.eqb_eq in E. subst. contradiction.
Qed.

(** X9: for a type that is none of the eight [create_deformer] knows,
    the one command issued is [cmds.deformer(type=..., name=...)]: the
    list of meshes is not handed to the host, which works on whatever
    is selected. *)
Theorem create_deformer_other_type_ignores_meshes :
  forall (groups : list (string * string)) (name : string) (meshes : list string)
         (deformer_type : option string) (association_map : list association) (t : string),
    resolves_to deformer_type association_map name t ->
    ~ In t known_types ->
    forall (S : Type) (h : host S) (s : S),
      run h (create_deformer groups name meshes deformer_type association_map) s
        = match h _ (Deformer None t name) s with
          | Returned (deformer, s') => Returned (Some deformer, s')
          | Raised e => Raised e
          end
      /\ trace h (create_deformer groups name meshes deformer_type association_map) s
         = [Issued (Deformer None t name)].
Proof.
  intros groups name meshes deformer_type association_map t Hres Hother S h s.
  rewrite (create_deformer_resolved _ _ _ _ _ _ Hres).
  destruct Hres as [Htruthy _]. apply not_in_eqb in Hother.
  unfold known_types in Hother.
  repeat match goal with
         | H : Forall _ (_ :: _) |- _ => apply List.Forall_cons_iff in H as [? H]
         end.
  unfold create_deformer. cbn [truthy_opt_str]. cbv beta iota zeta.
  rewrite !Htruthy. cbn [negb].
  repeat match goal with
         | H : String.eqb t _ = false |- _ => rewrite H; clear H
         end.
  simpl. destruct (h _ (Deformer None t name) s) as [[deformer s']|e]; now split.
Qed.

Lemma create_deformer_other_type_ignores_meshes_witness :
  run maya (create_deformer [] "M_jaw_tweak" ["M_body_compil_mesh"] (Some "tweak") []) s0
    = match maya _ (Deformer None "tweak" "M_jaw_tweak") s0 with
      | Returned (deformer, s') => Returned (Some deformer, s')
      | Raised e => Raised e
      end
  /\ trace maya (create_deformer [] "M_jaw_tweak" ["M_body_compil_mesh"] (Some "tweak") []) s0
     = [Issued (Deformer None "tweak" "M_jaw_tweak")].
Proof.
  apply (create_deformer_other_type_ignores_meshes [] "M_jaw_tweak" ["M_body_compil_mesh"]
           (Some "tweak") [] "tweak").
  - split; [reflexivity|]. now left.
  - simpl. intuition discriminate.
Defined.

(** ** [create_shrinkwrap] *)

(** X10: when the host lists no shape under the target,
    [create_shrinkwrap] raises before it creates anything: [TypeError]
    for the answer [None], [IndexError] for an empty list; the one
    command issued is that query. *)
Theorem create_shrinkwrap_target_without_shape :
  forall (mesh target name : string) (kwargs : list (string * pynum))
         (S : Type) (h : host S) (s s1 : S) (relatives : option (list string)),
    h _ (ListRelatives target (Shapes false)) s = Returned (relatives, s1) ->
    or_empty relatives = [] ->
    run h (create_shrinkwrap mesh target name kwargs) s
      = Raised (match relatives with
                | None => TypeError "'NoneType' object is not subscriptable"
                | Some _ => IndexError
                end)
    /\ trace h (create_shrinkwrap mesh target name kwargs) s
       = [Issued (ListRelatives target (Shapes false))].
Proof.
  intros mesh target name kwargs S h s s1 relatives Hhost Hnone.
  unfold create_shrinkwrap. simpl. rewrite Hhost.
  destruct relatives as [[|sh rest]|]; simpl in Hnone; try discriminate; now split.
Qed.

Lemma create_shrinkwrap_target_without_shape_witness :
  run maya (create_shrinkwrap "M_body_compil_mesh" "M_jaw_jnt" "M_body_shrinkWrap" []) s0
    = Raised (TypeError "'NoneType' object is not subscriptable")
  /\ trace maya (create_shrinkwrap "M_body_compil_mesh" "M_jaw_jnt" "M_body_shrinkWrap" []) s0
     = [Issued (ListRelatives "M_jaw_jnt" (Shapes false))].
Proof.
  apply (create_shrinkwrap_target_without_shape "M_body_compil_mesh" "M_jaw_jnt"
           "M_body_shrinkWrap" [] scene maya s0 s0 None); reflexivity.
Defined.

(** ** Names: tokens, templates *)

Lemma split_nonempty (sep : ascii) (s : string) : split sep s <> [].
Proof.
  destruct s as [|c r]; simpl; [discriminate|].
  destruct (Ascii.eqb c sep); [discriminate|].
  destruct (split sep r); discriminate.
Qed.

Lemma join_cons_char (c : ascii) (h : string) (t : list string) :
  join "_" (String c h :: t) = String c (join "_" (h :: t)).
Proof. destruct t; reflexivity. Qed.

Lemma join_split (s : string) : join "_" (split "_" s) = s.
Proof.
  induction s as [|c r IH]; [reflexivity|]. simpl.
  destruct (Ascii.eqb c "_") eqn:Hc.
  - apply Ascii.eqb_eq in Hc. subst c.
    destruct (split "_" r) as [|h t] eqn:Hs; [now apply split_nonempty in Hs|].
    change (join "_" ("" :: h :: t)) with ("" +:+ "_" +:+ join "_" (h :: t)).
    now rewrite IH.
  - destruct (split "_" r) as [|h t] eqn:Hs; [now apply split_nonempty in Hs|].
    now rewrite join_cons_char, IH.
Qed.

Lemma split_app_sep (x y : string) :
  split "_" (x +:+ "_" +:+ y) = split "_" x ++ split "_" y.
Proof.
  induction x as [|c r IH]; [reflexivity|].
  change (String c r +:+ "_" +:+ y) with (String c (r +:+ "_" +:+ y)).
  cbn [split]. rewrite IH.
  destruct (Ascii.eqb c "_"); [reflexivity|].
  destruct (split "_" r) as [|h t] eqn:Hs; [now apply split_nonempty in Hs|].
  reflexivity.
Qed.

Lemma split_single_app (y z : string) :
  split "_" y = [y] -> split "_" z = [z] -> split "_" (y +:+ z) = [y +:+ z].
Proof.
  intros Hy Hz. induction y as [|c r IH]; [exact Hz|].
  change (String c r +:+ z) with (String c (r +:+ z)).
  cbn [split] in Hy |- *.
  destruct (Ascii.eqb c "_"); [discriminate|].
  destruct (split "_" r) as [|h t] eqn:Hs; [now apply split_nonempty in Hs|].
  inversion Hy; subst. now rewrite IH.
Qed.

Lemma endswith_app (a b suf : string) :
  endswith b suf = true -> endswith (a +:+ b) suf = true.
Proof.
  intros H. induction a as [|c r IH]; [exact H|].
  change (String c r +:+ b) with (String c (r +:+ b)).
  cbn [endswith]. rewrite IH. apply orb_true_r.
Qed.

Lemma endswith_refl (s : string) : endswith s s = true.
Proof. destruct s; cbn [endswith]; now rewrite String.eqb_refl. Qed.

Lemma drop_last_char_app (s : string) (c : ascii) :
  drop_last_char (s +:+ String c "") = s.
Proof.
  induction s as [|a r IH]; [reflexivity|].
  change (String a r +:+ String c "") with (String a (r +:+ String c "")).
  cbn [drop_last_char]. rewrite IH.
  destruct r; reflexivity.
Qed.

Lemma removelast_app_single {A} (l : list A) (x : A) : List.removelast (l ++ [x]) = l.
Proof. apply List.removelast_last. Qed.

Lemma insert_before_last_app {A} (x y : A) (l : list A) :
  insert_before_last x (l ++ [y]) = l ++ [x; y].
Proof.
  induction l as [|a l IH]; [reflexivity|].
  simpl. rewrite IH. destruct (l ++ [y]) eqn:E; [|reflexivity].
  now destruct l.
Qed.

Lemma append_assoc (a b c : string) : (a +:+ b) +:+ c = a +:+ b +:+ c.
Proof.
  induction a as [|x a IH]; [reflexivity|].
  change (String x ((a +:+ b) +:+ c) = String x (a +:+ b +:+ c)). now rewrite IH.
Qed.

Lemma join_app (l : list string) (m : list string) :
  l <> [] -> m <> [] -> join "_" (l ++ m) = join "_" l +:+ "_" +:+ join "_" m.
Proof.
  intros Hl Hm. induction l as [|a l IH]; [now destruct Hl|].
  destruct l as [|b l].
  - simpl. destruct m; [now destruct Hm|]. reflexivity.
  - change ((a :: b :: l) ++ m) with (a :: (b :: l) ++ m).
    change (join "_" (a :: b :: l)) with (a +:+ "_" +:+ join "_" (b :: l)).
    assert (E : join "_" (a :: (b :: l) ++ m) = a +:+ "_" +:+ join "_" ((b :: l) ++ m))
      by reflexivity.
    rewrite E, IH by discriminate.
    now rewrite !append_assoc.
Qed.

(** *** [transfer_bcs_node] *)

(** X11: [transfer_bcs_node] names the new node [<bcs_node>_<suffix>];
    called on that name without a suffix it gives [bcs_node] back, for
    every suffix that is a single token ending in [transfer] (the
    default suffix is one). *)
Theorem bcs_node_name_round_trip :
  forall (bcs_node sfx : string),
    truthy_str sfx = true ->
    split "_" sfx = [sfx] ->
    endswith sfx "transfer" = true ->
    bcs_node_name (bcs_node_name bcs_node (Some sfx)) None = bcs_node.
Proof.
  intros bcs_node sfx Htruthy Htoken Hends.
  unfold bcs_node_name at 2. cbn [truthy_opt_str default from_option id]. rewrite Htruthy.
  unfold bcs_node_name. cbn [truthy_opt_str].
  rewrite endswith_app by now apply (endswith_app "_").
  rewrite split_app_sep, Htoken, removelast_app_single.
  apply join_split.
Qed.

Lemma bcs_node_name_round_trip_witness :
  bcs_node_name (bcs_node_name "M_face_bcs" (Some "transfer")) None = "M_face_bcs".
Proof.
  apply (bcs_node_name_round_trip "M_face_bcs" "transfer"); reflexivity.
Defined.

(** *** [duplicate_node] *)

(** X12: with no complement and no replacement, [duplicate_node] gives
    a duplicate whose name ends in [1] that name without its last
    character: one trailing [1] is removed, whatever stands before
    it. *)
Theorem duplicate_name_strips_one_trailing_1 :
  forall (base : string),
    duplicate_name (base +:+ "1") "" [] = Returned base.
Proof.
  intros base. unfold duplicate_name. cbn [truthy_str String.eqb negb].
  rewrite join_split, endswith_app by reflexivity.
  now rewrite drop_last_char_app.
Qed.

(** X13: [duplicate_node] puts the complement before the last
    underscore-separated token of the duplicate's name, and in front
    of a name that is a single token; the trailing [1] of the duplicate
    is removed. *)
Theorem duplicate_name_complement_before_last_token :
  forall (stem last complement_name : string),
    truthy_str complement_name = true ->
    split "_" last = [last] ->
    duplicate_name (stem +:+ "_" +:+ last +:+ "1") complement_name []
      = Returned (stem +:+ "_" +:+ complement_name +:+ "_" +:+ last)
    /\ duplicate_name (last +:+ "1") complement_name []
       = Returned (complement_name +:+ "_" +:+ last).
Proof.
  intros stem last c Htruthy Htoken.
  assert (Hlast1 : split "_" (last +:+ "1") = [last +:+ "1"])
    by now apply split_single_app.
  unfold duplicate_name. rewrite Htruthy. split.
  - rewrite split_app_sep, Hlast1, insert_before_last_app.
    rewrite join_app by (try apply split_nonempty; discriminate).
    rewrite join_split. cbn [join].
    rewrite <- !append_assoc.
    rewrite endswith_app by reflexivity.
    now rewrite drop_last_char_app.
  - rewrite Hlast1. cbn [insert_before_last join].
    rewrite <- !append_assoc.
    rewrite endswith_app by reflexivity.
    now rewrite drop_last_char_app.
Qed.

Lemma duplicate_name_complement_before_last_token_witness :
  duplicate_name ("M_tongue" +:+ "_" +:+ "driver" +:+ "1") "tmp" []
    = Returned ("M_tongue" +:+ "_" +:+ "tmp" +:+ "_" +:+ "driver")
  /\ duplicate_name ("driver" +:+ "1") "tmp" [] = Returned ("tmp" +:+ "_" +:+ "driver").
Proof.
  apply (duplicate_name_complement_before_last_token "M_tongue" "driver" "tmp"); reflexivity.
Defined.

(** *** Name templates *)

Lemma format_from_brace_free (rest : string) (args : list string)
    (kwargs : list (string * string)) (n : nat) :
  brace_free rest = true -> format_from rest Outside args kwargs n = Returned rest.
Proof.
  induction rest as [|c r IH]; intros Hfree; [reflexivity|].
  cbn [brace_free] in Hfree.
  apply andb_true_iff in Hfree as [Hc Hr]. apply andb_true_iff in Hc as [Hopen Hclose].
  apply negb_true_iff in Hopen, Hclose.
  cbn [format_from]. now rewrite Hopen, Hclose, (IH Hr).
Qed.

Lemma format_brace_free (rest : string) (args : list string) (kwargs : list (string * string)) :
  brace_free rest = true -> format rest args kwargs = Returned rest.
Proof. apply format_from_brace_free. Qed.

Lemma format_auto_field (rest v : string) :
  brace_free rest = true -> format ("{}" +:+ rest) [v] [] = Returned (v +:+ rest).
Proof.
  intros Hfree. unfold format.
  change (format_from ("{}" +:+ rest) Outside [v] [] 0)
    with (prepend v (format_from rest Outside [v] [] 1)).
  now rewrite format_from_brace_free.
Qed.

Lemma format_named_field (field rest v : string) :
  field = "name" \/ field = "side" ->
  brace_free rest = true ->
  format ("{" +:+ field +:+ "}" +:+ rest) [] [(field, v)] = Returned (v +:+ rest).
Proof.
  intros Hfield Hfree. unfold format.
  assert (E : format_from ("{" +:+ field +:+ "}" +:+ rest) Outside [] [(field, v)] 0
              = prepend v (format_from rest Outside [] [(field, v)] 0))
    by (destruct Hfield as [->| ->]; reflexivity).
  now rewrite E, format_from_brace_free.
Qed.

Lemma brace_free_no_placeholder (d field : string) :
  brace_free d = true -> startswith d (String "{" field) = false.
Proof.
  unfold startswith. destruct d as [|c r]; [reflexivity|]. cbn [brace_free String.prefix].
  intros Hfree. apply andb_true_iff in Hfree as [Hc _]. apply andb_true_iff in Hc as [Hopen _].
  apply negb_true_iff, Ascii.eqb_neq in Hopen.
  destruct (ascii_dec "{" c) as [<-|_]; [now destruct Hopen | reflexivity].
Qed.

Lemma startswith_app (pre rest : string) : startswith (pre +:+ rest) pre = true.
Proof.
  unfold startswith. induction pre as [|c p IH]; [now destruct rest|].
  change (String c p +:+ rest) with (String c (p +:+ rest)). cbn [String.prefix].
  now destruct (ascii_dec c c).
Qed.

(** X14: for a rest without braces, the stack entry [{}rest] stands
    for [Lrest] and [Rrest], in that order; [{name}rest] for the target
    followed by the rest; [{side}rest] for the first token of the
    target followed by the rest; and the rest alone for itself. *)
Theorem expand_deformer_templates :
  forall (target rest : string),
    brace_free rest = true ->
    expand_deformer target ("{}" +:+ rest) = Returned ["L" +:+ rest; "R" +:+ rest]
    /\ expand_deformer target ("{name}" +:+ rest) = Returned [target +:+ rest]
    /\ expand_deformer target ("{side}" +:+ rest) = Returned [first_token target +:+ rest]
    /\ expand_deformer target rest = Returned [rest].
Proof.
  intros target rest Hfree. unfold expand_deformer. repeat split.
  - rewrite startswith_app. now rewrite !format_auto_field.
  - change (startswith ("{name}" +:+ rest) "{}") with false.
    rewrite startswith_app.
    change ("{name}" +:+ rest) with ("{" +:+ "name" +:+ "}" +:+ rest).
    now rewrite (format_named_field "name" rest target) by auto.
  - change (startswith ("{side}" +:+ rest) "{}") with false.
    change (startswith ("{side}" +:+ rest) "{name}") with false.
    rewrite startswith_app.
    change ("{side}" +:+ rest) with ("{" +:+ "side" +:+ "}" +:+ rest).
    now rewrite (format_named_field "side" rest (first_token target)) by auto.
  - now rewrite !brace_free_no_placeholder.
Qed.

Lemma expand_deformer_templates_witness :
  expand_deformer "L_eye_mesh" ("{}" +:+ "_brow_cluster")
    = Returned ["L" +:+ "_brow_cluster"; "R" +:+ "_brow_cluster"]
  /\ expand_deformer "L_eye_mesh" ("{name}" +:+ "_brow_cluster")
     = Returned ["L_eye_mesh" +:+ "_brow_cluster"]
  /\ expand_deformer "L_eye_mesh" ("{side}" +:+ "_brow_cluster")
     = Returned [first_token "L_eye_mesh" +:+ "_brow_cluster"]
  /\ expand_deformer "L_eye_mesh" "_brow_cluster" = Returned ["_brow_cluster"].
Proof.
  apply (expand_deformer_templates "L_eye_mesh" "_brow_cluster"). reflexivity.
Defined.

(** *** The rivet's input mesh *)

Lemma combine_snoc {A B} (l : list A) (m : list B) (x : A) (y : B) :
  List.length l = List.length m ->
  List.combine (l ++ [x]) (m ++ [y]) = List.combine l m ++ [(x, y)].
Proof.
  revert m. induction l as [|a l IH]; intros [|b m] Hlen; simpl in Hlen; try discriminate.
  - reflexivity.
  - simpl. f_equal. apply IH. now injection Hlen.
Qed.

Lemma last_pattern_index_snoc (pattern : string) (keys : list string) (key : string) :
  last_pattern_index pattern (keys ++ [key])
  = if contains pattern key then Z.of_nat (List.length keys)
    else last_pattern_index pattern keys.
Proof.
  unfold last_pattern_index.
  rewrite List.length_app, List.seq_app. cbn [List.length List.seq Nat.add].
  rewrite combine_snoc by now rewrite List.length_seq.
  now rewrite List.fold_left_app.
Qed.

Lemma last_pattern_index_splits (pattern : string) (keys : list string) :
  exists before after,
    keys = before ++ after
    /\ Z.of_nat (List.length before) = (last_pattern_index pattern keys + 1)%Z
    /\ Forall (fun k => contains pattern k = false) after
    /\ (before = [] \/ exists b k, before = b ++ [k] /\ contains pattern k = true).
Proof.
  induction keys as [|key keys IH] using List.rev_ind.
  - exists [], []. repeat split; [constructor | now left].
  - rewrite last_pattern_index_snoc. destruct (contains pattern key) eqn:Hkey.
    + exists (keys ++ [key]), []. rewrite app_nil_r, List.length_app. simpl.
      repeat split; [lia | constructor | right; now exists keys, key].
    + destruct IH as (before & after & -> & Hlen & Hafter & Hbefore).
      exists before, (after ++ [key]). rewrite app_assoc.
      repeat split; [exact Hlen | | exact Hbefore].
      apply Forall_app. split; [exact Hafter | now constructor].
Qed.

(** X15: when [update_teeth_tongue_follow_jaw] gets the plug of its
    rivet, the plug is the output of the entry of the body stack that
    follows the last entry whose key contains the lattice suffix (the
    first entry when no key contains it); neither that key nor a later
    one contains the suffix. *)
Theorem rivet_plug_follows_last_lattice :
  forall (cfg : config) (plug : string),
    rivet_input_mesh_plug cfg = Returned plug ->
    exists (deformers : stack) (a : association) (before : list string) (key : string)
           (after : list string),
      dict_get (DEFORMERS_STACK cfg) "M_body_compil_mesh" = Returned deformers
      /\ List.find (fun a => String.eqb (type a) "ffd") (DEFORMER_SUFFIX_ASSOCIATIONS cfg)
         = Some a
      /\ List.map fst deformers = before ++ key :: after
      /\ plug = key +:+ ".outputGeometry[0]"
      /\ Forall (fun k => contains (suffix a) k = false) (key :: after)
      /\ (before = [] \/ exists b k, before = b ++ [k] /\ contains (suffix a) k = true).
Proof.
  intros cfg plug Hplug. unfold rivet_input_mesh_plug in Hplug.
  destruct (dict_get (DEFORMERS_STACK cfg) "M_body_compil_mesh") as [deformers|e];
    [|discriminate].
  cbn [outcome_bind] in Hplug.
  destruct (List.map fst deformers) as [|k0 ks] eqn:Hkeys; [discriminate|].
  destruct (List.find _ (DEFORMER_SUFFIX_ASSOCIATIONS cfg)) as [a|]; [|discriminate].
  cbn [option_map outcome_bind] in Hplug.
  destruct (last_pattern_index_splits (suffix a) (k0 :: ks))
    as (before & after & Hsplit & Hlen & Hafter & Hbefore).
  replace (Z.to_nat (last_pattern_index (suffix a) (k0 :: ks) + 1))
    with (List.length before) in Hplug by lia.
  unfold getitem in Hplug. rewrite Hsplit in Hplug.
  rewrite List.nth_error_app2, Nat.sub_diag in Hplug by lia.
  destruct after as [|key after]; [discriminate|].
  cbn [nth_error outcome_bind] in Hplug. inversion Hplug; subst plug.
  exists deformers, a, before, key, after.
  repeat split; [congruence | exact Hafter | exact Hbefore].
Qed.

Lemma rivet_plug_follows_last_lattice_witness :
  exists (deformers : stack) (a : association) (before : list string) (key : string)
         (after : list string),
    dict_get (DEFORMERS_STACK cfg_rivet) "M_body_compil_mesh" = Returned deformers
    /\ List.find (fun a => String.eqb (type a) "ffd") (DEFORMER_SUFFIX_ASSOCIATIONS cfg_rivet)
       = Some a
    /\ List.map fst deformers = before ++ key :: after
    /\ "M_body_skinCluster.outputGeometry[0]" = key +:+ ".outputGeometry[0]"
    /\ Forall (fun k => contains (suffix a) k = false) (key :: after)
    /\ (before = [] \/ exists b k, before = b ++ [k] /\ contains (suffix a) k = true).
Proof.
  apply (rivet_plug_follows_last_lattice cfg_rivet "M_body_skinCluster.outputGeometry[0]").
  reflexivity.
Defined.

(** X16: when the last key of the body stack contains the lattice
    suffix, there is no entry after it and the lookup of the rivet's
    plug raises [IndexError]. *)
Theorem rivet_plug_lattice_last_raises :
  forall (cfg : config) (deformers : stack) (a : association) (before : list string)
         (key : string),
    dict_get (DEFORMERS_STACK cfg) "M_body_compil_mesh" = Returned deformers ->
    List.find (fun a => String.eqb (type a) "ffd") (DEFORMER_SUFFIX_ASSOCIATIONS cfg)
      = Some a ->
    List.map fst deformers = before ++ [key] ->
    contains (suffix a) key = true ->
    rivet_input_mesh_plug cfg = Raised IndexError.
Proof.
  intros cfg deformers a before key Hstack Hassoc Hkeys Hkey.
  unfold rivet_input_mesh_plug. rewrite Hstack, Hassoc. cbn [outcome_bind option_map].
  rewrite Hkeys.
  assert (Hlast : last_pattern_index (suffix a) (before ++ [key])
                  = Z.of_nat (List.length before))
    by now rewrite last_pattern_index_snoc, Hkey.
  destruct (before ++ [key]) as [|k0 ks] eqn:E; [now destruct before|].
  cbn [outcome_bind]. rewrite Hlast.
  replace (Z.to_nat (Z.of_nat (List.length before) + 1)) with (List.length (k0 :: ks))
    by (rewrite <- E, List.length_app; simpl; lia).
  unfold getitem.
  now rewrite (proj2 (List.nth_error_None (k0 :: ks) (List.length (k0 :: ks)))) by lia.
Qed.

Lemma rivet_plug_lattice_last_raises_witness :
  rivet_input_mesh_plug cfg_rivet_last = Raised IndexError.
Proof.
  apply (rivet_plug_lattice_last_raises cfg_rivet_last
           [("M_body_skinCluster", None); ("M_face_ffd", None)]
           {| suffix := "ffd"; type := "ffd" |} ["M_body_skinCluster"] "M_face_ffd");
    reflexivity.
Defined.

(** ** A missing deformer in [create_all_deformers] *)

(** X17: a missing deformer whose suffix has no association, under a
    key of the stack whose value is [None] or a dict that has a
    [source].  When no type is left over from an earlier deformer the
    step raises [UnboundLocalError]; when a type other than
    [skinCluster] is left over the step returns with the scene
    untouched: on every host no command is issued, the deformer is not
    made, and the left-over type stays. *)
Theorem create_missing_unknown_suffix :
  forall (cfg : config) (deformers : stack) (mesh : string) (deformer_type : local)
         (key deformer : string) (d : option parameters),
    find_association (DEFORMER_SUFFIX_ASSOCIATIONS cfg) (last_token deformer) = None ->
    deformer_type <> Some "skinCluster" ->
    dict_get deformers key = Returned d ->
    (forall p, d = Some p -> source p <> None) ->
    forall (S : Type) (h : host S) (s : S),
      run h (create_missing cfg deformers mesh deformer_type (key, deformer)) s
        = match deformer_type with
          | None => Raised (UnboundLocalError "deformer_type")
          | Some _ => Returned (deformer_type, s)
          end
      /\ trace h (create_missing cfg deformers mesh deformer_type (key, deformer)) s = [].
Proof.
  intros cfg deformers mesh deformer_type key deformer d Hnone Hskin Hkey Hsource S h s.
  unfold create_missing. rewrite Hnone.
  destruct deformer_type as [t|]; [|now split].
  destruct (truthy_str t); [|now split].
  assert (Ht : String.eqb t "skinCluster" = false)
    by (apply String.eqb_neq; congruence).
  rewrite Ht, Hkey. unfold create_deformer. rewrite Hnone.
  destruct d as [p|]; cbn; [|now split].
  destruct (source p) as [src|] eqn:Hsrc; [now split | now destruct (Hsource p eq_refl)].
Qed.

Lemma create_missing_unknown_suffix_witness :
  run maya (create_missing cfg0 [("M_jaw_unknown", None)] "M_body_compil_mesh"
              (Some "cluster") ("M_jaw_unknown", "M_jaw_unknown")) s0
    = Returned (Some "cluster", s0)
  /\ trace maya (create_missing cfg0 [("M_jaw_unknown", None)] "M_body_compil_mesh"
                   (Some "cluster") ("M_jaw_unknown", "M_jaw_unknown")) s0 = [].
Proof.
  apply (create_missing_unknown_suffix cfg0 [("M_jaw_unknown", None)] "M_body_compil_mesh"
           (Some "cluster") "M_jaw_unknown" "M_jaw_unknown" None).
  - reflexivity.
  - discriminate.
  - reflexivity.
  - discriminate.
Defined.

(** X18: a missing deformer whose parameters cannot be read ends the
    step before any host command, on every host: a skinCluster whose
    value is [None] raises [TypeError], one whose dict lacks [joints],
    [use_hierarchy] or [envelope] raises [KeyError] for the first of
    them; another type whose value is a dict without [source] raises
    [KeyError]. *)
Theorem create_missing_bad_parameters :
  forall (cfg : config) (deformers : stack) (mesh : string) (deformer_type : local)
         (key deformer t : string) (d : option parameters) (e : exn),
    find_association (DEFORMER_SUFFIX_ASSOCIATIONS cfg) (last_token deformer) = Some t ->
    truthy_str t = true ->
    dict_get deformers key = Returned d ->
    parameters_error t d = Some e ->
    forall (S : Type) (h : host S) (s : S),
      run h (create_missing cfg deformers mesh deformer_type (key, deformer)) s = Raised e
      /\ trace h (create_missing cfg deformers mesh deformer_type (key, deformer)) s = [].
Proof.
  intros cfg deformers mesh deformer_type key deformer t d e Hassoc Htruthy Hkey Herr S h s.
  unfold create_missing. rewrite Hassoc, Htruthy, Hkey.
  unfold parameters_error in Herr.
  destruct (String.eqb t "skinCluster").
  - destruct d as [p|]; cbn in Herr |- *; [|inversion Herr; now split].
    unfold first_missing_skin_key in Herr.
    destruct (joints p); cbn in Herr |- *; [|inversion Herr; now split].
    destruct (use_hierarchy p); cbn in Herr |- *; [|inversion Herr; now split].
    destruct (envelope p); cbn in Herr |- *; [discriminate | inversion Herr; now split].
  - destruct d as [p|]; [|discriminate]. cbn.
    destruct (source p); [discriminate | inversion Herr; now split].
Qed.

Lemma create_missing_bad_parameters_witness :
  run maya (create_missing cfg0 [("M_body_skinCluster", None)] "M_body_compil_mesh" None
              ("M_body_skinCluster", "M_body_skinCluster")) s0
    = Raised (TypeError "'NoneType' object is not subscriptable")
  /\ trace maya (create_missing cfg0 [("M_body_skinCluster", None)] "M_body_compil_mesh" None
                   ("M_body_skinCluster", "M_body_skinCluster")) s0 = [].
Proof.
  apply (create_missing_bad_parameters cfg0 [("M_body_skinCluster", None)]
           "M_body_compil_mesh" None "M_body_skinCluster" "M_body_skinCluster"
           "skinCluster" None); reflexivity.
Defined.

(** ** The skinCluster step of [rename_scene] *)

(** X19: when the stack names a skinCluster and [list_deformers]
    finds exactly one on the mesh, the step issues, after the queries
    of [list_deformers], the one command [rename] of what was found to
    the expected name, and ends as that command ends.  This holds also
    when the skinCluster found already has the expected name: the test
    that should skip it compares a list with a string. *)
Theorem rename_skincluster_single_is_renamed :
  forall (deformers : stack) (mesh expected new_name : string)
         (S : Type) (h : host S) (s s1 : S) (found : string) (found_types : list string),
    List.find (fun deformer => endswith deformer "_skinCluster") (List.map fst deformers)
      = Some expected ->
    run h (list_deformers mesh ["skinCluster"]) s = Returned (([found], found_types), s1) ->
    skincluster_name_on mesh expected = Returned new_name ->
    run h (rename_skincluster deformers mesh) s
      = match h _ (Rename [found] new_name) s1 with
        | Returned (_, s2) => Returned (tt, s2)
        | Raised e => Raised e
        end
    /\ trace h (rename_skincluster deformers mesh) s
       = trace h (list_deformers mesh ["skinCluster"]) s ++ [Issued (Rename [found] new_name)].
Proof.
  intros deformers mesh expected new_name S h s s1 found found_types Hkey Hfound Hname.
  assert (Htruthy : truthy_str expected = true).
  { apply List.find_some in Hkey as [_ Hends].
    now apply (endswith_truthy _ _ Hends). }
  unfold rename_skincluster. rewrite run_bind, trace_bind, Hfound, Hkey, Htruthy, Hname.
  cbn. destruct (h string (Rename [found] new_name) s1) as [[renamed s2]|e]; now split.
Qed.

Lemma rename_skincluster_single_is_renamed_witness :
  run maya (rename_skincluster [("{name}_skinCluster", skin0)] "M_head_mesh") skinned_head
    = match maya _ (Rename ["M_body_skinCluster"] "M_head_mesh_skinCluster") skinned_head with
      | Returned (_, s2) => Returned (tt, s2)
      | Raised e => Raised e
      end
  /\ trace maya (rename_skincluster [("{name}_skinCluster", skin0)] "M_head_mesh") skinned_head
     = trace maya (list_deformers "M_head_mesh" ["skinCluster"]) skinned_head
       ++ [Issued (Rename ["M_body_skinCluster"] "M_head_mesh_skinCluster")].
Proof.
  apply (rename_skincluster_single_is_renamed [("{name}_skinCluster", skin0)] "M_head_mesh"
           "{name}_skinCluster" "M_head_mesh_skinCluster" scene maya skinned_head skinned_head
           "M_body_skinCluster" ["skinCluster"]).
  - reflexivity.
  - vm_compute. reflexivity.
  - reflexivity.
Defined.

(** X20: when [list_deformers] finds no skinCluster on the mesh, or
    no key of the stack ends in [_skinCluster], the step returns having
    issued only the queries of [list_deformers]. *)
Theorem rename_skincluster_nothing_to_rename :
  forall (deformers : stack) (mesh : string)
         (S : Type) (h : host S) (s s1 : S) (found found_types : list string),
    run h (list_deformers mesh ["skinCluster"]) s = Returned ((found, found_types), s1) ->
    found = []
    \/ List.find (fun deformer => endswith deformer "_skinCluster") (List.map fst deformers)
       = None ->
    run h (rename_skincluster deformers mesh) s = Returned (tt, s1)
    /\ trace h (rename_skincluster deformers mesh) s
       = trace h (list_deformers mesh ["skinCluster"]) s.
Proof.
  intros deformers mesh S h s s1 found found_types Hfound Hnothing.
  unfold rename_skincluster. rewrite run_bind, trace_bind, Hfound.
  destruct Hnothing as [-> | ->]; [|destruct found]; cbn; now rewrite app_nil_r.
Qed.

Lemma rename_skincluster_nothing_to_rename_witness :
  run maya (rename_skincluster [("M_jaw_cluster", None)] "M_head_mesh") skinned_head
    = Returned (tt, skinned_head)
  /\ trace maya (rename_skincluster [("M_jaw_cluster", None)] "M_head_mesh") skinned_head
     = trace maya (list_deformers "M_head_mesh" ["skinCluster"]) skinned_head.
Proof.
  apply (rename_skincluster_nothing_to_rename [("M_jaw_cluster", None)] "M_head_mesh"
           scene maya skinned_head skinned_head ["M_body_skinCluster"] ["skinCluster"]).
  - vm_compute. reflexivity.
  - right. reflexivity.
Defined.

Lemma rename_skincluster_issues (deformers : stack) (mesh : string) :
  issues_only (fun e => queries e = true \/ renames e = true)
    (rename_skincluster deformers mesh).
Proof.
  unfold rename_skincluster. apply issues_only_bind.
  - eapply issues_only_weaken; [|apply list_deformers_queries]. now left.
  - intros [skincluster def_typ].
    destruct skincluster; [constructor|].
    destruct (List.find _ _) as [skincluster_name|]; [|constructor].
    destruct (negb (truthy_str skincluster_name)); [constructor|].
    apply issues_only_bind; [apply issues_only_lift|]. intros new_name.
    apply issues_only_bind; [destruct (_ <? _)%nat; constructor|]. intros _.
    apply issues_only_bind; [apply issues_only_call; now right | intros; constructor].
Qed.

(** X21: on every host the skinCluster block of [rename_scene] issues
    nothing but queries, log messages and renames: it creates, deletes,
    attaches and connects nothing. *)
Theorem rename_skinclusters_only_reads_logs_and_renames :
  forall (cfg : config) (deformers_data : stacks) (S : Type) (h : host S) (s : S),
    Forall (fun e => queries e || reports e || renames e = true)
           (trace h (rename_skinclusters cfg deformers_data) s).
Proof.
  intros cfg deformers_data S h s. apply trace_issues_only.
  unfold rename_skinclusters. apply issues_only_for_each. intros item.
  apply issues_only_bind.
  - eapply issues_only_weaken; [|apply get_meshes_reads].
    intros e He. cbv beta in He |- *. now rewrite He.
  - intros meshes. apply issues_only_for_each. intros mesh.
    apply issues_only_bind; [apply issues_only_lift|]. intros deformers.
    eapply issues_only_weaken; [|apply rename_skincluster_issues].
    intros e [He|He]; cbv beta; rewrite He; [reflexivity | apply orb_true_r].
Qed.

(** ** Copying from a source mesh *)

Lemma expand_deformer_plain (target deformer : string) :
  brace_free deformer = true -> expand_deformer target deformer = Returned [deformer].
Proof.
  intros Hfree. unfold expand_deformer. now rewrite !brace_free_no_placeholder.
Qed.

Lemma mem_false_cons (x y : string) (l : list string) :
  mem x (y :: l) = false -> x <> y /\ mem x l = false.
Proof.
  unfold mem. simpl. intros H. apply orb_false_iff in H as [Hxy Hl].
  split; [now apply String.eqb_neq | exact Hl].
Qed.

(** Walking names that are nodes and not yet on the target puts them
    on it one after the other and notes none missing. *)
Lemma copy_entries_all_exist (target : string) (s : scene) :
  exists_node s target = true ->
  forall (names : list string) (st : scene),
    nodes st = nodes s ->
    Forall (fun d => brace_free d = true /\ exists_node s d = true
                     /\ mem d (chain st target) = false) names ->
    List.NoDup names ->
    exists st',
      run maya (for_fold names ([], []) (copy_entry target)) st = Returned (([], []), st')
      /\ chain st' target = List.rev names ++ chain st target
      /\ only_target_grows target st st'.
Proof.
  intros Htarget. induction names as [|d names IH]; intros st Hnodes Hall Hnodup.
  - exists st. split; [reflexivity|]. split; [reflexivity | apply only_target_grows_refl].
  - apply List.Forall_cons_iff in Hall as [(Hfree & Hd & Hmem) Hall].
    apply List.NoDup_cons_iff in Hnodup as [Hfresh Hnodup].
    assert (Hchain : chain (attach d target st) target = d :: chain st target).
    { rewrite chain_attach, Hmem. now destruct (decide (target = target)). }
    destruct (IH (attach d target st)) as (st' & Hrun & Hchain' & Hgrow).
    { now rewrite nodes_attach. }
    { rewrite List.Forall_forall in Hall |- *. intros x Hx.
      destruct (Hall x Hx) as (Hxfree & Hxd & Hxmem).
      split; [exact Hxfree|]. split; [exact Hxd|].
      rewrite Hchain, mem_cons_ne; [exact Hxmem|]. intros ->. contradiction. }
    { exact Hnodup. }
    exists st'. split; [|split].
    + cbn [for_fold]. rewrite run_bind. unfold copy_entry at 1.
      rewrite run_bind, run_lift, (expand_deformer_plain target d Hfree).
      rewrite run_for_fold_one. unfold copy_deformer. simpl.
      rewrite (exists_node_same s st d Hnodes), Hd. simpl.
      rewrite (exists_node_same s st d Hnodes), Hd. simpl.
      rewrite (exists_node_same s st target Hnodes), Htarget. simpl.
      exact Hrun.
    + rewrite Hchain', Hchain. simpl. now rewrite <- app_assoc.
    + eapply only_target_grows_trans; [apply only_target_grows_attach | exact Hgrow].
Qed.

(** X22: on the in-memory host, [copy_deformers] called with a source
    and no stack puts the deformers [list_deformers] finds on the
    source on the target, in the order they have on the source and
    above what the target had, reports none missing and changes no
    other chain; provided the target exists and the deformers found
    are distinct nodes with plain names that the target does not carry
    yet. *)
Theorem copy_deformers_from_source_keeps_order :
  forall (s s1 : scene) (target source : string) (types found found_types : list string),
    run maya (list_deformers source types) s = Returned ((found, found_types), s1) ->
    exists_node s target = true ->
    Forall (fun d => brace_free d = true /\ exists_node s d = true
                     /\ mem d (chain s target) = false) found ->
    List.NoDup found ->
    exists s',
      run maya (copy_deformers target source types []) s = Returned (([], []), s')
      /\ chain s' target = found ++ chain s target
      /\ only_target_grows target s s'.
Proof.
  intros s s1 target source types found found_types Hfound Htarget Hall Hnodup.
  assert (Hsame : s1 = s).
  { eapply run_reads; [|exact Hfound].
    eapply issues_only_weaken; [|apply list_deformers_queries].
    intros e He. cbv beta in He |- *. now rewrite He. }
  subst s1.
  destruct (copy_entries_all_exist target s Htarget (List.rev found) s eq_refl)
    as (s' & Hrun & Hchain & Hgrow).
  { now apply List.Forall_rev. }
  { now apply List.NoDup_rev. }
  exists s'. split; [|split; [|exact Hgrow]].
  - unfold copy_deformers. rewrite run_bind, run_bind, Hfound. exact Hrun.
  - now rewrite Hchain, List.rev_involutive.
Qed.

Lemma copy_deformers_from_source_keeps_order_witness :
  exists s',
    run maya (copy_deformers "M_head_mesh" "M_body_compil_mesh" ["cluster"; "ffd"] [])
        deformed_body = Returned (([], []), s')
    /\ chain s' "M_head_mesh" = ["M_face_ffd"; "M_jaw_cluster"] ++ chain deformed_body "M_head_mesh"
    /\ only_target_grows "M_head_mesh" deformed_body s'.
Proof.
  apply (copy_deformers_from_source_keeps_order deformed_body deformed_body "M_head_mesh"
           "M_body_compil_mesh" ["cluster"; "ffd"] ["M_face_ffd"; "M_jaw_cluster"]
           ["ffd"; "cluster"]).
  - vm_compute. reflexivity.
  - vm_compute. reflexivity.
  - repeat constructor; vm_compute; reflexivity.
  - repeat constructor; simpl; intuition discriminate.
Defined.

(** ** [bind_skincluster] *)

(** X23: on the in-memory host, when [bind_skincluster] returns the
    skinCluster exists, its envelope is the one asked for and every
    joint asked for is among its influences; when it did not exist
    before, it is on the mesh and its influences are exactly the
    joints. *)
Theorem bind_skincluster_on_maya :
  forall (name mesh : string) (joints : list string) (use_hierarchy : bool) (method : Z)
         (envelope : pynum) (s s' : scene),
    run maya (bind_skincluster name mesh joints use_hierarchy method envelope) s
      = Returned (tt, s') ->
    exists_node s' name = true
    /\ attributes s' !! (name, "envelope") = Some envelope
    /\ (forall j, In j joints -> In j (default [] (influences s' !! name)))
    /\ (exists_node s name = false ->
        mem name (chain s' mesh) = true /\ influences s' !! name = Some joints).
Proof.
  intros name mesh joints use_hierarchy method envelope s s' Hrun.
  unfold bind_skincluster in Hrun. simpl in Hrun.
  destruct (exists_node s name) eqn:Hname; simpl in Hrun.
  - rewrite Hname in Hrun. simpl in Hrun.
    destruct (List.find _ joints); [discriminate|]. simpl in Hrun.
    change (exists_node (set_influences
              <[name:=default [] (influences s !! name) ++ joints]> s) name)
      with (exists_node s name) in Hrun.
    rewrite Hname in Hrun. simpl in Hrun.
    inversion Hrun; subst s'.
    split; [exact Hname|]. simpl. rewrite !lookup_insert_eq.
    split; [reflexivity|]. split; [|discriminate].
    intros j Hj. simpl. apply List.in_or_app. now right.
  - destruct (List.find _ joints); [discriminate|].
    unfold new_deformer in Hrun. rewrite Hname in Hrun. simpl in Hrun.
    destruct (negb (exists_node s mesh)); [discriminate|]. simpl in Hrun.
    assert (E : exists_node (set_influences <[name:=joints]>
                               (attach name mesh (add_node name "skinCluster" s))) name
                = true).
    { change (exists_node (attach name mesh (add_node name "skinCluster" s)) name = true).
      now rewrite exists_node_attach, exists_node_add_node_eq. }
    rewrite E in Hrun. simpl in Hrun.
    inversion Hrun; subst s'.
    split; [exact E|]. simpl. rewrite !lookup_insert_eq.
    split; [reflexivity|]. split; [intros j Hj; exact Hj|]. intros _.
    split; [apply mem_attach_self | reflexivity].
Qed.

Lemma bind_skincluster_on_maya_witness :
  let s' := after (bind_skincluster "M_body_skinCluster" "M_body_compil_mesh" ["M_jaw_jnt"]
                     false 1 (PInt 1)) s0 in
  exists_node s' "M_body_skinCluster" = true
  /\ attributes s' !! ("M_body_skinCluster", "envelope") = Some (PInt 1)
  /\ (forall j, In j ["M_jaw_jnt"] -> In j (default [] (influences s' !! "M_body_skinCluster")))
  /\ (exists_node s0 "M_body_skinCluster" = false ->
      mem "M_body_skinCluster" (chain s' "M_body_compil_mesh") = true
      /\ influences s' !! "M_body_skinCluster" = Some ["M_jaw_jnt"]).
Proof.
  apply (bind_skincluster_on_maya "M_body_skinCluster" "M_body_compil_mesh" ["M_jaw_jnt"]
           false 1 (PInt 1) s0).
  vm_compute. reflexivity.
Defined.

(** ** [create_shrinkwrap] and its keywords *)

Lemma for_each_ext_in {A} (xs : list A) (f g : A -> script unit) :
  (forall x, In x xs -> f x = g x) -> for_each xs f = for_each xs g.
Proof.
  induction xs as [|x xs IH]; intros Hext; simpl; [reflexivity|].
  rewrite (Hext x) by now left. f_equal.
  rewrite IH; [reflexivity|]. intros y Hy. apply Hext. now right.
Qed.

Lemma run_trace_bind_ext {S A B} (h : host S) (p : script A) (f g : A -> script B) (s : S) :
  (forall a s', run h (f a) s' = run h (g a) s' /\ trace h (f a) s' = trace h (g a) s') ->
  run h (bind p f) s = run h (bind p g) s
  /\ trace h (bind p f) s = trace h (bind p g) s.
Proof.
  intros Hext. rewrite !run_bind, !trace_bind.
  destruct (run h p s) as [[a s']|e]; [|now split].
  destruct (Hext a s') as [Hrun Htrace]. now rewrite Hrun, Htrace.
Qed.

Lemma lookup_str_unknown {V} (k : string) (kv : list (string * V)) (known : list string) :
  Forall (fun item => mem (fst item) known = false) kv ->
  In k known -> lookup_str k kv = None.
Proof.
  intros Hall Hk. induction Hall as [|[k' v] kv Hk' Hall IH]; [reflexivity|].
  simpl in Hk' |- *. destruct (String.eqb k' k) eqn:E; [|exact IH].
  apply String.eqb_eq in E. subst k'. now rewrite (mem_in k known Hk) in Hk'.
Qed.

(** X24: a keyword of [create_shrinkwrap] that names none of its
    sixteen parameters is ignored: on every host the run and the
    commands issued are those of the call without keywords. *)
Theorem create_shrinkwrap_ignores_unknown_keywords :
  forall (mesh target name : string) (kwargs : list (string * pynum)),
    Forall (fun item => mem (fst item) (List.map fst shrinkwrap_parameters) = false) kwargs ->
    forall (S : Type) (h : host S) (s : S),
      run h (create_shrinkwrap mesh target name kwargs) s
        = run h (create_shrinkwrap mesh target name []) s
      /\ trace h (create_shrinkwrap mesh target name kwargs) s
         = trace h (create_shrinkwrap mesh target name []) s.
Proof.
  intros mesh target name kwargs Hunknown S h s.
  unfold create_shrinkwrap.
  apply run_trace_bind_ext. intros relatives s1.
  apply run_trace_bind_ext. intros target_shape s2.
  apply run_trace_bind_ext. intros created s3.
  apply run_trace_bind_ext. intros shrink_wrap s4.
  rewrite (for_each_ext_in shrinkwrap_parameters
             (fun '(parameter, default_value) =>
                call (SetAttr shrink_wrap parameter
                        (default default_value (lookup_str parameter kwargs))))
             (fun '(parameter, default_value) =>
                call (SetAttr shrink_wrap parameter
                        (default default_value (lookup_str parameter []))))); [now split|].
  intros [parameter default_value] Hin.
  rewrite (lookup_str_unknown parameter kwargs _ Hunknown); [reflexivity|].
  now apply (List.in_map fst) in Hin.
Qed.

Lemma create_shrinkwrap_ignores_unknown_keywords_witness :
  run maya (create_shrinkwrap "M_body_compil_mesh" "M_head_mesh" "M_body_shrinkWrap"
              [("projektion", PInt 4)]) two_meshes
    = run maya (create_shrinkwrap "M_body_compil_mesh" "M_head_mesh" "M_body_shrinkWrap" [])
        two_meshes
  /\ trace maya (create_shrinkwrap "M_body_compil_mesh" "M_head_mesh" "M_body_shrinkWrap"
                   [("projektion", PInt 4)]) two_meshes
     = trace maya (create_shrinkwrap "M_body_compil_mesh" "M_head_mesh" "M_body_shrinkWrap" [])
         two_meshes.
Proof.
  apply (create_shrinkwrap_ignores_unknown_keywords "M_body_compil_mesh" "M_head_mesh"
           "M_body_shrinkWrap" [("projektion", PInt 4)]).
  repeat constructor.
Defined.

(** ** Connection templates *)

Lemma append_nil_r (s : string) : s +:+ "" = s.
Proof.
  induction s as [|c r IH]; [reflexivity|].
  change (String c (r +:+ "") = String c r). now rewrite IH.
Qed.

Lemma format_auto_field_last (d v : string) :
  brace_free d = true -> format (d +:+ "{}") [v] [] = Returned (d +:+ v).
Proof.
  intros Hfree. unfold format. induction d as [|c r IH].
  - change (Returned (v +:+ "") = Returned v). now rewrite append_nil_r.
  - cbn [brace_free] in Hfree.
    apply andb_true_iff in Hfree as [Hc Hr]. apply andb_true_iff in Hc as [Hopen Hclose].
    apply negb_true_iff in Hopen, Hclose.
    change (String c r +:+ "{}") with (String c (r +:+ "{}")).
    cbn [format_from]. now rewrite Hopen, Hclose, (IH Hr).
Qed.

(** X25: [get_template_data] writes the left and the right node of a
    pair as the same template, the name with [{}] for its first letter;
    formatting the template with a side gives the node of that side
    back. *)
Theorem template_node_round_trip :
  forall (rest : string),
    brace_free rest = true ->
    template_node ("L" +:+ rest) = "{}" +:+ rest
    /\ template_node ("R" +:+ rest) = "{}" +:+ rest
    /\ forall side, format ("{}" +:+ rest) [side] [] = Returned (side +:+ rest).
Proof.
  intros rest Hfree. unfold template_node. cbn [List.fold_left].
  rewrite (startswith_app "L" rest).
  change (startswith ("R" +:+ rest) "L") with false. cbv beta iota.
  change (startswith ("{}" +:+ tail_str ("L" +:+ rest)) "R") with false. cbv beta iota.
  rewrite (startswith_app "R" rest).
  repeat split. intros side. now apply format_auto_field.
Qed.

Lemma template_node_round_trip_witness :
  template_node ("L" +:+ "_eye_jnt") = "{}" +:+ "_eye_jnt"
  /\ template_node ("R" +:+ "_eye_jnt") = "{}" +:+ "_eye_jnt"
  /\ forall side, format ("{}" +:+ "_eye_jnt") [side] [] = Returned (side +:+ "_eye_jnt").
Proof.
  apply (template_node_round_trip "_eye_jnt"). reflexivity.
Defined.

(** X26: a connection written by [get_template_data] is read back by
    [connect_template_scenes].  For a plug and a node on side [L] or
    [R] and a driven attribute ending in that side, the template holds
    [{}] for the side of the plug and of the attribute; for the node of
    that side [connect_template_scenes] connects exactly the original
    plug to the original attribute of the node. *)
Theorem template_connection_round_trip :
  forall (side node_rest plug_rest attribute : string),
    side = "L" \/ side = "R" ->
    brace_free plug_rest = true ->
    brace_free attribute = true ->
    first_token (side +:+ node_rest) = side ->
    first_token (side +:+ plug_rest) = side ->
    template_connection (side +:+ plug_rest) (attribute +:+ side)
      = ("{}" +:+ plug_rest, attribute +:+ "{}")
    /\ plugs_to_connect (side +:+ node_rest) ("{}" +:+ plug_rest) (attribute +:+ "{}")
       = Returned [(side +:+ plug_rest,
                    (side +:+ node_rest) +:+ "." +:+ attribute +:+ side)].
Proof.
  intros side node_rest plug_rest attribute Hside Hplug Hattr Hnode Hsrc. split.
  - unfold template_connection. cbn [List.fold_left].
    destruct Hside as [-> | ->].
    + rewrite (startswith_app "L" plug_rest), (endswith_app attribute "L" "L") by reflexivity.
      cbn [negb andb].
      change (startswith ("{}" +:+ tail_str ("L" +:+ plug_rest)) "R") with false.
      cbn [andb]. change (tail_str ("L" +:+ plug_rest)) with plug_rest.
      now rewrite (drop_last_char_app attribute "L").
    + change (startswith ("R" +:+ plug_rest) "L") with false. cbn [andb].
      rewrite (startswith_app "R" plug_rest), (endswith_app attribute "R" "R") by reflexivity.
      cbn [negb andb]. change (tail_str ("R" +:+ plug_rest)) with plug_rest.
      now rewrite (drop_last_char_app attribute "R").
  - unfold plugs_to_connect. rewrite Hnode, (startswith_app "{}" plug_rest).
    assert (Hin : contains side "LR" = true) by (destruct Hside as [-> | ->]; reflexivity).
    assert (Hmid : String.eqb side "M" = false) by (destruct Hside as [-> | ->]; reflexivity).
    rewrite Hin, Hmid, (format_auto_field plug_rest side Hplug).
    cbn [andb outcome_bind map_outcome]. rewrite Hsrc.
    rewrite (endswith_app attribute "{}" "{}") by reflexivity.
    now rewrite (format_auto_field_last attribute side Hattr).
Qed.

Lemma template_connection_round_trip_witness :
  template_connection ("L" +:+ "_eye_ctrl.rotateX") ("aim_" +:+ "L")
    = ("{}" +:+ "_eye_ctrl.rotateX", "aim_" +:+ "{}")
  /\ plugs_to_connect ("L" +:+ "_eye_jnt") ("{}" +:+ "_eye_ctrl.rotateX") ("aim_" +:+ "{}")
     = Returned [("L" +:+ "_eye_ctrl.rotateX",
                  ("L" +:+ "_eye_jnt") +:+ "." +:+ "aim_" +:+ "L")].
Proof.
  apply (template_connection_round_trip "L" "_eye_jnt" "_eye_ctrl.rotateX" "aim_");
    first [now left | reflexivity].
Defined.

(** ** The other deformers of [rename_scene] *)

Lemma run_for_each_fixed {S A} (h : host S) (xs : list A) (body : A -> script unit) (s : S) :
  (forall x, In x xs -> body x = Return tt) ->
  run h (for_each xs body) s = Returned (tt, s) /\ trace h (for_each xs body) s = [].
Proof.
  induction xs as [|x xs IH]; intros Hbody; [now split|].
  cbn [for_each]. rewrite (Hbody x) by now left. cbn [bind].
  apply IH. intros y Hy. apply Hbody. now right.
Qed.

(** X27: a deformer whose last token is the suffix of every
    association of its type is left alone by the last block of
    [rename_scene]: on every host no command is issued for it. *)
Theorem rename_other_keeps_conforming_name :
  forall (cfg : config) (actual typ : string),
    (forall a, In a (DEFORMER_SUFFIX_ASSOCIATIONS cfg) -> type a = typ ->
               suffix a = last_token actual) ->
    forall (S : Type) (h : host S) (s : S),
      run h (rename_other cfg actual typ) s = Returned (tt, s)
      /\ trace h (rename_other cfg actual typ) s = [].
Proof.
  intros cfg actual typ Hconf S h s. unfold rename_other.
  apply run_for_each_fixed. intros data Hdata. cbv zeta.
  destruct (String.eqb (type data) typ) eqn:Htyp; [|reflexivity].
  apply String.eqb_eq in Htyp. rewrite (Hconf data Hdata Htyp), String.eqb_refl.
  reflexivity.
Qed.

Lemma rename_other_keeps_conforming_name_witness :
  run maya (rename_other cfg0 "M_jaw_cluster" "cluster") deformed_body
    = Returned (tt, deformed_body)
  /\ trace maya (rename_other cfg0 "M_jaw_cluster" "cluster") deformed_body = [].
Proof.
  apply (rename_other_keeps_conforming_name cfg0 "M_jaw_cluster" "cluster").
  intros a Hin Htype. simpl in Hin.
  destruct Hin as [<-|[<-|[<-|[]]]]; first [reflexivity | discriminate Htype].
Defined.

(** X28: on every host the last block of [rename_scene] issues
    nothing but queries, log messages and renames. *)
Theorem rename_other_deformers_only_reads_logs_and_renames :
  forall (cfg : config) (deformers_data : stacks) (S : Type) (h : host S) (s : S),
    Forall (fun e => queries e || reports e || renames e = true)
           (trace h (rename_other_deformers cfg deformers_data) s).
Proof.
  intros cfg deformers_data S h s. apply trace_issues_only.
  unfold rename_other_deformers. apply issues_only_for_each. intros item.
  apply issues_only_bind.
  - eapply issues_only_weaken; [|apply get_meshes_reads].
    intros e He. cbv beta in He |- *. now rewrite He.
  - intros meshes. apply issues_only_for_each. intros mesh.
    apply issues_only_bind.
    + eapply issues_only_weaken; [|apply list_deformers_queries].
      intros e He. cbv beta in He |- *. now rewrite He.
    + intros [actual_deformers types]. apply issues_only_for_each. intros [actual typ].
      unfold rename_other. apply issues_only_for_each. intros data. cbv zeta.
      destruct (negb _); [constructor|].
      destruct (String.eqb (last_token actual) _); [constructor|].
      destruct (String.eqb actual _); [constructor|].
      apply issues_only_bind; [apply issues_only_call; reflexivity | intros; constructor].
Qed.


(** * Runs one after the other, what a run adds, and the two sides *)

(** ** A second run *)

(** C1 (the code departs from it): a stack whose first entry has a
    suffix without association, after which comes a cluster.  The first
    run returns: it creates the cluster and, the type [cluster] being
    left in [deformer_type], hands the other name to [create_deformer],
    which makes nothing.  The second run finds that name missing again
    and, [deformer_type] being unbound in the new call, ends in
    [UnboundLocalError] instead of applying nothing. *)
Theorem second_run_after_silent_skip_raises :
  let s1 := after (create_all_deformers cfg0 data_silent_skip) s0 in
  run maya (create_all_deformers cfg0 data_silent_skip) s0 = Returned (tt, s1)
  /\ created_names (trace maya (create_all_deformers cfg0 data_silent_skip) s0)
     = ["M_x_cluster"]
  /\ chain s1 "M_body_compil_mesh" = ["M_x_cluster"]
  /\ exists_node s1 "M_jaw_unknown" = false
  /\ run maya (create_all_deformers cfg0 data_silent_skip) s1
     = Raised (UnboundLocalError "deformer_type")
  /\ trace maya (create_all_deformers cfg0 data_silent_skip) s1
     = [Issued (ListRelatives "M_body_compil_mesh" Children);
        Issued (ObjExists "M_x_cluster");
        Issued (DeformerAddGeometry "M_x_cluster" "M_body_compil_mesh");
        Issued (ObjExists "M_jaw_unknown")].
Proof.
  cbv zeta.
  split; [vm_compute; reflexivity|].
  split; [vm_compute; reflexivity|].
  split; [vm_compute; reflexivity|].
  split; [vm_compute; reflexivity|].
  split; vm_compute; reflexivity.
Qed.

(** ** What a run adds to the chains *)

Section Post.
Context (ok : issued -> Prop).

Lemma issues_post_only {A} (Q : A -> Prop) (p : script A) :
  issues_post ok Q p -> issues_only ok p.
Proof. induction 1; constructor; auto. Qed.


Lemma issues_post_bind {A B} (Q : A -> Prop) (R : B -> Prop) (p : script A)
    (f : A -> script B) :
  issues_post ok Q p -> (forall a, Q a -> issues_post ok R (f a)) ->
  issues_post ok R (bind p f).
Proof.
  intros Hp Hf. induction Hp as [a Ha|e|X c k Hc Hk IH]; simpl.
  - now apply Hf.
  - constructor.
  - constructor; [exact Hc | exact IH].
Qed.

Lemma issues_post_lift {A} (Q : A -> Prop) (o : outcome A) :
  (forall a, o = Returned a -> Q a) -> issues_post ok Q (lift o).
Proof. destruct o; intros H; constructor. now apply H. Qed.

(** A loop keeps what every iteration keeps. *)
Lemma issues_post_for_fold {A V} (Inv : V -> Prop) (xs : list A) (body : V -> A -> script V) :
  (forall v x, In x xs -> Inv v -> issues_post ok Inv (body v x)) ->
  forall v, Inv v -> issues_post ok Inv (for_fold xs v body).
Proof.
  induction xs as [|x xs IH]; intros Hbody v Hv; simpl.
  - now constructor.
  - apply (issues_post_bind Inv); [apply Hbody; [now left | exact Hv]|].
    intros v' Hv'. apply IH; [|exact Hv'].
    intros v0 y Hy. apply Hbody. now right.
Qed.

Lemma issues_only_for_fold_in {A V} (xs : list A) (body : V -> A -> script V) :
  (forall v x, In x xs -> issues_only ok (body v x)) ->
  forall v, issues_only ok (for_fold xs v body).
Proof.
  induction xs as [|x xs IH]; intros Hbody v; simpl.
  - constructor.
  - apply issues_only_bind; [apply Hbody; now left|].
    intros v'. apply IH. intros v0 y Hy. apply Hbody. now right.
Qed.

End Post.

Lemma queries_adds_only (P : string -> Prop) (e : issued) :
  queries e = true -> adds_only P e.
Proof.
  destruct e as [X []]; simpl; intros H; try discriminate H;
    (split; [reflexivity | intros n Hn; discriminate Hn]).
Qed.


(** [copy_deformers] attaches only names of its stack, and the names it
    reports missing are names of its stack as well. *)
Lemma copy_deformers_adds (P : string -> Prop) (target source : string)
    (types deformer_stack : list string) :
  deformer_stack <> [] ->
  (forall key n, In key deformer_stack -> resolution_of target key n -> P n) ->
  issues_post (adds_only P) (fun found => Forall P (fst found))
    (copy_deformers target source types deformer_stack).
Proof.
  intros Hne Hres. unfold copy_deformers.
  destruct deformer_stack as [|k ks] eqn:Hstack; [now destruct Hne|].
  rewrite <- Hstack in *. cbn [bind].
  apply (issues_post_for_fold _ (fun found : list string * list string => Forall P (fst found)));
    [|constructor].
  intros [missing raw_missing] deformer Hin Hmissing. simpl in Hmissing.
  apply List.in_rev in Hin.
  unfold copy_entry.
  apply (issues_post_bind _ (fun names => expand_deformer target deformer = Returned names)).
  { apply issues_post_lift. auto. }
  intros names Hnames.
  apply (issues_post_for_fold _ (fun found : list string * list string => Forall P (fst found)));
    [|exact Hmissing].
  intros [missing' raw_missing'] defo Hdefo Hmissing'. simpl in Hmissing'.
  assert (HP : P defo).
  { apply (Hres deformer defo Hin). exists names. now split. }
  unfold copy_deformer. cbn [bind call].
  constructor; [now apply queries_adds_only|]. intros [|]; cbn [bind].
  - constructor.
    + split; [reflexivity|]. intros n Hn. simpl in Hn. now inversion Hn; subst.
    + intros []. now constructor.
  - constructor. simpl. apply Forall_app. split; [exact Hmissing' | now constructor].
Qed.








(** *** On the in-memory host *)

Lemma grows_by_refl (P : string -> Prop) (s : scene) : grows_by P s s.
Proof.
  split.
  - intros n nd H. now exists nd.
  - intros g. exists []. split; [reflexivity | constructor].
Qed.

Lemma grows_by_exists (P : string -> Prop) (s s' : scene) (n : string) :
  grows_by P s s' -> exists_node s n = true -> exists_node s' n = true.
Proof.
  intros [Hnodes _] Hn. apply exists_node_true in Hn as [nd Hnd].
  destruct (Hnodes n nd Hnd) as (nd' & Hnd' & _).
  unfold exists_node. now rewrite Hnd'.
Qed.

Lemma grows_by_trans (P : string -> Prop) (s1 s2 s3 : scene) :
  grows_by P s1 s2 -> grows_by P s2 s3 -> grows_by P s1 s3.
Proof.
  intros H12 H23. pose proof (grows_by_exists P s2 s3) as Hkeep.
  destruct H12 as [Hn12 Hc12]. destruct H23 as [Hn23 Hc23]. split.
  - intros n nd H. destruct (Hn12 n nd H) as (nd2 & H2 & Ht2).
    destruct (Hn23 n nd2 H2) as (nd3 & H3 & Ht3).
    exists nd3. split; [exact H3 | congruence].
  - intros g. destruct (Hc12 g) as (a12 & H12 & HP12). destruct (Hc23 g) as (a23 & H23 & HP23).
    exists (a23 ++ a12). split; [now rewrite H23, H12, app_assoc|].
    apply Forall_app. split; [exact HP23|].
    eapply List.Forall_impl; [|exact HP12].
    intros n [HPn Hn]. split; [exact HPn|].
    apply Hkeep; [now split | exact Hn].
Qed.

Lemma grows_by_weaken (P P' : string -> Prop) (s s' : scene) :
  (forall n, P n -> P' n) -> grows_by P s s' -> grows_by P' s s'.
Proof.
  intros Himp [Hnodes Hchains]. split; [exact Hnodes|].
  intros g. destruct (Hchains g) as (added & Hadded & HP).
  exists added. split; [exact Hadded|].
  eapply List.Forall_impl; [|exact HP]. intros n [HPn Hn]. split; auto.
Qed.

(** A change that keeps every node with its type and leaves the chains
    alone. *)
Lemma grows_by_chains_same (P : string -> Prop) (s s' : scene) :
  (forall n nd, nodes s !! n = Some nd ->
     exists nd', nodes s' !! n = Some nd' /\ node_type nd' = node_type nd) ->
  chains s' = chains s -> grows_by P s s'.
Proof.
  intros Hn Hc. split; [exact Hn|].
  intros g. exists []. split; [|constructor]. unfold chain. now rewrite Hc.
Qed.

Lemma grows_by_same (P : string -> Prop) (s s' : scene) :
  nodes s' = nodes s -> chains s' = chains s -> grows_by P s s'.
Proof.
  intros Hn Hc. apply grows_by_chains_same; [|exact Hc].
  intros n nd H. exists nd. now rewrite Hn.
Qed.

Lemma grows_by_attach (P : string -> Prop) (d g : string) (s : scene) :
  P d -> exists_node s d = true -> grows_by P s (attach d g s).
Proof.
  intros HP Hd. split.
  - intros n nd H. exists nd. now rewrite nodes_attach.
  - intros g'. rewrite chain_attach.
    destruct (decide (g' = g)) as [->|]; [|exists []; split; [reflexivity | constructor]].
    destruct (mem d (chain s g)); [exists []; split; [reflexivity | constructor]|].
    exists [d]. split; [reflexivity|]. constructor; [|constructor].
    split; [exact HP | now rewrite exists_node_attach].
Qed.

Lemma grows_by_attach_all (P : string -> Prop) (d : string) (gs : list string) (s : scene) :
  P d -> exists_node s d = true -> grows_by P s (attach_all d gs s).
Proof.
  intros HP. unfold attach_all. revert s. induction gs as [|g gs IH]; intros s Hd; simpl.
  - apply grows_by_refl.
  - apply (grows_by_trans P s (attach d g s)); [now apply grows_by_attach|].
    apply IH. now rewrite exists_node_attach.
Qed.

Lemma grows_by_add_node (P : string -> Prop) (n typ : string) (s : scene) :
  exists_node s n = false -> grows_by P s (add_node n typ s).
Proof.
  intros Hfresh. apply exists_node_false in Hfresh.
  apply grows_by_chains_same; [|reflexivity].
  intros n' nd H. exists nd. split; [|reflexivity].
  simpl. rewrite lookup_insert_ne; [exact H | congruence].
Qed.

Lemma grows_by_new_deformer (P : string -> Prop) (name typ : string) (gs : list string)
    (s s' : scene) :
  P name -> new_deformer name typ gs s = Returned s' -> grows_by P s s'.
Proof.
  intros HP. unfold new_deformer. destruct (exists_node s name) eqn:Hfresh; [discriminate|].
  destruct (List.find _ gs); [discriminate|].
  intros H. inversion H; subst.
  apply (grows_by_trans _ _ (add_node name typ s));
    [now apply grows_by_add_node|].
  apply grows_by_attach_all; [exact HP | apply exists_node_add_node_eq].
Qed.

(** Every command that is not [rename] or [delete] leaves the scene
    grown by the deformer it creates or attaches, if any. *)
Lemma maya_grows {X} (c : cmd X) (s s' : scene) (x : X) :
  destructive (Issued c) = false ->
  maya X c s = Returned (x, s') ->
  grows_by (fun n => chain_name (Issued c) = Some n) s s'.
Proof.
  intros Hsafe Hrun.
  destruct c as [name | node which | node | pattern typ | d g | meshes name | meshes name
                 | meshes name | mesh wires name | driver driven name
                 | drivers drivens name | mesh name typ | mesh typ name | name js lock
                 | js mesh bm tsb mi nw rui omi name | node attribute value | src dst
                 | child parent | objects new_name | gone | message];
    simpl in Hsafe, Hrun; try discriminate;
    try (apply created_returned in Hrun as [_ Hrun];
         exact (grows_by_new_deformer _ name _ _ s s' eq_refl Hrun)).
  - inversion Hrun; subst. apply grows_by_refl.
  - destruct (nodes s !! node); [|discriminate].
    destruct which as [|[|]]; inversion Hrun; subst; apply grows_by_refl.
  - destruct (geometry_of s node); inversion Hrun; subst. apply grows_by_refl.
  - destruct (List.rev (list_ascii_of_string pattern)) as [|a l].
    + destruct (nodes s !! pattern); inversion Hrun; subst; apply grows_by_refl.
    + destruct (Ascii.eqb a "*") eqn:Ha.
      * apply Ascii.eqb_eq in Ha. subst a. inversion Hrun; subst. apply grows_by_refl.
      * assert (Hgen : match nodes s !! pattern with
                       | Some nd =>
                         Returned (Some (if String.eqb (node_type nd) typ
                                         then [pattern] else []), s)
                       | None => Returned (Some [], s)
                       end = Returned (x, s')).
        { revert Hrun. destruct a as [[] [] [] [] [] [] [] []]; try (intros H; exact H).
          discriminate Ha. }
        destruct (nodes s !! pattern); inversion Hgen; subst; apply grows_by_refl.
  - destruct (exists_node s d) eqn:Hd; simpl in Hrun; [|discriminate].
    destruct (exists_node s g); simpl in Hrun; [|discriminate].
    inversion Hrun; subst. now apply grows_by_attach.
  - destruct (exists_node s driver); simpl in Hrun; [|discriminate].
    apply created_returned in Hrun as [_ Hrun].
    destruct (new_deformer name "wrap" [driven] s) as [s1|e] eqn:Hnew; [|discriminate].
    simpl in Hrun.
    apply (grows_by_new_deformer (fun n => Some name = Some n)) in Hnew; [|reflexivity].
    destruct (exists_node s1 (driver +:+ "Base")) eqn:Hbase; inversion Hrun; subst.
    + exact Hnew.
    + eapply grows_by_trans; [exact Hnew | now apply grows_by_add_node].
  - destruct (List.find _ drivers); [discriminate|].
    apply created_returned in Hrun as [_ Hrun].
    exact (grows_by_new_deformer _ name _ _ s s' eq_refl Hrun).
  - destruct (exists_node s name); simpl in Hrun; [|discriminate].
    destruct (List.find _ js); inversion Hrun; subst. now apply grows_by_same.
  - destruct (List.find _ js); [discriminate|].
    apply created_returned in Hrun as [_ Hrun].
    destruct (new_deformer name "skinCluster" [mesh] s) as [s1|e] eqn:Hnew; [|discriminate].
    simpl in Hrun. inversion Hrun; subst.
    apply (grows_by_new_deformer (fun n => Some name = Some n)) in Hnew; [|reflexivity].
    eapply grows_by_trans; [exact Hnew | now apply grows_by_same].
  - destruct (exists_node s node); simpl in Hrun; inversion Hrun; subst.
    now apply grows_by_same.
  - destruct (exists_node s (fst dst)); simpl in Hrun; inversion Hrun; subst.
    now apply grows_by_same.
  - destruct (exists_node s child); simpl in Hrun; [|discriminate].
    destruct (nodes s !! parent) eqn:Hparent; inversion Hrun; subst.
    apply grows_by_chains_same; [|reflexivity].
    intros n0 nd Hn. simpl.
    destruct (decide (n0 = parent)) as [->|Hne].
    + rewrite lookup_alter_eq, lookup_fmap, Hn. simpl. eexists. split; reflexivity.
    + rewrite lookup_alter_ne by congruence. rewrite lookup_fmap, Hn. simpl.
      eexists. split; reflexivity.
  - inversion Hrun; subst. apply grows_by_refl.
Qed.

Lemma reached_returned {S A} (h : host S) (p : script A) (s s' : S) (a : A) :
  run h p s = Returned (a, s') -> reached h p s = s'.
Proof.
  revert s. induction p as [a0|e|X c k IH]; intros s Hrun; simpl in Hrun |- *.
  - now inversion Hrun.
  - discriminate.
  - destruct (h X c s) as [[x s1]|e]; [now apply IH | discriminate].
Qed.

(** Whatever way the script ends, the scene it has reached has grown
    by nothing but deformers the script may add. *)
Lemma reached_grows {A} (P : string -> Prop) (p : script A) :
  issues_only (adds_only P) p -> forall s : scene, grows_by P s (reached maya p s).
Proof.
  intros Hp. induction Hp as [a0|e|X c k [Hsafe Hname] Hk IH]; intros s; simpl.
  - apply grows_by_refl.
  - apply grows_by_refl.
  - destruct (maya X c s) as [[x s1]|e] eqn:Hc1; [|apply grows_by_refl].
    apply (grows_by_trans P s s1); [|apply IH].
    eapply grows_by_weaken; [exact Hname|]. exact (maya_grows c s s1 x Hsafe Hc1).
Qed.

(** *** What a run creates was missing when it started *)










(** ** Reconciling one mesh *)

Lemma mesh_grows_refl (mesh : string) (s : scene) : mesh_grows mesh s s.
Proof. repeat split; auto. Qed.

Lemma mesh_grows_trans (mesh : string) (s1 s2 s3 : scene) :
  mesh_grows mesh s1 s2 -> mesh_grows mesh s2 s3 -> mesh_grows mesh s1 s3.
Proof.
  intros (Hn12 & Hc12 & Hm12) (Hn23 & Hc23 & Hm23). split; [|split].
  - auto.
  - intros g Hg. now rewrite Hc23, Hc12.
  - auto.
Qed.

Lemma mesh_grows_same (mesh : string) (s s' : scene) :
  nodes s' = nodes s -> chains s' = chains s -> mesh_grows mesh s s'.
Proof.
  intros Hn Hc. unfold mesh_grows, chain. rewrite Hn, Hc. repeat split; auto.
Qed.

Lemma mesh_grows_attach (d mesh : string) (s : scene) : mesh_grows mesh s (attach d mesh s).
Proof.
  split; [|split].
  - intros n nd H. now rewrite nodes_attach.
  - intros g Hg. rewrite chain_attach. now destruct (decide (g = mesh)).
  - intros n Hn. rewrite chain_attach. destruct (decide (mesh = mesh)); [|congruence].
    destruct (mem d (chain s mesh)); [exact Hn|].
    unfold mem in *. simpl. rewrite Hn. apply orb_true_r.
Qed.

Lemma mesh_grows_new_deformer (name typ mesh : string) (s s' : scene) :
  new_deformer name typ [mesh] s = Returned s' -> mesh_grows mesh s s'.
Proof.
  unfold new_deformer. destruct (exists_node s name) eqn:Hfresh; [discriminate|].
  destruct (List.find _ [mesh]); [discriminate|].
  intros H. inversion H; subst. clear H.
  apply (mesh_grows_trans mesh s (add_node name typ s)); [|apply mesh_grows_attach].
  apply exists_node_false in Hfresh. split; [|split].
  - intros n nd Hn. simpl. rewrite lookup_insert_ne; [exact Hn | congruence].
  - reflexivity.
  - auto.
Qed.

(** A command that works on one mesh leaves the rest of the scene as
    it is. *)
Lemma maya_mesh_grows {X} (mesh : string) (c : cmd X) (s s' : scene) (x : X) :
  framed mesh (Issued c) ->
  maya X c s = Returned (x, s') ->
  mesh_grows mesh s s'.
Proof.
  intros Hframed Hrun.
  destruct c as [name | node which | node | pattern typ | d g | meshes name | meshes name
                 | meshes name | m wires name | driver driven name
                 | drivers drivens name | m name typ | m typ name | name js lock
                 | js m bm tsb mi nw rui omi name | node attribute value | src dst
                 | child parent | objects new_name | gone | message];
    simpl in Hframed, Hrun; try contradiction; subst;
    try (apply created_returned in Hrun as [_ Hrun];
         exact (mesh_grows_new_deformer name _ mesh s s' Hrun)).
  - inversion Hrun; subst. apply mesh_grows_refl.
  - destruct (nodes s !! node); [|discriminate].
    destruct which as [|[|]]; inversion Hrun; subst; apply mesh_grows_refl.
  - destruct (geometry_of s node); inversion Hrun; subst. apply mesh_grows_refl.
  - destruct (List.rev (list_ascii_of_string pattern)) as [|a l].
    + destruct (nodes s !! pattern); inversion Hrun; subst; apply mesh_grows_refl.
    + destruct (Ascii.eqb a "*") eqn:Ha.
      * apply Ascii.eqb_eq in Ha. subst a. inversion Hrun; subst. apply mesh_grows_refl.
      * assert (Hgen : match nodes s !! pattern with
                       | Some nd =>
                         Returned (Some (if String.eqb (node_type nd) typ
                                         then [pattern] else []), s)
                       | None => Returned (Some [], s)
                       end = Returned (x, s')).
        { revert Hrun. destruct a as [[] [] [] [] [] [] [] []]; try (intros H; exact H).
          discriminate Ha. }
        destruct (nodes s !! pattern); inversion Hgen; subst; apply mesh_grows_refl.
  - destruct (exists_node s d); simpl in Hrun; [|discriminate].
    destruct (exists_node s mesh); simpl in Hrun; [|discriminate].
    inversion Hrun; subst. apply mesh_grows_attach.
  - destruct (exists_node s name); simpl in Hrun; [|discriminate].
    destruct (List.find _ js); inversion Hrun; subst. now apply mesh_grows_same.
  - destruct (List.find _ js); [discriminate|].
    apply created_returned in Hrun as [_ Hrun].
    destruct (new_deformer name "skinCluster" [mesh] s) as [s1|e] eqn:Hnew; [|discriminate].
    simpl in Hrun. inversion Hrun; subst. apply mesh_grows_new_deformer in Hnew.
    eapply mesh_grows_trans; [exact Hnew | now apply mesh_grows_same].
  - destruct (exists_node s node); simpl in Hrun; inversion Hrun; subst.
    now apply mesh_grows_same.
  - inversion Hrun; subst. apply mesh_grows_refl.
Qed.

Lemma run_mesh_grows {A} (mesh : string) (p : script A) :
  issues_only (framed mesh) p ->
  forall (s s' : scene) (a : A), run maya p s = Returned (a, s') -> mesh_grows mesh s s'.
Proof.
  intros Hp. induction Hp as [a0|e|X c k Hc Hk IH]; intros s s' a Hrun; simpl in Hrun.
  - inversion Hrun; subst. apply mesh_grows_refl.
  - discriminate.
  - destruct (maya X c s) as [[x s1]|e] eqn:Hc1; [|discriminate].
    apply (mesh_grows_trans mesh s s1);
      [exact (maya_mesh_grows mesh c s s1 x Hc Hc1) | exact (IH x s1 s' a Hrun)].
Qed.

Lemma queries_framed (mesh : string) (e : issued) : queries e = true -> framed mesh e.
Proof. destruct e as [X []]; simpl; intros H; try discriminate H; exact I. Qed.

Lemma copy_deformers_framed (target source : string) (types deformer_stack : list string) :
  issues_only (framed target) (copy_deformers target source types deformer_stack).
Proof.
  unfold copy_deformers. apply issues_only_bind.
  - destruct deformer_stack; [|constructor].
    apply issues_only_bind; [|intros; constructor].
    eapply issues_only_weaken; [|apply list_deformers_queries]. apply queries_framed.
  - intros stack'. apply issues_only_for_fold. intros acc deformer.
    unfold copy_entry. apply issues_only_bind; [apply issues_only_lift|]. intros names.
    apply issues_only_for_fold. intros [missing raw_missing] defo.
    unfold copy_deformer. apply issues_only_bind; [apply issues_only_call; exact I|].
    intros [|]; [|constructor].
    apply issues_only_bind; [apply issues_only_call; reflexivity | intros; constructor].
Qed.

Ltac framing :=
  repeat match goal with
  | |- issues_only _ (bind _ _) => apply issues_only_bind; [|intros ?]
  | |- issues_only _ (call _) => apply issues_only_call; first [exact I | reflexivity]
  | |- issues_only _ (Call _ _) => constructor; [first [exact I | reflexivity] | intros ?]
  | |- issues_only _ (lift _) => apply issues_only_lift
  | |- issues_only _ (Return _) => constructor
  | |- issues_only _ (Raise _) => constructor
  | |- issues_only _ (match ?x with _ => _ end) => destruct x
  | |- issues_only _ _ => progress cbv beta
  end.

(** Creating a missing deformer that can be created works on the mesh
    alone. *)
Lemma create_missing_framed (cfg : config) (deformers : stack) (mesh key name : string)
    (deformer_type : local) (s : scene) :
  creatable cfg deformers s key name ->
  issues_only (framed mesh) (create_missing cfg deformers mesh deformer_type (key, name)).
Proof.
  intros (t & Hassoc & Hkind).
  unfold create_missing. rewrite Hassoc.
  destruct Hkind as [[Hplain Hd]|(-> & p & js & uh & env & Hd & Hj & Hu & He & Hjs)].
  - simpl in Hplain. unfold create_deformer. cbn [truthy_opt_str]. rewrite Hassoc, Hd.
    destruct Hplain as [<-|[<-|[<-|[<-|[]]]]]; cbn; framing.
  - cbn [truthy_str String.eqb Ascii.eqb Bool.eqb negb].
    rewrite Hd. cbn [outcome_bind subscriptable lift bind].
    rewrite Hj, Hu, He. cbn [param lift bind].
    unfold bind_skincluster. framing.
Qed.

Lemma run_post {S A} (h : host S) (ok : issued -> Prop) (Q : A -> Prop) (p : script A) :
  issues_post ok Q p ->
  forall (s s' : S) (a : A), run h p s = Returned (a, s') -> Q a.
Proof.
  intros Hp. induction Hp as [a0 Ha|e|X c k Hc Hk IH]; intros s s' a Hrun; simpl in Hrun.
  - now inversion Hrun; subst.
  - discriminate.
  - destruct (h X c s) as [[x s1]|e]; [exact (IH x s1 s' a Hrun) | discriminate].
Qed.

(** Every name [copy_deformers] reports missing comes with the key of
    the stack it stands for. *)
Lemma copy_deformers_pairs (target source : string) (types deformer_stack : list string) :
  deformer_stack <> [] ->
  issues_post (fun _ => True)
    (fun found => Forall2 (fun raw n => In raw deformer_stack /\ resolution_of target raw n)
                          (snd found) (fst found))
    (copy_deformers target source types deformer_stack).
Proof.
  intros Hne. unfold copy_deformers.
  destruct deformer_stack as [|k ks] eqn:Hstack; [now destruct Hne|].
  rewrite <- Hstack in *. cbn [bind].
  set (Q := fun found : list string * list string =>
              Forall2 (fun raw n => In raw deformer_stack /\ resolution_of target raw n)
                      (snd found) (fst found)).
  apply (issues_post_for_fold _ Q); [|constructor].
  intros [missing raw_missing] deformer Hin Hacc. apply List.in_rev in Hin.
  unfold copy_entry.
  apply (issues_post_bind _ (fun names => expand_deformer target deformer = Returned names)).
  { apply issues_post_lift. auto. }
  intros names Hnames.
  apply (issues_post_for_fold _ Q); [|exact Hacc].
  intros [missing' raw_missing'] defo Hdefo Hacc'.
  unfold copy_deformer. cbn [bind call].
  constructor; [exact I|]. intros [|]; cbn [bind].
  - constructor; [exact I|]. intros []. now constructor.
  - constructor. unfold Q in *. simpl in *. apply Forall2_app; [exact Hacc'|].
    constructor; [|constructor]. split; [exact Hin|]. exists names. now split.
Qed.


Lemma creatable_kept (cfg : config) (deformers : stack) (key n : string) (s s' : scene) :
  (forall j, exists_node s j = true -> exists_node s' j = true) ->
  creatable cfg deformers s key n -> creatable cfg deformers s' key n.
Proof.
  intros Hkept (t & Hassoc & Hkind). exists t. split; [exact Hassoc|].
  destruct Hkind as [Hplain|(-> & p & js & uh & env & Hd & Hj & Hu & He & Hjs)];
    [now left|right].
  split; [reflexivity|]. exists p, js, uh, env. repeat (split; [assumption|]).
  eapply List.Forall_impl; [|exact Hjs]. exact Hkept.
Qed.

Lemma in_concat_rev {A} (x : A) (l : list (list A)) :
  In x (List.concat l) -> In x (List.concat (List.rev l)).
Proof.
  intros Hin. apply List.in_concat in Hin as (ns & Hns & Hx).
  apply List.in_concat. exists ns. split; [now apply List.in_rev in Hns | exact Hx].
Qed.

Lemma forall2_key {A B} (R : A -> B -> Prop) (xs : list A) (ys : list B) (x : A) :
  Forall2 R xs ys -> In x xs -> exists y, In y ys /\ R x y.
Proof.
  intros H Hin. apply forall2_left in H. rewrite List.Forall_forall in H. now apply H.
Qed.

(** Reconciling a mesh that can be reconciled returns, and leaves every
    name of the stack on the mesh and the rest of the scene as it
    was. *)
Lemma create_mesh_deformers_applies (cfg : config) (deformers : stack) (mesh : string)
    (deformer_type : local) (s : scene) :
  deformers <> [] ->
  reconcilable cfg deformers s mesh ->
  exists (dt' : local) (s' : scene),
    run maya (create_mesh_deformers cfg deformers deformer_type mesh) s = Returned (dt', s')
    /\ stack_applied s' mesh deformers
    /\ mesh_grows mesh s s'.
Proof.
  intros Hne (Hmesh & Hchain & names & Hnames & Hnodup).
  set (keys := List.map fst deformers) in *.
  assert (Hkeys : keys <> []).
  { unfold keys. destruct deformers; [now destruct Hne | discriminate]. }
  assert (Hexp : Forall2 (fun key ns => expand_deformer mesh key = Returned ns) keys names).
  { eapply Forall2_impl; [exact Hnames|]. now intros key ns [H _]. }
  (* the walk of the stack *)
  destruct (copy_deformers_returns s mesh "" ["cluster"; "ffd"] keys Hkeys Hmesh)
    as (missing & raw_missing & st & Hcopy).
  { apply forall2_left in Hexp. eapply List.Forall_impl; [|exact Hexp].
    intros key (ns & _ & Hns). now exists ns. }
  destruct (copy_deformers_on_maya s st mesh "" ["cluster"; "ffd"] keys names
              missing raw_missing Hkeys Hexp Hcopy) as (Hmissing & (Hsame & Hother & Hkeep) & Hon).
  pose proof (run_post maya _ _ _ (copy_deformers_pairs mesh "" ["cluster"; "ffd"] keys Hkeys)
                s st _ Hcopy) as Hpairs.
  simpl in Hpairs.
  assert (Hgrown : grows_by (fun _ => True) s st).
  { rewrite <- (reached_returned maya _ s st _ Hcopy).
    apply reached_grows.
    apply (issues_post_only _ (fun found : list string * list string =>
                                 Forall (fun _ => True) (fst found))).
    now apply copy_deformers_adds. }
  destruct (forall2_combine _ _ _ Hpairs) as (_ & Hsnd & Hitems).
  set (items := List.combine raw_missing missing) in *.
  assert (Habsent : forall n, In n missing -> exists_node s n = false).
  { intros n Hn. rewrite Hmissing in Hn. unfold absent in Hn.
    apply List.filter_In in Hn as [_ Hn]. now apply negb_true_iff in Hn. }
  assert (Hready : Forall (fun kn => exists_node st (snd kn) = false
                                     /\ mem (snd kn) (chain st mesh) = false
                                     /\ creatable cfg deformers st (fst kn) (snd kn)) items).
  { rewrite List.Forall_forall in Hitems |- *. intros [key n] Hin.
    destruct (Hitems _ Hin) as [Hkey (ns' & Hns' & Hn)]. simpl in *.
    assert (Hfree : exists_node s n = false).
    { apply Habsent. rewrite <- Hsnd. apply List.in_map_iff. now exists (key, n). }
    split; [now rewrite (exists_node_same s st n Hsame)|]. split.
    - destruct (mem n (chain st mesh)) eqn:Hmem; [|reflexivity].
      apply mem_cases in Hmem. destruct Hgrown as [_ Hchains].
      destruct (Hchains mesh) as (added & Hadded & Hnodes).
      rewrite Hadded in Hmem. apply List.in_app_or in Hmem as [Hmem|Hmem].
      + rewrite List.Forall_forall in Hnodes. destruct (Hnodes n Hmem) as [_ Hex].
        rewrite (exists_node_same s st n Hsame) in Hex. congruence.
      + rewrite List.Forall_forall in Hchain. rewrite (Hchain n Hmem) in Hfree.
        discriminate.
    - destruct (forall2_key _ _ _ key Hnames Hkey) as (ns & _ & Hns & Hall).
      assert (ns = ns') by congruence. subst ns'.
      rewrite List.Forall_forall in Hall. destruct (Hall n Hn) as [Hex|Hcreatable];
        [congruence|].
      eapply creatable_kept; [|exact Hcreatable].
      intros j Hj. now rewrite (exists_node_same s st j Hsame). }
  (* the creation of what is missing *)
  destruct (create_missing_fold cfg deformers mesh items deformer_type st)
    as (dt' & s' & Hrun & Hchain' & _ & Hkept & Hmade).
  { now rewrite (exists_node_same s st mesh Hsame). }
  { rewrite Hsnd, Hmissing. unfold absent. apply List.NoDup_filter.
    now apply nodup_concat_rev. }
  { exact Hready. }
  assert (Hframe : mesh_grows mesh st s').
  { eapply run_mesh_grows; [|exact Hrun].
    apply issues_only_for_fold_in. intros dt [key n] Hin.
    rewrite List.Forall_forall in Hready. destruct (Hready _ Hin) as (_ & _ & Hcreatable).
    exact (create_missing_framed cfg deformers mesh key n dt st Hcreatable). }
  exists dt', s'. split; [|split].
  - unfold create_mesh_deformers. rewrite run_bind. fold keys. rewrite Hcopy. exact Hrun.
  - split; [exact Hne|]. split.
    { apply Hkept. now rewrite (exists_node_same s st mesh Hsame). }
    fold keys. apply List.Forall_forall. intros key Hkey.
    destruct (forall2_key _ _ _ key Hnames Hkey) as (ns & Hin & Hns & _).
    exists ns. split; [exact Hns|]. apply List.Forall_forall. intros n Hn.
    assert (Hall : In n (List.concat names)).
    { apply List.in_concat. now exists ns. }
    destruct (exists_node s n) eqn:Hex.
    + split.
      * apply Hkept. now rewrite (exists_node_same s st n Hsame).
      * destruct Hframe as (_ & _ & Hmem). apply Hmem. now apply Hon.
    + assert (Hmiss : In n missing).
      { rewrite Hmissing. unfold absent. apply List.filter_In.
        split; [now apply in_concat_rev | now rewrite Hex]. }
      split.
      * rewrite List.Forall_forall in Hmade. apply Hmade. now rewrite Hsnd.
      * rewrite Hchain', Hsnd. apply mem_in, List.in_or_app. left.
        now apply List.in_rev in Hmiss.
  - apply (mesh_grows_trans mesh s st); [|exact Hframe].
    split; [|split]; [|exact Hother | exact Hkeep].
    intros n nd Hn. now rewrite Hsame.
Qed.

(** ** The two sides of a templated target *)


Lemma is_leaf_kept (mesh obj : string) (s s' : scene) :
  mesh_grows mesh s s' -> is_leaf s obj -> is_leaf s' obj.
Proof. intros (Hnodes & _) (nd & Hnd & Hleaf). exists nd. split; [now apply Hnodes | exact Hleaf]. Qed.


(** An object without child transforms is reconciled as one mesh. *)
Lemma create_object_deformers_leaf (cfg : config) (deformers : stack)
    (deformer_type : local) (obj : string) (s : scene) :
  is_leaf s obj ->
  run maya (create_object_deformers cfg deformers deformer_type obj) s
  = run maya (create_mesh_deformers cfg deformers deformer_type obj) s.
Proof.
  intros (nd & Hnd & Hleaf). unfold create_object_deformers.
  rewrite run_bind, (get_children_maya s obj nd Hnd).
  unfold meshes_of in Hleaf. cbv zeta in Hleaf. rewrite Hleaf.
  apply run_for_fold_one.
Qed.





(** ** Two runs, one after the other *)

(** X30: a table with one target, a mesh without child transforms
    whose name does not start with the side placeholder and that can
    be reconciled against its stack.  On the in-memory host the first
    run returns and leaves every name of the stack as a deformer on
    the mesh; a second run from the scene the first has left returns
    that very scene, creates nothing, and [copy_deformers] reports
    nothing missing. *)
Theorem reconciled_mesh_second_run_changes_nothing :
  forall (cfg : config) (mesh : string) (deformers : stack) (s : scene),
    startswith mesh "{}" = false ->
    deformers <> [] ->
    is_leaf s mesh ->
    reconcilable cfg deformers s mesh ->
    exists s1 : scene,
      run maya (create_all_deformers cfg [(mesh, deformers)]) s = Returned (tt, s1)
      /\ stack_applied s1 mesh deformers
      /\ run maya (create_all_deformers cfg [(mesh, deformers)]) s1 = Returned (tt, s1)
      /\ created_names (trace maya (create_all_deformers cfg [(mesh, deformers)]) s1) = []
      /\ run maya (copy_deformers mesh "" ["cluster"; "ffd"] (List.map fst deformers)) s1
         = Returned (([], []), s1).
Proof.
  intros cfg mesh deformers s Hplain Hne Hleaf Hready.
  destruct (create_mesh_deformers_applies cfg deformers mesh None s Hne Hready)
    as (dt1 & s1 & Hrun1 & Happlied & Hgrows).
  exists s1.
  assert (Hfirst : run maya (create_all_deformers cfg [(mesh, deformers)]) s
                   = Returned (tt, s1)).
  { unfold create_all_deformers. rewrite run_bind, run_for_fold_one.
    rewrite (proj1 (create_node_deformers_plain maya cfg None mesh deformers s Hplain)).
    now rewrite (create_object_deformers_leaf cfg deformers None mesh s Hleaf), Hrun1. }
  assert (Hconf : conformant s1 [(mesh, deformers)]).
  { constructor; [|constructor]. exists [mesh]. split.
    - unfold expand_node. simpl. now rewrite Hplain.
    - constructor; [|constructor].
      destruct (is_leaf_kept mesh mesh s s1 Hgrows Hleaf) as (nd & Hnd & Hmeshes).
      exists nd. split; [exact Hnd|]. simpl. rewrite Hmeshes.
      constructor; [exact Happlied | constructor]. }
  destruct (conformant_run_unchanged cfg [(mesh, deformers)] s1 Hconf)
    as (Hsecond & Htrace & Hcopy).
  split; [exact Hfirst|]. split; [exact Happlied|]. split; [exact Hsecond|]. split.
  - apply created_names_none. eapply List.Forall_impl; [|exact Htrace]. now intros e [_ He].
  - now apply Hcopy.
Qed.

Lemma reconciled_mesh_second_run_changes_nothing_witness :
  let deformers := [("M_jaw_cluster", None); ("M_face_ffd", None)] in
  exists s1 : scene,
    run maya (create_all_deformers cfg0 [("M_body_compil_mesh", deformers)]) s0
      = Returned (tt, s1)
    /\ stack_applied s1 "M_body_compil_mesh" deformers
    /\ run maya (create_all_deformers cfg0 [("M_body_compil_mesh", deformers)]) s1
       = Returned (tt, s1)
    /\ created_names (trace maya (create_all_deformers cfg0 [("M_body_compil_mesh", deformers)]) s1)
       = []
    /\ run maya (copy_deformers "M_body_compil_mesh" "" ["cluster"; "ffd"]
                   (List.map fst deformers)) s1
       = Returned (([], []), s1).
Proof.
  cbv zeta.
  apply (reconciled_mesh_second_run_changes_nothing cfg0 "M_body_compil_mesh"
           [("M_jaw_cluster", None); ("M_face_ffd", None)] s0).
  - reflexivity.
  - discriminate.
  - eexists. split; vm_compute; reflexivity.
  - split; [vm_compute; reflexivity|]. split; [vm_compute; constructor|].
    exists [["M_jaw_cluster"]; ["M_face_ffd"]]. split.
    + constructor; [|constructor; [|constructor]].
      * split; [reflexivity|]. constructor; [|constructor]. right.
        exists "cluster". split; [reflexivity|]. left. split; [simpl; auto | reflexivity].
      * split; [reflexivity|]. constructor; [|constructor]. right.
        exists "ffd". split; [reflexivity|]. left. split; [simpl; auto | reflexivity].
    + repeat constructor; simpl; intuition discriminate.
Defined.
